(** * Cocktail suggestion system: ingestion pipeline and mixed-search gate

    A shallow embedding of [src/data_processor.py], of
    [DatabaseSetup.get_connection] from [src/database_setup.py] and of
    [handle_mixed_search] from [src/app.py], with the properties of the
    specification stated over it.

    Conventions.
    - A Python [str] is a [string]; a character is a code point below 256.
    - A Python object held in a DataFrame cell, or produced by
      [ast.literal_eval], is a [pyval]: the code only ever asks such an
      object for its truth value, its [str()] rendering and, for text, the
      [str] methods [startswith] and [strip].
    - A function that may raise returns a [result]; code that talks to the
      store, the embedder, the file system or the console runs in the
      state-and-exception monad [M], where the effects performed before a
      [raise] stay performed. *)

From Stdlib Require Import String Ascii List Bool Arith Lia.
From Stdlib Require Import Numbers.DecimalString.
Import ListNotations.
Local Open Scope list_scope.
Local Open Scope string_scope.

Set Implicit Arguments.

(* ===================================================================== *)
(** ** Text *)
(* ===================================================================== *)

Module Text.

(** The newline character, [chr(10)]. *)
Definition nl : string := String (ascii_of_nat 10) EmptyString.

(** [c.isspace()] for a code point below 256; [str.strip()] and the
    regular expression class [\s] on [str] patterns use the same table:
    tab, LF, VT, FF, CR, FS, GS, RS, US, space, NEL and NBSP. *)
Definition is_space (c : ascii) : bool :=
  let n := nat_of_ascii c in
  (((9 <=? n) && (n <=? 13)) || ((28 <=? n) && (n <=? 32))
   || (n =? 133) || (n =? 160))%nat.

(** [s.lstrip()] *)
Fixpoint lstrip (s : string) : string :=
  match s with
  | EmptyString => EmptyString
  | String c s' => if is_space c then lstrip s' else s
  end.

(** [s.rstrip()] *)
Fixpoint rstrip (s : string) : string :=
  match s with
  | EmptyString => EmptyString
  | String c s' =>
      match rstrip s' with
      | EmptyString => if is_space c then EmptyString else String c EmptyString
      | r => String c r
      end
  end.

(** [s.strip()] *)
Definition strip (s : string) : string := lstrip (rstrip s).

(** [re.sub(r'\s+', ' ', s)], scanning left to right; [in_run] tells
    that the previous character belonged to the whitespace run whose
    replacement has already been emitted. *)
Fixpoint sub_ws (in_run : bool) (s : string) : string :=
  match s with
  | EmptyString => EmptyString
  | String c s' =>
      if is_space c
      then (if in_run then sub_ws true s' else String " " (sub_ws true s'))
      else String c (sub_ws false s')
  end.

Definition collapse_ws (s : string) : string := sub_ws false s.

(** [s.startswith(p)] *)
Fixpoint startswith (p s : string) : bool :=
  match p with
  | EmptyString => true
  | String a p' =>
      match s with
      | EmptyString => false
      | String b s' => Ascii.eqb a b && startswith p' s'
      end
  end.

(** [bool(s)] *)
Definition nonempty (s : string) : bool :=
  match s with EmptyString => false | _ => true end.

(** [sep.join(parts)] *)
Definition join (sep : string) (parts : list string) : string :=
  String.concat sep parts.

(** [str(n)] for a non-negative [int] *)
Definition of_nat (n : nat) : string := NilEmpty.string_of_uint (Nat.to_uint n).

(** [s[:n]] *)
Definition take (n : nat) (s : string) : string := String.substring 0 n s.

Definition first_char (s : string) : option ascii :=
  match s with
  | EmptyString => None
  | String c _ => Some c
  end.

Fixpoint last_char (s : string) : option ascii :=
  match s with
  | EmptyString => None
  | String c s' =>
      match last_char s' with
      | Some d => Some d
      | None => Some c
      end
  end.

(** No whitespace at either end. *)
Definition trimmed (s : string) : Prop :=
  (forall c, first_char s = Some c -> is_space c = false)
  /\ (forall c, last_char s = Some c -> is_space c = false).

(** Every whitespace character is a plain space, and no two of them are
    adjacent: each run of whitespace has length one. *)
Fixpoint single_spaced (s : string) : Prop :=
  match s with
  | EmptyString => True
  | String c s' =>
      (is_space c = true ->
         c = " "%char /\
         match s' with
         | EmptyString => True
         | String d _ => is_space d = false
         end)
      /\ single_spaced s'
  end.

End Text.

(* ===================================================================== *)
(** ** Python values, exceptions and pandas rows *)
(* ===================================================================== *)

(** A Python object as the pipeline sees it. [PStr] is a [str]. [PNaN] is
    the float NaN that pandas puts in an empty CSV cell. [PObj t r] is any
    other object (a number, [None], a nested container, ...), given by its
    truth value [t] and its [str()] rendering [r]. *)
Inductive pyval : Type :=
| PStr (s : string)
| PNaN
| PObj (truthy : bool) (shown : string).

(** Python's [None]. *)
Definition PNone : pyval := PObj false "None".

(** [bool(v)] *)
Definition py_bool (v : pyval) : bool :=
  match v with
  | PStr s => Text.nonempty s
  | PNaN => true
  | PObj t _ => t
  end.

(** [str(v)], which is also what an f-string field [{v}] renders. *)
Definition py_str (v : pyval) : string :=
  match v with
  | PStr s => s
  | PNaN => "nan"
  | PObj _ r => r
  end.

Definition pyval_eqb (a b : pyval) : bool :=
  match a, b with
  | PStr s, PStr t => String.eqb s t
  | PNaN, PNaN => true
  | PObj t r, PObj t' r' => Bool.eqb t t' && String.eqb r r'
  | _, _ => false
  end.

(** The exceptions that can travel through the pipeline. [LiteralError]
    stands for the [ValueError] / [SyntaxError] of [ast.literal_eval];
    [ExternalError] is whatever the database driver, the embedding model
    or the CSV reader raises, with its message. *)
Inductive exn : Type :=
| AttributeError (msg : string)
| KeyError (key : string)
| IndexError (msg : string)
| LiteralError
| ExternalError (msg : string).

(** [str(e)] *)
Definition exn_str (e : exn) : string :=
  match e with
  | AttributeError m => m
  | KeyError k => "'" ++ k ++ "'"
  | IndexError m => m
  | LiteralError => "malformed node or string"
  | ExternalError m => m
  end.

Inductive result (A : Type) : Type :=
| Ok (a : A)
| Raise (e : exn).
Arguments Ok {A} a.
Arguments Raise {A} e.

Module Res.
Definition bind {A B} (r : result A) (k : A -> result B) : result B :=
  match r with
  | Ok a => k a
  | Raise e => Raise e
  end.

(** [try: body / except Exception: handler] *)
Definition try_except {A} (body : result A) (handler : exn -> result A) : result A :=
  match body with
  | Ok a => Ok a
  | Raise e => handler e
  end.
End Res.

Declare Scope res_scope.
Delimit Scope res_scope with res.
Notation "x <- c ;; k" := (Res.bind c (fun x => k))
  (at level 61, c at next level, right associativity) : res_scope.

(** A method of [str] called on [v]: only a [str] has it. *)
Definition as_str (method : string) (v : pyval) : result string :=
  match v with
  | PStr s => Ok s
  | _ => Raise (AttributeError ("object has no attribute '" ++ method ++ "'"))
  end.

(** A pandas [Series] obtained from a DataFrame row: labels and values in
    column order. *)
Definition Series : Type := list (string * pyval).

(** [row.get(key)], with [None] as Rocq's [None] *)
Fixpoint row_get (key : string) (row : Series) : option pyval :=
  match row with
  | [] => None
  | (k, v) :: rest => if String.eqb k key then Some v else row_get key rest
  end.

(** [key in row] *)
Definition row_has (key : string) (row : Series) : bool :=
  match row_get key row with Some _ => true | None => false end.

(** [row.get(key, '')] *)
Definition row_get_default (key : string) (row : Series) : pyval :=
  match row_get key row with Some v => v | None => PStr "" end.

(** [row[key]] *)
Definition row_item (key : string) (row : Series) : result pyval :=
  match row_get key row with Some v => Ok v | None => Raise (KeyError key) end.

(** Truth value of the outcome of [row.get(key)]: Python's [None] is false. *)
Definition opt_bool (o : option pyval) : bool :=
  match o with Some v => py_bool v | None => false end.

(** [row[key] = v]: overwrite in place, or append a new label. *)
Fixpoint row_set (key : string) (v : pyval) (row : Series) : Series :=
  match row with
  | [] => [(key, v)]
  | (k, w) :: rest =>
      if String.eqb k key then (k, v) :: rest else (k, w) :: row_set key v rest
  end.

(** A pandas [DataFrame]: the column labels and the rows, each row carrying
    one value per column. *)
Record DataFrame : Type := mkDF {
  columns : list string;
  rows : list Series
}.

(** [col in df.columns] *)
Definition has_col (col : string) (df : DataFrame) : bool :=
  existsb (String.eqb col) (columns df).

(* ===================================================================== *)
(** ** Record normalizer and text composer ([data_processor.py]) *)
(* ===================================================================== *)

(** The test both branches apply to a candidate ingredient (and the legacy
    branch to a measure):
    [v and str(v).strip() and str(v).strip() != sentinel]. *)
Definition present (sentinel : string) (v : pyval) : bool :=
  py_bool v
  && Text.nonempty (Text.strip (py_str v))
  && negb (String.eqb (Text.strip (py_str v)) sentinel).

(** The same test on the outcome of [row.get(...)]. *)
Definition present_opt (sentinel : string) (o : option pyval) : bool :=
  match o with Some v => present sentinel v | None => false end.

(** [f'strIngredient{i}'], [f'strMeasure{i}'] *)
Definition slot (stem : string) (i : nat) : string := stem ++ Text.of_nat i.

(** [range(1, 16)] *)
Definition legacy_slots : list nat := seq 1 15.

(** ['name' if 'name' in row else 'strDrink'] and its siblings. *)
Definition pick_col (new legacy : string) (row : Series) : string :=
  if row_has new row then new else legacy.

(** ['ingredients' in row and row['ingredients']] *)
Definition new_shape (row : Series) : bool :=
  row_has "ingredients" row && opt_bool (row_get "ingredients" row).

Section Normalizer.

(** [ast.literal_eval] on a text that starts with an opening bracket:
    [None] when it raises, otherwise the elements of the sequence it
    returns (a list or, for a text such as ["[1], 2"], a tuple). *)
Variable literal_eval : string -> option (list pyval).

Definition eval_literal (s : string) : result (list pyval) :=
  match literal_eval s with
  | Some l => Ok l
  | None => Raise LiteralError
  end.

(** The local list [ingredients] of [get_ingredents_list] when the
    function reaches its [return]. Inside the [try] every statement that
    can raise comes before the first [append], so the handler starts
    from the empty list. *)
Definition ingredient_names (row : Series) : result (list string) :=
  if new_shape row then
    Res.try_except
      (v <- row_item "ingredients" row ;;
       ingredients_str <- as_str "startswith" v ;;
       if Text.startswith "[" ingredients_str then
         ingredients_list <- eval_literal ingredients_str ;;
         Ok (map (fun ingredient => Text.strip (py_str ingredient))
                 (filter (present "None") ingredients_list))
       else
         Ok (if Text.nonempty (Text.strip ingredients_str)
             then [Text.strip ingredients_str] else []))%res
      (fun _ =>
         v <- row_item "ingredients" row ;;
         raw <- as_str "strip" v ;;
         Ok (if Text.nonempty (Text.strip raw) then [Text.strip raw] else []))%res
  else
    Ok (flat_map
          (fun i =>
             match row_get (slot "strIngredient" i) row with
             | Some ingredient =>
                 if present "nan" ingredient
                 then [Text.strip (py_str ingredient)] else []
             | None => []
             end)
          legacy_slots).

(** [get_ingredents_list] *)
Definition get_ingredents_list (row : Series) : result string :=
  (ingredients <- ingredient_names row ;;
   Ok (Text.join ", " ingredients))%res.

(** The part of the recipe written before the ingredient lines. *)
Definition recipe_header (row : Series) : string :=
  let name_col := pick_col "name" "strDrink" row in
  let category_col := pick_col "category" "strCategory" row in
  let alcoholic_col := pick_col "alcoholic" "strAlcoholic" row in
  let glass_col := pick_col "glassType" "strGlass" row in
  let instructions_col := pick_col "instructions" "strInstructions" row in
  Text.nl ++ "Drink: " ++ py_str (row_get_default name_col row) ++ Text.nl ++ " "
  ++ "Category: " ++ py_str (row_get_default category_col row) ++ Text.nl
  ++ "Type: " ++ py_str (row_get_default alcoholic_col row) ++ Text.nl
  ++ "Glass: " ++ py_str (row_get_default glass_col row) ++ Text.nl
  ++ (if opt_bool (row_get instructions_col row)
      then "Instructions: " ++ py_str (row_get_default instructions_col row) ++ Text.nl
      else "")
  ++ "Ingredients:" ++ Text.nl.

(** [f"- {measure} {ingredient}\n"] and [f"- {ingredient}\n"] *)
Definition line_with (measure ingredient : pyval) : string :=
  "- " ++ py_str measure ++ " " ++ py_str ingredient ++ Text.nl.
Definition line_without (ingredient : pyval) : string :=
  "- " ++ py_str ingredient ++ Text.nl.

(** New shape:
    [i < len(measures) and measures[i] and str(measures[i]).strip() != 'None'] *)
Definition measure_usable (measures : list pyval) (i : nat) : option pyval :=
  match nth_error measures i with
  | Some m =>
      if py_bool m && negb (String.eqb (Text.strip (py_str m)) "None")
      then Some m else None
  | None => None
  end.

(** The loop [for i, ingredient in enumerate(ingredients)], from index [i]. *)
Fixpoint new_lines (measures : list pyval) (i : nat) (ingredients : list pyval) : string :=
  match ingredients with
  | [] => ""
  | ingredient :: rest =>
      (if present "None" ingredient then
         match measure_usable measures i with
         | Some m => line_with m ingredient
         | None => line_without ingredient
         end
       else "")
      ++ new_lines measures (S i) rest
  end.

(** A field read the way both [ingredients] and [ingredientMeasures] are:
    a list literal is evaluated, anything else is a one-element list. *)
Definition parse_field (v : pyval) : result (list pyval) :=
  (s <- as_str "startswith" v ;;
   if Text.startswith "[" s then eval_literal s else Ok [PStr s])%res.

(** One iteration of the legacy loop [for i in range(1, 16)]. *)
Definition legacy_line (row : Series) (i : nat) : string :=
  match row_get (slot "strIngredient" i) row with
  | Some ingredient =>
      if present "nan" ingredient then
        match row_get (slot "strMeasure" i) row with
        | Some measure =>
            if present "nan" measure
            then line_with measure ingredient
            else line_without ingredient
        | None => line_without ingredient
        end
      else ""
  | None => ""
  end.

(** The ingredient lines of [create_recipe_text]. In the new-shape
    branch every statement that can raise comes before the loop, so the
    handler appends its fallback line to the bare header. *)
Definition ingredient_lines (row : Series) : result string :=
  if new_shape row then
    Res.try_except
      (v <- row_item "ingredients" row ;;
       ingredients <- parse_field v ;;
       measures <-
         (if row_has "ingredientMeasures" row
             && opt_bool (row_get "ingredientMeasures" row)
          then (m <- row_item "ingredientMeasures" row ;; parse_field m)
          else Ok []) ;;
       Ok (new_lines measures 0 ingredients))%res
      (fun _ =>
         v <- row_item "ingredients" row ;;
         Ok (line_without v))%res
  else
    Ok (String.concat "" (map (legacy_line row) legacy_slots)).

(** [create_recipe_text] *)
Definition create_recipe_text (row : Series) : result string :=
  (lines <- ingredient_lines row ;;
   Ok (recipe_header row ++ lines))%res.

End Normalizer.

(* ===================================================================== *)
(** ** A reference reader for list literals *)
(* ===================================================================== *)

(** The development is parametric in [ast.literal_eval]. For worked
    examples it is instantiated with this reader of the fragment the corpus
    uses: a bracketed, comma-separated display of plain quoted strings
    (either quote, no backslash) and [None], with optional blanks and an
    optional trailing comma. On that fragment it returns what
    [ast.literal_eval] returns; it is only ever run on such texts and on
    texts whose bracket is never closed, which both readers refuse. *)
Module Literal.

Inductive state : Type :=
| Start                                  (* nothing read yet *)
| Open                                   (* after '[' or ',' *)
| InStr (quote : ascii) (acc : string)   (* inside a string, [acc] reversed *)
| Keyword (rest : string)                (* inside [None], [rest] still to come *)
| AfterItem                              (* after an element *)
| Closed.                                (* after ']' *)

Fixpoint rev_string (acc s : string) : string :=
  match s with
  | EmptyString => acc
  | String c s' => rev_string (String c acc) s'
  end.

Definition is_quote (c : ascii) : bool :=
  Ascii.eqb c "'"%char || Ascii.eqb c (ascii_of_nat 34).

Fixpoint run (st : state) (items : list pyval) (s : string) : option (list pyval) :=
  match s with
  | EmptyString =>
      match st with
      | Closed => Some (rev items)
      | _ => None
      end
  | String c s' =>
      match st with
      | Start => if Ascii.eqb c "["%char then run Open items s' else None
      | Open =>
          if Ascii.eqb c " "%char then run Open items s'
          else if is_quote c then run (InStr c "") items s'
          else if Ascii.eqb c "N"%char then run (Keyword "one") items s'
          else if Ascii.eqb c "]"%char then run Closed items s'
          else None
      | InStr q acc =>
          if Ascii.eqb c q then run AfterItem (PStr (rev_string "" acc) :: items) s'
          else if Ascii.eqb c "\"%char then None
          else if Ascii.eqb c (ascii_of_nat 10) then None
          else run (InStr q (String c acc)) items s'
      | Keyword EmptyString => None
      | Keyword (String k rest) =>
          if Ascii.eqb c k
          then (match rest with
                | EmptyString => run AfterItem (PNone :: items) s'
                | _ => run (Keyword rest) items s'
                end)
          else None
      | AfterItem =>
          if Ascii.eqb c " "%char then run AfterItem items s'
          else if Ascii.eqb c ","%char then run Open items s'
          else if Ascii.eqb c "]"%char then run Closed items s'
          else None
      | Closed => if Ascii.eqb c " "%char then run Closed items s' else None
      end
  end.

Definition literal_eval (s : string) : option (list pyval) := run Start [] s.

End Literal.


(* ===================================================================== *)
(** ** Effects: the store, the embedder, the file system, the console *)
(* ===================================================================== *)

(** What [psycopg2.connect] returns. *)
Inductive Connection : Type := PgConn.

(** What [connection.cursor()] returns. *)
Inductive Cursor : Type := PgCursor.

(** The calls that leave the process and may fail there. *)
Inductive Op : Type :=
| OpConnect
| OpDelete
| OpEncode
| OpInsert (idx : nat)
| OpCommit
| OpRollback.

Section Pipeline.

(** An embedding, as the model's [encode] returns it. *)
Variable Vec : Type.

(** One row of the table [cocktails], without its surrogate id; the
    fields are the Python values handed to the driver. *)
Record StoredCocktail : Type := mkStored {
  sc_name : pyval;
  sc_ingredients : string;
  sc_recipe : string;
  sc_glass : pyval;
  sc_category : pyval;
  sc_alcoholic : pyval;
  sc_embedding : Vec
}.

(** The calls issued to the store and to the embedder, as they happen. *)
Inductive Event : Type :=
| EvConnect
| EvDelete
| EvEncode (texts : list pyval)
| EvInsert (r : StoredCocktail)
| EvCommit
| EvRollback
| EvClose.

(** [committed] is the table as any other session sees it; [txn] is the
    table as seen inside the open transaction of this session, if there
    is one; [trace] lists the calls issued so far, oldest first;
    [stdout] lists the printed lines, oldest first. *)
Record State : Type := mkState {
  committed : list StoredCocktail;
  txn : option (list StoredCocktail);
  trace : list Event;
  stdout : list string
}.

Definition M (A : Type) : Type := State -> result A * State.

Definition ret {A} (a : A) : M A := fun s => (Ok a, s).
Definition raise {A} (e : exn) : M A := fun s => (Raise e, s).
Definition bind {A B} (m : M A) (k : A -> M B) : M B :=
  fun s =>
    match m s with
    | (Ok a, s') => k a s'
    | (Raise e, s') => (Raise e, s')
    end.
Definition lift {A} (r : result A) : M A := fun s => (r, s).

(** [try: x = first; rest / except Exception as e: handler]. The handler
    is told whether the local [x] had been bound when the exception was
    raised, which is what ['x' in locals()] asks. *)
Definition try_binding {A B} (first : M A) (rest : A -> M B)
           (handler : option A -> exn -> M B) : M B :=
  fun s =>
    match first s with
    | (Ok a, s1) =>
        match rest a s1 with
        | (Ok b, s2) => (Ok b, s2)
        | (Raise e, s2) => handler (Some a) e s2
        end
    | (Raise e, s1) => handler None e s1
    end.

(** [try: body / except Exception as e: handler] *)
Definition try_except {A} (body : M A) (handler : exn -> M A) : M A :=
  fun s =>
    match body s with
    | (Ok a, s') => (Ok a, s')
    | (Raise e, s') => handler e s'
    end.

Definition print (line : string) : M unit :=
  fun s => (Ok tt, mkState (committed s) (txn s) (trace s) (stdout s ++ [line])%list).

Definition emit (ev : Event) : M unit :=
  fun s => (Ok tt, mkState (committed s) (txn s) (trace s ++ [ev])%list (stdout s)).

Definition set_txn (t : option (list StoredCocktail)) : M unit :=
  fun s => (Ok tt, mkState (committed s) t (trace s) (stdout s)).

(** The table as this session sees it. *)
Definition view (s : State) : list StoredCocktail :=
  match txn s with Some t => t | None => committed s end.

Notation "x <- c ;; k" := (bind c (fun x => k))
  (at level 61, c at next level, right associativity).
Notation "c ;;; k" := (bind c (fun _ => k))
  (at level 61, right associativity).

(** The collaborators. [literal_eval] is [ast.literal_eval] as in the
    normalizer. [encode] is [SentenceTransformer.encode] on a list of
    texts. [read_csv path] is what [pd.read_csv(path)] returns or
    raises. [fault op] is the message of the error with which the call
    [op] fails in this run, if it does. Opening a cursor, closing it and
    closing the connection are local to the driver and do not fail on an
    open connection. *)
Variable literal_eval : string -> option (list pyval).
Variable encode : list pyval -> list Vec.
Variable read_csv : string -> result DataFrame.
Variable fault : Op -> option string.

(** Issue the call [op], recorded as [ev]: it raises the driver's error
    if the run has one for it, and otherwise has the effect [effect]. *)
Definition call (op : Op) (ev : Event) (effect : M unit) : M unit :=
  emit ev ;;;
  match fault op with
  | Some msg => raise (ExternalError msg)
  | None => effect
  end.

(** [psycopg2.connect(...)] *)
Definition connect : M Connection :=
  call OpConnect EvConnect (ret tt) ;;; ret PgConn.

(** [DatabaseSetup.get_connection] *)
Definition get_connection : M (option Connection) :=
  try_except
    (connection <- connect ;; ret (Some connection))
    (fun e =>
       print ("Error connecting to the database: " ++ exn_str e) ;;;
       ret None).

(** A method called on the value of the local [connection], which is
    [None] when [get_connection] failed. *)
Definition on_connection {A} (method : string) (connection : option Connection)
           (action : M A) : M A :=
  match connection with
  | Some PgConn => action
  | None =>
      raise (AttributeError
               ("'NoneType' object has no attribute '" ++ method ++ "'"))
  end.

(** [connection.cursor()] *)
Definition cursor_of (connection : option Connection) : M Cursor :=
  on_connection "cursor" connection (ret PgCursor).

(** [cursor.execute("DELETE FROM cocktails")] *)
Definition execute_delete (cursor : Cursor) : M unit :=
  call OpDelete EvDelete (set_txn (Some [])).

(** [cursor.execute("INSERT INTO cocktails ... VALUES ...", r)], issued
    for the row of index [idx]. *)
Definition execute_insert (cursor : Cursor) (idx : nat) (r : StoredCocktail) : M unit :=
  call (OpInsert idx) (EvInsert r)
       (fun s => set_txn (Some (view s ++ [r])%list) s).

(** [connection.commit()] *)
Definition commit (connection : option Connection) : M unit :=
  on_connection "commit" connection
    (call OpCommit EvCommit
          (fun s => (Ok tt, mkState (view s) None (trace s) (stdout s)))).

(** [connection.rollback()] *)
Definition rollback (connection : option Connection) : M unit :=
  on_connection "rollback" connection
    (call OpRollback EvRollback (set_txn None)).

(** [connection.close()]: work that was not committed is discarded. *)
Definition close (connection : option Connection) : M unit :=
  on_connection "close" connection (emit EvClose ;;; set_txn None).

(** [cursor.close()] *)
Definition cursor_close (cursor : Cursor) : M unit := ret tt.

(** [generate_embeddings] *)
Definition generate_embeddings (texts : list pyval) : M (list Vec) :=
  call OpEncode (EvEncode texts) (ret tt) ;;; ret (encode texts).

(** [load_data] *)
Definition load_data (csv_path : string) : M (option DataFrame) :=
  try_except
    (df <- lift (read_csv csv_path) ;;
     print ("Loaded " ++ Text.of_nat (length (rows df)) ++ " cocktails from " ++ csv_path) ;;;
     ret (Some df))
    (fun e =>
       print ("Error loading data: " ++ exn_str e) ;;;
       ret None).

(* --------------------------------------------------------------- *)
(** *** [clean_data] *)

(** ['name' if 'name' in df.columns else 'strDrink'] and its siblings. *)
Definition detect_col (new legacy : string) (df : DataFrame) : string :=
  if has_col new df then new else legacy.

(** The value of column [col] in [row]; every row of a DataFrame has one
    for each of its columns. *)
Definition cell (col : string) (row : Series) : pyval :=
  row_get_default col row.

(** [df.drop_duplicates(subset=[col])]: the first row of each value of
    [col] is kept; [seen] holds the values met so far. *)
Fixpoint drop_duplicates (col : string) (seen : list pyval) (rs : list Series)
  : list Series :=
  match rs with
  | [] => []
  | r :: rest =>
      if existsb (pyval_eqb (cell col r)) seen
      then drop_duplicates col seen rest
      else r :: drop_duplicates col (cell col r :: seen) rest
  end.

(** [df.fillna("")] on one row. *)
Definition fillna (row : Series) : Series :=
  map (fun kv => match snd kv with
                 | PNaN => (fst kv, PStr "")
                 | _ => kv
                 end) row.

(** [df[col].astype(str) + ' '], on one row. *)
Definition piece (col : string) (row : Series) : string :=
  py_str (cell col row) ++ " ".

(** [df['combined_text']] on one row before it is cleaned: the pieces
    appended by lines 44 to 67, in order. *)
Definition compose_text (df : DataFrame) (row : Series) : string :=
  let name_col := detect_col "name" "strDrink" df in
  let category_col := detect_col "category" "strCategory" df in
  let alcoholic_col := detect_col "alcoholic" "strAlcoholic" df in
  let glass_col := detect_col "glassType" "strGlass" df in
  let instructions_col := detect_col "instructions" "strInstructions" df in
  (if has_col name_col df then piece name_col row else "")
  ++ (if has_col category_col df then piece category_col row else "")
  ++ (if has_col alcoholic_col df then piece alcoholic_col row else "")
  ++ (if has_col glass_col df then piece glass_col row else "")
  ++ (if has_col "ingredients" df
      then piece "ingredients" row
      else String.concat ""
             (map (fun col => piece col row)
                  (filter (Text.startswith "strIngredient") (columns df))))
  ++ (if has_col instructions_col df then piece instructions_col row else "").

(** [.str.replace(r'\s+', ' ', regex=True).str.strip()] *)
Definition clean_text (s : string) : string :=
  Text.strip (Text.collapse_ws s).

(** The value [clean_data] stores in column [combined_text] for [row]. *)
Definition combined_text (df : DataFrame) (row : Series) : string :=
  clean_text (compose_text df row).

(** [df['combined_text'] = ...] *)
Definition with_combined_text (df : DataFrame) : DataFrame :=
  mkDF (if has_col "combined_text" df
        then columns df
        else (columns df ++ ["combined_text"])%list)
       (map (fun row => row_set "combined_text" (PStr (combined_text df row)) row)
            (rows df)).

(** [clean_data] *)
Definition clean_data (df : DataFrame) : M DataFrame :=
  let name_col := detect_col "name" "strDrink" df in
  let category_col := detect_col "category" "strCategory" df in
  let alcoholic_col := detect_col "alcoholic" "strAlcoholic" df in
  let glass_col := detect_col "glassType" "strGlass" df in
  print ("Detected columns: name='" ++ name_col ++ "', category='" ++ category_col
         ++ "', alcoholic='" ++ alcoholic_col ++ ", glass='" ++ glass_col ++ "'") ;;;
  df <- (if has_col name_col df
         then
           let df := mkDF (columns df) (drop_duplicates name_col [] (rows df)) in
           print ("After removing duplicates: " ++ Text.of_nat (length (rows df))
                  ++ " cocktails") ;;;
           ret df
         else ret df) ;;
  let df := mkDF (columns df) (map fillna (rows df)) in
  let df := with_combined_text df in
  sample <- lift (match rows df with
                  | first :: _ => Ok (py_str (cell "combined_text" first))
                  | [] => Raise (IndexError "single positional indexer is out-of-bounds")
                  end) ;;
  print ("Sample combined text: " ++ Text.take 100 sample ++ "...") ;;;
  ret df.

(* --------------------------------------------------------------- *)
(** *** [store_cocktails] *)

(** [df[col].to_list()] *)
Definition column_to_list (col : string) (df : DataFrame) : result (list pyval) :=
  if has_col col df then Ok (map (cell col) (rows df)) else Raise (KeyError col).

(** [all_embeddings[idx]] *)
Definition embedding_at (all_embeddings : list Vec) (idx : nat) : result Vec :=
  match nth_error all_embeddings idx with
  | Some v => Ok v
  | None => Raise (IndexError "index out of bounds")
  end.

(** The tuple bound to the INSERT statement for [row]. *)
Definition stored_of (row : Series) (embedding : Vec) : result StoredCocktail :=
  let name_col := pick_col "name" "strDrink" row in
  let category_col := pick_col "category" "strCategory" row in
  let alcoholic_col := pick_col "alcoholic" "strAlcoholic" row in
  let glass_col := pick_col "glassType" "strGlass" row in
  let name := row_get_default name_col row in
  (ingredients <- get_ingredents_list literal_eval row ;;
   recipe <- create_recipe_text literal_eval row ;;
   let glass := row_get_default glass_col row in
   let category := row_get_default category_col row in
   let alcoholic := row_get_default alcoholic_col row in
   Ok (mkStored name ingredients recipe glass category alcoholic embedding))%res.

(** The loop [for idx, (_, row) in enumerate(df.iterrows())], from [idx]. *)
Fixpoint insert_rows (cursor : Cursor) (all_embeddings : list Vec) (idx : nat)
         (rs : list Series) : M unit :=
  match rs with
  | [] => ret tt
  | row :: rest =>
      embedding <- lift (embedding_at all_embeddings idx) ;;
      r <- lift (stored_of row embedding) ;;
      execute_insert cursor idx r ;;;
      (if Nat.eqb ((idx + 1) mod 100) 0
       then print ("Stored " ++ Text.of_nat (idx + 1) ++ " cocktails...")
       else ret tt) ;;;
      insert_rows cursor all_embeddings (S idx) rest
  end.

(** The statements of the [try] block that follow the binding of
    [connection]. *)
Definition store_body (df : DataFrame) (connection : option Connection) : M unit :=
  cursor <- cursor_of connection ;;
  execute_delete cursor ;;;
  print ("Generating embedding for " ++ Text.of_nat (length (rows df)) ++ " cocktails...") ;;;
  texts <- lift (column_to_list "combined_text" df) ;;
  all_embeddings <- generate_embeddings texts ;;
  print "Storing cocktails in database..." ;;;
  insert_rows cursor all_embeddings 0 (rows df) ;;;
  commit connection ;;;
  cursor_close cursor ;;;
  close connection ;;;
  print ("Successfully stored " ++ Text.of_nat (length (rows df))
         ++ " cocktails in the database").

(** The [except Exception as e] block. *)
Definition store_handler (bound : option (option Connection)) (e : exn) : M unit :=
  print ("Error storing cocktails: " ++ exn_str e) ;;;
  match bound with
  | Some connection => rollback connection ;;; close connection
  | None => ret tt
  end.

(** [store_cocktails] *)
Definition store_cocktails (df : DataFrame) : M unit :=
  try_binding get_connection (store_body df) store_handler.

(** [process_and_store] *)
Definition process_and_store (csv_path : string) : M unit :=
  loaded <- load_data csv_path ;;
  match loaded with
  | None => ret tt
  | Some df =>
      df <- clean_data df ;;
      store_cocktails df
  end.

End Pipeline.

Arguments EvConnect {Vec}.
Arguments EvDelete {Vec}.
Arguments EvEncode {Vec} texts.
Arguments EvInsert {Vec} r.
Arguments EvCommit {Vec}.
Arguments EvRollback {Vec}.
Arguments EvClose {Vec}.

(* ===================================================================== *)
(** ** The mixed-preferences form ([app.py]) *)
(* ===================================================================== *)

(** What the widgets of [handle_mixed_search] return in one script run:
    the two multiselects, the two select boxes, and whether the button,
    if it is drawn, was clicked. *)
Record MixedForm : Type := mkForm {
  f_ingredients : list string;
  f_styles : list string;
  f_occasion : string;
  f_alcoholic_pref : string;
  f_button : bool
}.

(** The keyword arguments of [recommend_by_mixed_preferences]. *)
Record MixedQuery : Type := mkQuery {
  q_ingredients : option (list string);
  q_style : option (list string);
  q_occasion : option string;
  q_alcoholic_preference : option string;
  q_limit : nat
}.

(** [xs or None] for a list, [s or None] for a text. *)
Definition list_or_none (xs : list string) : option (list string) :=
  match xs with [] => None | _ => Some xs end.
Definition str_or_none (s : string) : option string :=
  if Text.nonempty s then Some s else None.

(** [bool(xs)] for a list. *)
Definition list_bool (xs : list string) : bool :=
  match xs with [] => false | _ => true end.

Section App.

(** A cocktail as the recommender returns it, and the recommender's
    [recommend_by_mixed_preferences]; module [recommender] is a
    collaborator of the page. *)
Variable Cocktail : Type.
Variable recommend_by_mixed_preferences : MixedQuery -> list Cocktail.

(** [handle_mixed_search]: the list it returns, and the calls it made to
    the recommender, in order. *)
Definition handle_mixed_search (form : MixedForm) : list Cocktail * list MixedQuery :=
  if existsb (fun b : bool => b)
             [list_bool (f_ingredients form); list_bool (f_styles form);
              Text.nonempty (f_occasion form); Text.nonempty (f_alcoholic_pref form)]
  then
    if f_button form then
      let q := mkQuery (list_or_none (f_ingredients form))
                       (list_or_none (f_styles form))
                       (str_or_none (f_occasion form))
                       (str_or_none (f_alcoholic_pref form))
                       10 in
      (recommend_by_mixed_preferences q, [q])
    else ([], [])
  else ([], []).

End App.

(* ===================================================================== *)
(** ** Notions used to state the properties *)
(* ===================================================================== *)

(** What the scalar branch and the handler of [get_ingredents_list]
    append: the stripped field, if anything is left of it. *)
Definition one_or_none (s : string) : list string :=
  if Text.nonempty (Text.strip s) then [Text.strip s] else [].

Section RunNotions.

Variable Vec : Type.
Variable literal_eval : string -> option (list pyval).
Variable encode : list pyval -> list Vec.
Variable fault : Op -> option string.

Definition is_insert (ev : Event Vec) : bool :=
  match ev with EvInsert _ => true | _ => false end.
Definition is_encode (ev : Event Vec) : bool :=
  match ev with EvEncode _ => true | _ => false end.
Definition is_delete (ev : Event Vec) : bool :=
  match ev with EvDelete => true | _ => false end.

(** Position of the first event satisfying [p]. *)
Fixpoint first_index (p : Event Vec -> bool) (evs : list (Event Vec)) : option nat :=
  match evs with
  | [] => None
  | ev :: rest =>
      if p ev then Some 0
      else match first_index p rest with
           | Some n => Some (S n)
           | None => None
           end
  end.

(** How far an ingestion has got: nothing cleared yet, cleared, embedded. *)
Inductive Phase : Type := Untouched | Cleared | Embedded.

(** The order of the pipeline as an automaton over the calls: the clear
    comes first and once, the embedding follows it and comes once, an
    insert needs both. [None] is a violation. *)
Definition phase_step (p : Phase) (ev : Event Vec) : option Phase :=
  match ev, p with
  | EvDelete, Untouched => Some Cleared
  | EvDelete, _ => None
  | EvEncode _, Cleared => Some Embedded
  | EvEncode _, _ => None
  | EvInsert _, Embedded => Some Embedded
  | EvInsert _, _ => None
  | _, _ => Some p
  end.

Fixpoint phase_run (p : Phase) (evs : list (Event Vec)) : option Phase :=
  match evs with
  | [] => Some p
  | ev :: rest =>
      match phase_step p ev with
      | Some q => phase_run q rest
      | None => None
      end
  end.

(** The tuples [store_cocktails] binds to its INSERT statements for the
    rows [rs], the first of them having index [idx]. *)
Fixpoint stored_all (all_embeddings : list Vec) (idx : nat) (rs : list Series)
  : result (list (StoredCocktail Vec)) :=
  match rs with
  | [] => Ok []
  | row :: rest =>
      (embedding <- embedding_at all_embeddings idx ;;
       r <- stored_of literal_eval row embedding ;;
       others <- stored_all all_embeddings (S idx) rest ;;
       Ok (r :: others))%res
  end.

(** What the [try] block of [store_cocktails] has issued on its open
    connection when it stops before the end: the clear alone; the clear,
    the one embedding call on all the texts and some inserts; or the
    clear, the embedding, the accepted insert of every row and a commit
    that was refused. *)
Inductive stopped_early (df : DataFrame) : list (Event Vec) -> Prop :=
| StopAtClear : stopped_early df [EvDelete]
| StopAtInsert texts ins :
    column_to_list "combined_text" df = Ok texts ->
    forallb is_insert ins = true ->
    stopped_early df (EvDelete :: EvEncode texts :: ins)
| StopAtCommit texts stored :
    column_to_list "combined_text" df = Ok texts ->
    stored_all (encode texts) 0 (rows df) = Ok stored ->
    (forall i, i < length (rows df) -> fault (OpInsert i) = None) ->
    fault OpCommit <> None ->
    stopped_early df (EvDelete :: EvEncode texts :: map (@EvInsert Vec) stored
                               ++ [EvCommit]).

(** The frame [clean_data] returns: duplicates of the name dropped, empty
    cells filled, the column [combined_text] set. *)
Definition cleaned (df : DataFrame) : DataFrame :=
  let name_col := detect_col "name" "strDrink" df in
  with_combined_text
    (mkDF (columns df)
          (map fillna
               (if has_col name_col df
                then drop_duplicates name_col [] (rows df)
                else rows df))).

(** The last line printed. *)
Definition last_line (s : State Vec) : string := List.last (stdout s) "".

(** The three ways a call of [store_cocktails] can go. *)
Inductive store_outcome (df : DataFrame) (s : State Vec) (r : result unit) (s' : State Vec) : Prop :=
| NoConnection msg :
    fault OpConnect = Some msg ->
    r = Raise (AttributeError "'NoneType' object has no attribute 'rollback'") ->
    trace s' = (trace s ++ [EvConnect])%list ->
    committed s' = committed s ->
    store_outcome df s r s'
| Aborted e evs :
    fault OpConnect = None ->
    stopped_early df evs ->
    committed s' = committed s ->
    last_line s' = "Error storing cocktails: " ++ exn_str e ->
    (fault OpRollback = None /\ r = Ok tt
     /\ trace s' = (trace s ++ EvConnect :: evs ++ [EvRollback; EvClose])%list)
    \/ (exists msg, fault OpRollback = Some msg /\ r = Raise (ExternalError msg)
                    /\ trace s' = (trace s ++ EvConnect :: evs ++ [EvRollback])%list) ->
    store_outcome df s r s'
| Stored texts stored :
    fault OpConnect = None ->
    r = Ok tt ->
    column_to_list "combined_text" df = Ok texts ->
    stored_all (encode texts) 0 (rows df) = Ok stored ->
    trace s' = (trace s ++ EvConnect :: EvDelete :: EvEncode texts
                          :: map (@EvInsert Vec) stored ++ [EvCommit; EvClose])%list ->
    committed s' = stored ->
    fault OpDelete = None -> fault OpEncode = None -> fault OpCommit = None ->
    (forall i, i < length (rows df) -> fault (OpInsert i) = None) ->
    last_line s' = "Successfully stored " ++ Text.of_nat (length (rows df))
                   ++ " cocktails in the database" ->
    store_outcome df s r s'.

End RunNotions.

(* ===================================================================== *)
(** ** Sample data *)
(* ===================================================================== *)

Module Sample.

Definition martini : Series :=
  [("name", PStr "Martini"); ("category", PStr "Cocktail");
   ("alcoholic", PStr "Alcoholic"); ("glassType", PStr "Cocktail glass");
   ("instructions", PStr "Stir  with ice."); 
   ("ingredients", PStr "['Gin', 'Vermouth']");
   ("ingredientMeasures", PStr "['2 oz']")].

(** A measure that is only a blank. *)
Definition blank_measure : Series :=
  [("name", PStr "Neat"); ("ingredients", PStr "['Gin']");
   ("ingredientMeasures", PStr "[' ']")].

(** The same drink in the legacy shape. *)
Definition blank_measure_legacy : Series :=
  [("strDrink", PStr "Neat"); ("strIngredient1", PStr "Gin");
   ("strMeasure1", PStr " ")].

(** A list literal whose bracket is never closed. *)
Definition unclosed : Series :=
  [("name", PStr "Broken"); ("ingredients", PStr "['Gin', 'Vermouth'")].

(** A scalar ingredient field that reads [None]. *)
Definition scalar_none : Series :=
  [("name", PStr "Ghost"); ("ingredients", PStr "None")].

Definition new_columns : list string :=
  ["name"; "category"; "alcoholic"; "glassType"; "instructions";
   "ingredients"; "ingredientMeasures"].

Definition corpus : DataFrame := mkDF new_columns [martini].

(** Embeddings are kept abstract; here one number per text. *)
Definition encode (texts : list pyval) : list nat :=
  map (fun t => String.length (py_str t)) texts.

Definition no_fault (op : Op) : option string := None.

Definition insert_fault (op : Op) : option string :=
  match op with
  | OpInsert 0 => Some "value too long for type character varying(255)"
  | _ => None
  end.

Definition no_file (path : string) : result DataFrame :=
  Raise (ExternalError "No such file or directory").

Definition one_file (path : string) : result DataFrame := Ok corpus.

Definition empty_store : State nat := mkState [] None [] [].

(** A store that already holds a corpus of one cocktail. *)
Definition old_row : StoredCocktail nat :=
  mkStored (PStr "Negroni") "Gin, Campari, Vermouth" "" (PStr "Old-fashioned glass")
           (PStr "Cocktail") (PStr "Alcoholic") 7.
Definition old_store : State nat := mkState [old_row] None [] [].

(** The corpus as [clean_data] hands it to [store_cocktails]. *)
Definition cleaned_corpus : DataFrame := cleaned corpus.

(** A new-shape list literal holding the text [nan]. *)
Definition list_nan : Series :=
  [("name", PStr "Ghost"); ("ingredients", PStr "['Gin', 'nan']")].

End Sample.


(* ===================================================================== *)
(** ** Notions used to state further properties of the pipeline *)
(* ===================================================================== *)

(** The value of the name column of [df] in [row], as [drop_duplicates]
    compares it. *)
Definition name_of (df : DataFrame) (row : Series) : pyval :=
  cell (detect_col "name" "strDrink" df) row.

(** The rows [clean_data] keeps: all of them when the frame has no name
    column, otherwise what [drop_duplicates] leaves. *)
Definition kept_rows (df : DataFrame) : list Series :=
  if has_col (detect_col "name" "strDrink" df) df
  then drop_duplicates (detect_col "name" "strDrink" df) [] (rows df)
  else rows df.

(** What [clean_data] makes of a row it keeps: the empty cells filled, the
    cell [combined_text] set. *)
Definition decorate (df : DataFrame) (row : Series) : Series :=
  row_set "combined_text" (PStr (combined_text df (fillna row))) (fillna row).

(** A cell as [pd.read_csv] leaves it in a column of texts: a text, or NaN
    where the file had nothing. *)
Definition text_or_nan (v : pyval) : Prop :=
  v = PNaN \/ exists s, v = PStr s.

(* ===================================================================== *)
(** ** The page: cleaning and showing a cocktail ([app.py]) *)
(* ===================================================================== *)

Module Markup.

(** The class [\w] of a [str] pattern, for a code point below 256: the
    digits, the letters and the underscore of ASCII, and the letters and
    numbers of Latin-1. *)
Definition is_word (c : ascii) : bool :=
  let n := nat_of_ascii c in
  (((48 <=? n) && (n <=? 57)) || ((65 <=? n) && (n <=? 90)) || (n =? 95)
   || ((97 <=? n) && (n <=? 122)) || (n =? 170) || ((178 <=? n) && (n <=? 179))
   || (n =? 181) || ((185 <=? n) && (n <=? 186)) || ((188 <=? n) && (n <=? 190))
   || ((192 <=? n) && (n <=? 214)) || ((216 <=? n) && (n <=? 246))
   || ((248 <=? n) && (n <=? 255)))%nat.

(** The match of [\w+>] at the start of [s], [seen] word characters having
    been read: the number of characters it takes, if there is one. The
    closing bracket is no word character, so the greedy run is the only
    candidate. *)
Fixpoint word_run_gt (seen : nat) (s : string) : option nat :=
  match s with
  | EmptyString => None
  | String c rest =>
      if is_word c then word_run_gt (S seen) rest
      else if (0 <? seen)%nat && Ascii.eqb c ">"%char then Some (S seen)
           else None
  end.

(** The match of [</?\w+>] at the start of [s]: its length, if there is
    one. The optional slash is tried first, then left out. *)
Definition tag_at (s : string) : option nat :=
  match s with
  | EmptyString => None
  | String c rest =>
      if Ascii.eqb c "<"%char then
        match
          match rest with
          | String d rest' =>
              if Ascii.eqb d "/"%char
              then option_map (fun n => 2 + n) (word_run_gt 0 rest')
              else None
          | EmptyString => None
          end
        with
        | Some n => Some n
        | None => option_map S (word_run_gt 0 rest)
        end
      else None
  end.

(** [re.sub(r'</?\w+>', '', s)], scanning left to right; [skip] counts the
    characters of the current match that are still to be dropped. *)
Fixpoint remove_tags (skip : nat) (s : string) : string :=
  match s with
  | EmptyString => EmptyString
  | String c rest =>
      match skip with
      | S k => remove_tags k rest
      | O =>
          match tag_at s with
          | Some n => remove_tags (n - 1) rest
          | None => String c (remove_tags 0 rest)
          end
      end
  end.

(** [s.split(sep)] for a one-character separator. *)
Fixpoint split_on (sep : ascii) (s : string) : list string :=
  match s with
  | EmptyString => [EmptyString]
  | String c rest =>
      if Ascii.eqb c sep then EmptyString :: split_on sep rest
      else match split_on sep rest with
           | piece :: pieces => String c piece :: pieces
           | [] => [String c EmptyString]
           end
  end.

(** [[x.strip() for x in s.split(',') if x.strip()]] *)
Definition stripped_pieces (s : string) : list string :=
  filter Text.nonempty (map Text.strip (split_on ","%char s)).

(** The character [c] occurs in [s]. *)
Fixpoint has_char (c : ascii) (s : string) : bool :=
  match s with
  | EmptyString => false
  | String d rest => Ascii.eqb d c || has_char c rest
  end.

End Markup.

(** [value is None], for what [dict.get] returns: the key is missing, or
    its value is [None]. *)
Definition is_none (value : option pyval) : bool :=
  match value with
  | None => true
  | Some v => pyval_eqb v PNone
  end.

(** [clean_value] *)
Definition clean_value (value : option pyval) : string :=
  if is_none value then ""
  else match value with
       | Some v => Text.strip (Markup.remove_tags 0 (py_str v))
       | None => ""
       end.

(** What [display_cocktail] puts on the page for one cocktail, without the
    fixed markup around it: the cleaned fields, the text of the score
    badge if there is one, the ingredient tags if the block of tags is
    drawn, and the recipe shown in the expander. *)
Record Card : Type := mkCard {
  card_name : string;
  card_category : string;
  card_alcoholic : string;
  card_glass : string;
  card_badge : option string;
  card_tags : option (list string);
  card_recipe : string
}.

Section Display.

(** Lines 77 to 80 of [display_cocktail]: the number or text printed in the
    badge for a similarity that is not [None]. *)
Variable sim_percent : pyval -> string.

(** [display_cocktail]; a cocktail is a [dict], read with [get]. *)
Definition display_cocktail (cocktail : Series) : Card :=
  let name := clean_value (row_get "name" cocktail) in
  let category := clean_value (row_get "category" cocktail) in
  let alcoholic := clean_value (row_get "alcoholic" cocktail) in
  let glass := clean_value (row_get "glass" cocktail) in
  let ingredients := clean_value (row_get "ingredients" cocktail) in
  let recipe := clean_value (row_get "recipe" cocktail) in
  let similarity := row_get "similarity" cocktail in
  let badge :=
    if is_none similarity then None
    else match similarity with
         | Some v => Some ("Match: " ++ sim_percent v ++ "%")
         | None => None
         end in
  let tags :=
    if Text.nonempty ingredients
    then Some (firstn 8 (Markup.stripped_pieces ingredients))
    else None in
  mkCard name category alcoholic glass badge tags recipe.

End Display.

(* ===================================================================== *)
(** ** The page: the search forms and the script run ([app.py]) *)
(* ===================================================================== *)

(** The entries of the select box "How would you like to find cocktails?". *)
Inductive SearchType : Type :=
| ByIngredients | ByStyle | ByOccasion | MixedPreferences
| ByCategory | RandomDiscovery | SearchByName.

Definition SearchType_eqb (a b : SearchType) : bool :=
  match a, b with
  | ByIngredients, ByIngredients | ByStyle, ByStyle | ByOccasion, ByOccasion
  | MixedPreferences, MixedPreferences | ByCategory, ByCategory
  | RandomDiscovery, RandomDiscovery | SearchByName, SearchByName => true
  | _, _ => false
  end.

(** A call of a method of the recommender, with its arguments. *)
Inductive RecCall : Type :=
| CallByName (name : string)
| CallByIngredients (ingredients : list string) (limit : nat)
| CallByStyle (styles : list string) (limit : nat)
| CallByOccasion (occasion : string) (limit : nat)
| CallMixed (query : MixedQuery)
| CallByCategory (category : string) (limit : nat)
| CallRandom (limit : nat).

(** What the widgets of the active form return in one script run. *)
Inductive FormInput : Type :=
| InName (cocktail_name : string)
| InIngredients (selected_common : list string) (custom_ingredients : string)
                (button : bool)
| InStyle (selected_styles : list string) (button : bool)
| InOccasion (occasion : string) (button : bool)
| InMixed (form : MixedForm)
| InCategory (category : string)
| InRandom (button : bool).

(** The entry of the select box under which each form is drawn. *)
Definition search_type_of (input : FormInput) : SearchType :=
  match input with
  | InName _ => SearchByName
  | InIngredients _ _ _ => ByIngredients
  | InStyle _ _ => ByStyle
  | InOccasion _ _ => ByOccasion
  | InMixed _ => MixedPreferences
  | InCategory _ => ByCategory
  | InRandom _ => RandomDiscovery
  end.

(** [st.session_state]: the results kept from one run to the next, and
    the search type of the last run, [None] standing for the initial
    empty text. *)
Record Session (Result : Type) : Type := mkSession {
  search_results : list Result;
  last_search_type : option SearchType
}.

(** What one run draws in the main column. *)
Record Page : Type := mkPage {
  shown : list Card;
  no_match_notice : bool
}.

Section Page.

(** A row as the recommender returns it. The recommender answers each
    call with a list of rows and turns a row into a [dict] with
    [format_cocktail_result]; module [recommender] is a collaborator. *)
Variable Result : Type.
Variable recommender : RecCall -> list Result.
Variable format_cocktail_result : Result -> Series.
Variable sim_percent : pyval -> string.

(** [handle_name_search] *)
Definition handle_name_search (cocktail_name : string) : list Result * list RecCall :=
  if Text.nonempty cocktail_name
  then (recommender (CallByName cocktail_name), [CallByName cocktail_name])
  else ([], []).

(** [handle_ingredients_search] *)
Definition handle_ingredients_search (selected_common : list string)
           (custom_ingredients : string) (button : bool)
  : list Result * list RecCall :=
  let all_ingredients :=
    if Text.nonempty custom_ingredients
    then (selected_common ++ Markup.stripped_pieces custom_ingredients)%list
    else selected_common in
  if list_bool all_ingredients then
    if button
    then (recommender (CallByIngredients all_ingredients 10),
          [CallByIngredients all_ingredients 10])
    else ([], [])
  else ([], []).

(** [handle_style_search] *)
Definition handle_style_search (selected_styles : list string) (button : bool)
  : list Result * list RecCall :=
  if list_bool selected_styles then
    if button
    then (recommender (CallByStyle selected_styles 10), [CallByStyle selected_styles 10])
    else ([], [])
  else ([], []).

(** [handle_occasion_search] *)
Definition handle_occasion_search (occasion : string) (button : bool)
  : list Result * list RecCall :=
  if Text.nonempty occasion then
    if button
    then (recommender (CallByOccasion occasion 10), [CallByOccasion occasion 10])
    else ([], [])
  else ([], []).

(** [handle_category_search] *)
Definition handle_category_search (category : string) : list Result * list RecCall :=
  if Text.nonempty category
  then (recommender (CallByCategory category 10), [CallByCategory category 10])
  else ([], []).

(** [handle_random_search] *)
Definition handle_random_search (button : bool) : list Result * list RecCall :=
  if button then (recommender (CallRandom 6), [CallRandom 6]) else ([], []).

(** The chain [if search_type == ...] of [main]. *)
Definition dispatch (input : FormInput) : list Result * list RecCall :=
  match input with
  | InIngredients selected custom button =>
      handle_ingredients_search selected custom button
  | InStyle styles button => handle_style_search styles button
  | InOccasion occasion button => handle_occasion_search occasion button
  | InMixed form =>
      let run := handle_mixed_search (fun q => recommender (CallMixed q)) form in
      (fst run, map CallMixed (snd run))
  | InCategory category => handle_category_search category
  | InRandom button => handle_random_search button
  | InName name => handle_name_search name
  end.

(** Whether [main] leaves the similarity on the cards. *)
Definition show_similarity (t : SearchType) : bool :=
  match t with
  | ByIngredients | ByStyle | ByOccasion | MixedPreferences => true
  | _ => false
  end.

(** The main column of [main], once the recommender is there: the session
    it leaves, what it draws, and the calls it made to the recommender. *)
Definition main (session : Session Result) (input : FormInput)
  : Session Result * Page * list RecCall :=
  let search_type := search_type_of input in
  let same :=
    match last_search_type session with
    | Some t => SearchType_eqb t search_type
    | None => false
    end in
  let session :=
    if same then session else mkSession [] (Some search_type) in
  let run := dispatch input in
  let results := fst run in
  let session :=
    match results with
    | [] => session
    | _ => mkSession results (last_search_type session)
    end in
  let page :=
    match search_results session with
    | [] =>
        mkPage []
               (match last_search_type session with
                | Some SearchByName => false
                | Some _ => true
                | None => false
                end)
    | _ =>
        mkPage
          (map (fun result =>
                  let cocktail := format_cocktail_result result in
                  let cocktail :=
                    if show_similarity search_type then cocktail
                    else row_set "similarity" PNone cocktail in
                  display_cocktail sim_percent cocktail)
               (search_results session))
          false
    end in
  (session, page, snd run).

End Page.

(* ===================================================================== *)
(** ** Setting up the database ([database_setup.py]) *)
(* ===================================================================== *)

Module Setup.

(** The calls [create_database] and [setup_pgvector] make on the driver. *)
Inductive Op : Type :=
| Connect            (* psycopg2.connect(...) *)
| SetAutocommit      (* connection.set_isolation_level(ISOLATION_LEVEL_AUTOCOMMIT) *)
| OpenCursor         (* connection.cursor() *)
| SelectDatabase     (* SELECT 1 FROM pg_catalog.pg_database WHERE datname = ... *)
| FetchOne           (* cursor.fetchone() *)
| CreateDatabase     (* CREATE DATABASE ... *)
| CreateExtension    (* CREATE EXTENSION IF NOT EXISTS vector *)
| CreateTable        (* CREATE TABLE IF NOT EXISTS cocktails (...) *)
| CreateIndex        (* CREATE INDEX IF NOT EXISTS cocktails_embedding_idx ... *)
| Commit             (* connection.commit() *)
| CloseCursor        (* cursor.close() *)
| Close.             (* connection.close() *)

Definition Op_eqb (a b : Op) : bool :=
  match a, b with
  | Connect, Connect | SetAutocommit, SetAutocommit | OpenCursor, OpenCursor
  | SelectDatabase, SelectDatabase | FetchOne, FetchOne
  | CreateDatabase, CreateDatabase | CreateExtension, CreateExtension
  | CreateTable, CreateTable | CreateIndex, CreateIndex | Commit, Commit
  | CloseCursor, CloseCursor | Close, Close => true
  | _, _ => false
  end.

(** The calls issued so far and the lines printed so far, oldest first. *)
Record Log : Type := mkLog {
  issued : list Op;
  printed : list string
}.

Definition Run (A : Type) : Type := Log -> result A * Log.

Definition ret {A} (a : A) : Run A := fun log => (Ok a, log).
Definition bind {A B} (m : Run A) (k : A -> Run B) : Run B :=
  fun log =>
    match m log with
    | (Ok a, log') => k a log'
    | (Raise e, log') => (Raise e, log')
    end.
Definition try_except {A} (body : Run A) (handler : exn -> Run A) : Run A :=
  fun log =>
    match body log with
    | (Ok a, log') => (Ok a, log')
    | (Raise e, log') => handler e log'
    end.
Definition print (line : string) : Run unit :=
  fun log => (Ok tt, mkLog (issued log) (printed log ++ [line])%list).

Section Driver.

(** [fault op] is the message of the error with which the call [op] fails
    in this run, if it does; [exists_row] tells whether the lookup in
    [pg_database] finds the database; [db_name] is [self.db_name]. *)
Variable fault : Op -> option string.
Variable exists_row : bool.
Variable db_name : string.

(** Issue the call [op]. *)
Definition call (op : Op) : Run unit :=
  fun log =>
    let log' := mkLog (issued log ++ [op])%list (printed log) in
    match fault op with
    | Some msg => (Raise (ExternalError msg), log')
    | None => (Ok tt, log')
    end.

(** The calls [ops], in order, up to the first that fails. *)
Fixpoint calls (ops : list Op) : Run unit :=
  match ops with
  | [] => ret tt
  | op :: rest => bind (call op) (fun _ => calls rest)
  end.

(** [create_database] *)
Definition create_database : Run unit :=
  try_except
    (bind (calls [Connect; SetAutocommit; OpenCursor; SelectDatabase; FetchOne])
       (fun _ =>
          bind (if exists_row
                then print ("Database '" ++ db_name ++ "' already exists.")
                else bind (call CreateDatabase)
                          (fun _ => print ("Database '" ++ db_name
                                           ++ "' created successfully.")))
               (fun _ => calls [CloseCursor; Close])))
    (fun e => print ("Error creating database: " ++ exn_str e)).

(** [setup_pgvector] *)
Definition setup_pgvector : Run unit :=
  try_except
    (bind (calls [Connect; OpenCursor; CreateExtension; CreateTable; CreateIndex;
                  Commit; CloseCursor; Close])
       (fun _ => print "Database tables and pgvector extension set up sucessfully."))
    (fun e => print ("Error setting up pgvector: " ++ exn_str e)).

(** The [__main__] block: both steps, one after the other. *)
Definition setup_main : Run unit :=
  bind create_database (fun _ => setup_pgvector).

End Driver.

(** The last line printed. *)
Definition last_printed (log : Log) : string := List.last (printed log) "".

(** Position of [op] among the calls issued. *)
Fixpoint position (op : Op) (ops : list Op) : option nat :=
  match ops with
  | [] => None
  | x :: rest =>
      if Op_eqb x op then Some 0
      else match position op rest with
           | Some n => Some (S n)
           | None => None
           end
  end.

End Setup.

(* ===================================================================== *)
(** ** More sample data *)
(* ===================================================================== *)

Module MoreSamples.

(** A well-formed ingredient list beside a measures literal whose bracket
    is never closed. *)
Definition broken_measures : Series :=
  [("name", PStr "Martini"); ("ingredients", PStr "['Gin', 'Vermouth']");
   ("ingredientMeasures", PStr "['2 oz'")].

(** An ingredients cell that pandas read as a number. *)
Definition numeric_ingredients : Series :=
  [("name", PStr "Forty-two"); ("ingredients", PObj true "42");
   ("combined_text", PStr "Forty-two 42")].

Definition negroni : Series :=
  [("name", PStr "Negroni"); ("category", PStr "Cocktail");
   ("alcoholic", PStr "Alcoholic"); ("glassType", PStr "Old-fashioned glass");
   ("instructions", PNaN);
   ("ingredients", PStr "['Gin', 'Campari', 'Sweet Vermouth']");
   ("ingredientMeasures", PStr "['1 oz', '1 oz', '1 oz']")].

(** A file in which the Martini comes twice. *)
Definition with_duplicate : DataFrame :=
  mkDF Sample.new_columns [Sample.martini; negroni; Sample.martini].

Definition header_only : DataFrame := mkDF Sample.new_columns [].

Definition numeric_frame : DataFrame :=
  mkDF ["name"; "ingredients"; "combined_text"] [numeric_ingredients].

Definition duplicate_file (path : string) : result DataFrame := Ok with_duplicate.
Definition header_file (path : string) : result DataFrame := Ok header_only.

Definition connect_fault (op : Op) : option string :=
  match op with
  | OpConnect => Some "connection refused"
  | _ => None
  end.

(** An embedder that returns nothing. *)
Definition mute_encode (texts : list pyval) : list nat := [].

(** A cocktail as the recommender formats it. *)
Definition martini_dict : Series :=
  [("name", PStr "Martini"); ("category", PStr "Cocktail");
   ("alcoholic", PStr "Alcoholic"); ("glass", PStr "Cocktail glass");
   ("ingredients", PStr "Gin, Vermouth"); ("recipe", PStr "Stir with ice.");
   ("similarity", PObj true "0.83")].

Definition sim_percent (v : pyval) : string := py_str v.

(** A recommender that knows one cocktail and finds it in every category. *)
Definition recommender (call : RecCall) : list Series :=
  match call with
  | CallByCategory _ _ => [martini_dict]
  | _ => []
  end.

Definition format_cocktail_result (result : Series) : Series := result.

Definition after_category_search : Session Series :=
  mkSession [martini_dict] (Some ByCategory).

Definition setup_ok (op : Setup.Op) : option string := None.

Definition start : Setup.Log := Setup.mkLog [] [].

End MoreSamples.

(* ===================================================================== *)
(** ** Facts about text cleaning *)
(* ===================================================================== *)

Module TextFacts.
Import Text.

Lemma lstrip_first s c : first_char (lstrip s) = Some c -> is_space c = false.
Proof.
  induction s as [|a s IH]; simpl; [discriminate|].
  destruct (is_space a) eqn:Ha; [exact IH|].
  simpl. intros E. inversion E. subst. exact Ha.
Qed.

Lemma lstrip_last s c : last_char (lstrip s) = Some c -> last_char s = Some c.
Proof.
  induction s as [|a s IH]; simpl; [discriminate|].
  destruct (is_space a) eqn:Ha.
  - intros E. rewrite (IH E). reflexivity.
  - simpl. auto.
Qed.

Lemma rstrip_last s c : last_char (rstrip s) = Some c -> is_space c = false.
Proof.
  revert c. induction s as [|a s IH]; simpl; intros c; [discriminate|].
  destruct (rstrip s) as [|b r] eqn:Er.
  - destruct (is_space a) eqn:Ha; simpl; [discriminate|].
    intros E. inversion E. subst. exact Ha.
  - change (last_char (String a (String b r))) with
      (match last_char (String b r) with Some d => Some d | None => Some a end).
    destruct (last_char (String b r)) as [d|] eqn:El.
    + intros E. inversion E. subst. apply IH. reflexivity.
    + simpl in El. destruct (last_char r); discriminate.
Qed.

(** [rstrip] keeps a prefix: its first character is that of its argument. *)
Lemma rstrip_first s c : first_char (rstrip s) = Some c -> first_char s = Some c.
Proof.
  destruct s as [|a s]; simpl; [discriminate|].
  destruct (rstrip s); [destruct (is_space a)|]; simpl; auto; discriminate.
Qed.

Lemma strip_trimmed s : trimmed (strip s).
Proof.
  split; intros c H.
  - exact (lstrip_first _ H).
  - apply lstrip_last in H. exact (rstrip_last _ H).
Qed.

Lemma sub_ws_shape b s :
  single_spaced (sub_ws b s)
  /\ (b = true -> forall c, first_char (sub_ws b s) = Some c -> is_space c = false).
Proof.
  revert b. induction s as [|a s IH]; intros b; simpl.
  - split; [exact I | discriminate].
  - destruct (is_space a) eqn:Ha.
    + destruct b.
      * exact (IH true).
      * split; [|discriminate].
        simpl. split; [|exact (proj1 (IH true))].
        intros _. split; [reflexivity|].
        destruct (sub_ws true s) as [|d r] eqn:E; [exact I|].
        apply (proj2 (IH true) eq_refl). rewrite E. reflexivity.
    + split.
      * simpl. split; [|exact (proj1 (IH false))].
        intros H. rewrite Ha in H. discriminate.
      * intros _ c E. simpl in E. inversion E. subst. exact Ha.
Qed.

Lemma lstrip_single_spaced s : single_spaced s -> single_spaced (lstrip s).
Proof.
  induction s as [|a s IH]; simpl; [auto|].
  intros [H1 H2]. destruct (is_space a) eqn:Ha; [auto|].
  simpl. split; [rewrite Ha; discriminate | exact H2].
Qed.

Lemma rstrip_single_spaced s : single_spaced s -> single_spaced (rstrip s).
Proof.
  induction s as [|a s IH]; simpl; [auto|].
  intros [H1 H2]. specialize (IH H2).
  destruct (rstrip s) as [|b r] eqn:Er.
  - destruct (is_space a) eqn:Ha; simpl; [exact I|].
    split; [congruence | exact I].
  - split; [|exact IH].
    intros Ha. destruct (H1 Ha) as [Hc Hn]. split; [exact Hc|].
    assert (F : first_char s = Some b)
      by (apply rstrip_first; rewrite Er; reflexivity).
    destruct s as [|d s']; [discriminate|].
    simpl in F. inversion F. subst. exact Hn.
Qed.

Lemma lstrip_fixed s :
  (forall c, first_char s = Some c -> is_space c = false) -> lstrip s = s.
Proof.
  destruct s as [|a s]; simpl; [reflexivity|].
  intros H. rewrite (H a eq_refl). reflexivity.
Qed.

Lemma rstrip_fixed s :
  (forall c, last_char s = Some c -> is_space c = false) -> rstrip s = s.
Proof.
  induction s as [|a s IH]; simpl; [reflexivity|].
  intros H. destruct (last_char s) as [d|] eqn:El.
  - rewrite IH by (intros c E; apply H; rewrite E; reflexivity).
    destruct s; [discriminate | reflexivity].
  - destruct s as [|b s']; [|simpl in El; destruct (last_char s'); discriminate].
    simpl. rewrite (H a eq_refl). reflexivity.
Qed.

Lemma sub_ws_fixed b s :
  single_spaced s ->
  (b = true -> forall c, first_char s = Some c -> is_space c = false) ->
  sub_ws b s = s.
Proof.
  revert b. induction s as [|a s IH]; intros b; simpl; [reflexivity|].
  intros [H1 H2] Hb. destruct (is_space a) eqn:Ha.
  - destruct b; [rewrite (Hb eq_refl a eq_refl) in Ha; discriminate|].
    destruct (H1 eq_refl) as [Hc Hn]. subst a. f_equal.
    apply IH; [exact H2|]. intros _ c E.
    destruct s as [|d s']; [discriminate|]. simpl in E. inversion E. subst. exact Hn.
  - f_equal. apply IH; [exact H2 | discriminate].
Qed.

Lemma strip_single_spaced s : single_spaced s -> single_spaced (strip s).
Proof.
  intros H. apply lstrip_single_spaced, rstrip_single_spaced, H.
Qed.

Lemma strip_fixed s : trimmed s -> strip s = s.
Proof.
  intros [H1 H2]. unfold strip. rewrite (rstrip_fixed _ H2). apply lstrip_fixed, H1.
Qed.

Lemma append_cancel (p a b : string) : (p ++ a)%string = (p ++ b)%string -> a = b.
Proof.
  induction p as [|c p IH]; simpl; intros H; [exact H|].
  inversion H. auto.
Qed.

End TextFacts.

(* ===================================================================== *)
(** ** Facts about the normalizer and the recipe text *)
(* ===================================================================== *)

Section NormalizerFacts.

Variable literal_eval : string -> option (list pyval).

Local Arguments Text.startswith : simpl never.
Local Arguments Text.strip : simpl never.
Local Arguments Text.nonempty : simpl never.

Lemma startswith_bracket s :
  Text.startswith "[" s = true -> exists rest, s = String "["%char rest.
Proof.
  destruct s as [|c rest]; [discriminate|].
  change (Text.startswith "[" (String c rest)) with (Ascii.eqb "["%char c && true).
  rewrite andb_true_r.
  intros H. apply Ascii.eqb_eq in H. exists rest. rewrite H. reflexivity.
Qed.

Lemma strip_bracket rest :
  exists rest', Text.strip (String "["%char rest) = String "["%char rest'.
Proof.
  unfold Text.strip. cbn [Text.rstrip].
  destruct (Text.rstrip rest) as [|b r].
  - exists "". reflexivity.
  - exists (String b r). reflexivity.
Qed.

Lemma new_shape_of_text row s :
  row_get "ingredients" row = Some (PStr s) ->
  Text.nonempty s = true ->
  new_shape row = true.
Proof.
  intros H N. unfold new_shape, row_has. rewrite H. simpl. exact N.
Qed.

Lemma new_shape_inv row :
  new_shape row = true ->
  exists v, row_get "ingredients" row = Some v /\ py_bool v = true.
Proof.
  unfold new_shape, row_has.
  destruct (row_get "ingredients" row) as [v|]; simpl; [|discriminate].
  intros H. exists v. auto.
Qed.

Lemma strip_strip s : Text.strip (Text.strip s) = Text.strip s.
Proof. apply TextFacts.strip_fixed, TextFacts.strip_trimmed. Qed.

Lemma one_or_none_short s : length (one_or_none s) <= 1.
Proof. unfold one_or_none. destruct (Text.nonempty _); simpl; lia. Qed.

Lemma one_or_none_clean s :
  Forall (fun n => Text.nonempty n = true /\ Text.strip n = n) (one_or_none s).
Proof.
  unfold one_or_none. destruct (Text.nonempty (Text.strip s)) eqn:E; constructor.
  - split; [exact E | apply strip_strip].
  - constructor.
Qed.

Lemma flat_map_short {A B} (f : A -> list B) (l : list A) :
  (forall a, length (f a) <= 1) -> length (flat_map f l) <= length l.
Proof.
  intros H. induction l as [|a l IH]; simpl; [lia|].
  rewrite length_app. specialize (H a). lia.
Qed.

Lemma present_clean sentinel v :
  present sentinel v = true ->
  Text.nonempty (Text.strip (py_str v)) = true
  /\ Text.strip (py_str v) <> sentinel.
Proof.
  unfold present. rewrite !andb_true_iff, negb_true_iff, String.eqb_neq.
  tauto.
Qed.

(** The three shapes the result of [ingredient_names] can take. *)
Lemma ingredient_names_cases row names :
  ingredient_names literal_eval row = Ok names ->
  (new_shape row = false /\
   names = flat_map
             (fun i =>
                match row_get (slot "strIngredient" i) row with
                | Some ingredient =>
                    if present "nan" ingredient
                    then [Text.strip (py_str ingredient)] else []
                | None => []
                end) legacy_slots)
  \/ (exists s l,
        new_shape row = true /\ row_get "ingredients" row = Some (PStr s)
        /\ Text.startswith "[" s = true /\ literal_eval s = Some l
        /\ names = map (fun x => Text.strip (py_str x)) (filter (present "None") l))
  \/ (exists s,
        new_shape row = true /\ row_get "ingredients" row = Some (PStr s)
        /\ (Text.startswith "[" s = false \/ literal_eval s = None)
        /\ names = one_or_none s).
Proof.
  unfold ingredient_names. destruct (new_shape row) eqn:N.
  - destruct (new_shape_inv _ N) as (v & Hv & _).
    unfold row_item, eval_literal. rewrite Hv.
    destruct v as [s| |t r]; simpl; try discriminate.
    destruct (Text.startswith "[" s) eqn:P.
    + destruct (literal_eval s) as [l|] eqn:L; simpl; intros E; inversion E; subst.
      * right; left. exists s, l. repeat split; auto.
      * right; right. exists s. repeat split; auto.
    + intros E. inversion E; subst. right; right. exists s. repeat split; auto.
  - intros E. inversion E; subst. left. auto.
Qed.

Lemma mapped_filter_clean l :
  Forall (fun n => Text.nonempty n = true /\ Text.strip n = n)
         (map (fun x => Text.strip (py_str x)) (filter (present "None") l))
  /\ ~ In "None" (map (fun x => Text.strip (py_str x)) (filter (present "None") l)).
Proof.
  split.
  - apply Forall_forall. intros n H. apply in_map_iff in H.
    destruct H as (x & <- & Hx). apply filter_In in Hx.
    destruct (present_clean _ _ (proj2 Hx)) as [H1 _].
    split; [exact H1 | apply strip_strip].
  - intros H. apply in_map_iff in H. destruct H as (x & E & Hx).
    apply filter_In in Hx. destruct (present_clean _ _ (proj2 Hx)) as [_ H2].
    exact (H2 E).
Qed.

Lemma legacy_names_clean row :
  let names :=
    flat_map
      (fun i =>
         match row_get (slot "strIngredient" i) row with
         | Some ingredient =>
             if present "nan" ingredient
             then [Text.strip (py_str ingredient)] else []
         | None => []
         end) legacy_slots in
  Forall (fun n => Text.nonempty n = true /\ Text.strip n = n) names
  /\ length names <= 15 /\ ~ In "nan" names.
Proof.
  intros names.
  assert (K : forall n, In n names ->
                        Text.nonempty n = true /\ Text.strip n = n /\ n <> "nan").
  { intros n H. apply in_flat_map in H. destruct H as (i & _ & H).
    destruct (row_get (slot "strIngredient" i) row) as [v|]; [|contradiction].
    destruct (present "nan" v) eqn:P; [|contradiction].
    destruct H as [<-|[]]. destruct (present_clean _ _ P) as [H1 H2].
    repeat split; [exact H1 | apply strip_strip | exact H2]. }
  split; [|split].
  - apply Forall_forall. intros n H. destruct (K n H) as (H1 & H2 & _). auto.
  - change 15 with (length legacy_slots). apply flat_map_short.
    intros i. destruct (row_get _ row) as [v|]; [|simpl; lia].
    destruct (present "nan" v); simpl; lia.
  - intros H. destruct (K _ H) as (_ & _ & H3). exact (H3 eq_refl).
Qed.

(** C6, as the code has it. The ingredients that [get_ingredents_list]
    joins are never blank; a legacy row gives at most 15 of them and drops
    the slots that read [nan]; a new-shape row whose field is a list
    literal gives at most as many as the literal has elements and drops
    the elements that read [None]; a new-shape row whose field is a scalar,
    or a literal that cannot be evaluated, gives at most one. *)
Theorem ingredient_count_and_exclusion (row : Series) (names : list string) :
  ingredient_names literal_eval row = Ok names ->
  get_ingredents_list literal_eval row = Ok (Text.join ", " names)
  /\ Forall (fun n => Text.nonempty n = true /\ Text.strip n = n) names
  /\ (new_shape row = false -> length names <= 15 /\ ~ In "nan" names)
  /\ (new_shape row = true ->
      forall s, row_get "ingredients" row = Some (PStr s) ->
                match (if Text.startswith "[" s then literal_eval s else None) with
                | Some l => length names <= length l /\ ~ In "None" names
                | None => length names <= 1
                end).
Proof.
  intros H. split; [unfold get_ingredents_list; rewrite H; reflexivity|].
  destruct (ingredient_names_cases _ H)
    as [(N & ->) | [(s & l & N & Hs & P & L & ->) | (s & N & Hs & PL & ->)]].
  - destruct (legacy_names_clean row) as (F & Hlen & Hnan).
    split; [exact F|]. split; [auto | congruence].
  - destruct (mapped_filter_clean l) as (F & Hnone).
    split; [exact F|]. split; [congruence|].
    intros _ s' Hs'. rewrite Hs in Hs'. inversion Hs'; subst s'.
    rewrite P, L. split; [|exact Hnone].
    rewrite length_map. apply filter_length_le.
  - split; [apply one_or_none_clean|]. split; [congruence|].
    intros _ s' Hs'. rewrite Hs in Hs'. inversion Hs'; subst s'.
    destruct PL as [P|L]; [rewrite P | destruct (Text.startswith "[" s); rewrite ?L];
      apply one_or_none_short.
Qed.

(** C5. A new-shape row whose ingredient field opens a list literal that
    [ast.literal_eval] refuses is kept: [get_ingredents_list] returns the
    whole field (stripped) as its single ingredient, [create_recipe_text]
    returns the header followed by the one line that holds the whole
    field, neither raises, and the tuple for the INSERT is built. *)
Theorem malformed_literal_recovered (Vec : Type) (row : Series) (s : string)
        (embedding : Vec) :
  row_get "ingredients" row = Some (PStr s) ->
  Text.startswith "[" s = true ->
  literal_eval s = None ->
  get_ingredents_list literal_eval row = Ok (Text.strip s)
  /\ create_recipe_text literal_eval row
     = Ok (recipe_header row ++ "- " ++ s ++ Text.nl)
  /\ exists r, stored_of literal_eval row embedding = Ok r
               /\ sc_ingredients r = Text.strip s
               /\ sc_recipe r = recipe_header row ++ "- " ++ s ++ Text.nl.
Proof.
  intros Hs P L.
  destruct (startswith_bracket _ P) as (rest & ->).
  assert (N : new_shape row = true) by (eapply new_shape_of_text; eauto).
  assert (G : get_ingredents_list literal_eval row
              = Ok (Text.strip (String "["%char rest))).
  { unfold get_ingredents_list, ingredient_names, row_item, eval_literal.
    rewrite N, Hs. simpl. rewrite L. simpl.
    destruct (strip_bracket rest) as (rest' & ->). reflexivity. }
  assert (C : create_recipe_text literal_eval row
              = Ok (recipe_header row ++ "- " ++ String "["%char rest ++ Text.nl)).
  { unfold create_recipe_text, ingredient_lines, row_item, parse_field, eval_literal.
    rewrite N, Hs. simpl. rewrite L. reflexivity. }
  split; [exact G|]. split; [exact C|].
  unfold stored_of. rewrite G, C. simpl. eexists. split; [reflexivity|].
  split; reflexivity.
Qed.

(** The legacy loop leaves out a measure that is blank. *)
Lemma legacy_blank_measure_dropped row i ingredient measure :
  row_get (slot "strIngredient" i) row = Some ingredient ->
  present "nan" ingredient = true ->
  row_get (slot "strMeasure" i) row = Some measure ->
  Text.strip (py_str measure) = "" ->
  legacy_line row i = line_without ingredient.
Proof.
  intros Hi Pi Hm Bm. unfold legacy_line. rewrite Hi, Pi, Hm.
  unfold present. rewrite Bm. rewrite andb_false_r. reflexivity.
Qed.

(** The new-shape loop leaves out a measure that is absent, false or [None]. *)
Lemma new_shape_missing_measure_dropped measures i :
  (nth_error measures i = None
   \/ exists m, nth_error measures i = Some m
                /\ (py_bool m = false \/ Text.strip (py_str m) = "None")) ->
  measure_usable measures i = None.
Proof.
  unfold measure_usable. intros [->|(m & -> & [B|N])]; [reflexivity| |].
  - rewrite B. reflexivity.
  - rewrite N. rewrite andb_false_r. reflexivity.
Qed.

(** The new-shape loop keeps a measure that is true but blank: its test
    compares the stripped text with [None] only. *)
Lemma new_shape_blank_measure_kept measures i m :
  nth_error measures i = Some m ->
  py_bool m = true ->
  Text.strip (py_str m) = "" ->
  measure_usable measures i = Some m.
Proof.
  intros H B E. unfold measure_usable. rewrite H, B, E. reflexivity.
Qed.

(** C4. Ingredients [["Gin","Vermouth"]] with the shorter measures
    [["2 oz"]] give the lines [- 2 oz Gin] and [- Vermouth], in that
    order, after the header. *)
Theorem gin_vermouth_recipe (row : Series) (ingredients measures : string) :
  row_get "ingredients" row = Some (PStr ingredients) ->
  Text.startswith "[" ingredients = true ->
  literal_eval ingredients = Some [PStr "Gin"; PStr "Vermouth"] ->
  row_get "ingredientMeasures" row = Some (PStr measures) ->
  Text.startswith "[" measures = true ->
  literal_eval measures = Some [PStr "2 oz"] ->
  create_recipe_text literal_eval row
  = Ok (recipe_header row ++ "- 2 oz Gin" ++ Text.nl ++ "- Vermouth" ++ Text.nl).
Proof.
  intros Hi Pi Li Hm Pm Lm.
  destruct (startswith_bracket _ Pi) as (ri & ->).
  destruct (startswith_bracket _ Pm) as (rm & ->).
  assert (N : new_shape row = true) by (eapply new_shape_of_text; eauto).
  unfold create_recipe_text, ingredient_lines, row_item, parse_field, eval_literal,
    row_has.
  rewrite N, Hi, Hm. simpl. rewrite Li. simpl. rewrite Lm. reflexivity.
Qed.

End NormalizerFacts.

(* ===================================================================== *)
(** ** Facts about the ingestion pipeline *)
(* ===================================================================== *)

Section PipelineFacts.

Variable Vec : Type.
Variable literal_eval : string -> option (list pyval).
Variable encode : list pyval -> list Vec.
Variable read_csv : string -> result DataFrame.
Variable fault : Op -> option string.

Local Arguments Text.of_nat : simpl never.
Local Arguments Nat.modulo : simpl never.
Local Arguments String.append : simpl never.
Local Arguments exn_str : simpl never.
Local Arguments stored_of : simpl never.
Local Arguments embedding_at : simpl never.

Local Abbreviation insert_loop := (insert_rows literal_eval fault PgCursor).
Local Abbreviation store := (store_cocktails literal_eval encode fault).
Local Abbreviation body := (store_body literal_eval encode fault).
Local Abbreviation handler := (store_handler fault).
Local Abbreviation St := (State Vec).

Lemma phase_run_inserts (ins rest : list (Event Vec)) :
  forallb (@is_insert Vec) ins = true ->
  phase_run Embedded (ins ++ rest) = phase_run Embedded rest.
Proof.
  induction ins as [|ev ins IH]; simpl; [reflexivity|].
  destruct ev; simpl; try discriminate. exact IH.
Qed.

Lemma forallb_is_insert_map (l : list (StoredCocktail Vec)) :
  forallb (@is_insert Vec) (map (@EvInsert Vec) l) = true.
Proof. induction l; simpl; auto. Qed.

Lemma not_insert_in (ins : list (Event Vec)) ev :
  forallb (@is_insert Vec) ins = true -> In ev ins -> is_insert ev = true.
Proof. intros H I. rewrite forallb_forall in H. auto. Qed.

(** One run of the insertion loop: it only issues inserts, it leaves the
    committed table alone, and if it completes then every row was turned
    into a tuple, every insert was accepted, and the transaction sees
    these tuples appended. *)
Lemma insert_rows_run (rs : list Series) :
  forall (embs : list Vec) (idx : nat) (s : St) r s',
  insert_loop embs idx rs s = (r, s') ->
  exists evs,
    trace s' = (trace s ++ evs)%list
    /\ forallb (@is_insert Vec) evs = true
    /\ committed s' = committed s
    /\ (forall u, r = Ok u ->
        exists stored,
          stored_all literal_eval embs idx rs = Ok stored
          /\ evs = map (@EvInsert Vec) stored
          /\ view s' = (view s ++ stored)%list
          /\ forall i, idx <= i < idx + length rs -> fault (OpInsert i) = None).
Proof.
  induction rs as [|row rest IH]; intros embs idx s r s' H.
  - inversion H; subst. exists []. rewrite !app_nil_r. repeat split; auto.
    intros _ _. exists []. rewrite app_nil_r. repeat split; auto.
    simpl. intros i Hi. lia.
  - cbn [insert_rows stored_all] in *. unfold bind at 1, lift at 1 in H.
    destruct (embedding_at embs idx) as [embedding|e] eqn:Eemb.
    2:{ inversion H; subst. exists []. rewrite app_nil_r.
        repeat split; auto. discriminate. }
    unfold bind at 1, lift at 1 in H.
    destruct (stored_of literal_eval row embedding) as [x|e] eqn:Est.
    2:{ inversion H; subst. exists []. rewrite app_nil_r.
        repeat split; auto. discriminate. }
    unfold bind at 1, execute_insert, call, bind at 1, emit in H.
    destruct (fault (OpInsert idx)) as [msg|] eqn:Ef.
    { inversion H; subst. exists [EvInsert x]. simpl.
      repeat split; auto. discriminate. }
    unfold set_txn at 1, bind at 1 in H.
    set (s1 := mkState _ _ _ _) in H.
    assert (T1 : trace s1 = (trace s ++ [EvInsert x])%list) by reflexivity.
    assert (C1 : committed s1 = committed s) by reflexivity.
    assert (V1 : view s1 = (view s ++ [x])%list) by reflexivity.
    assert (K : exists s2,
               (if Nat.eqb ((idx + 1) mod 100) 0
                then print (Vec:=Vec)
                           ("Stored " ++ Text.of_nat (idx + 1) ++ " cocktails...")
                else ret tt) s1 = (Ok tt, s2)
               /\ trace s2 = trace s1 /\ committed s2 = committed s1
               /\ view s2 = view s1).
    { destruct (Nat.eqb _ 0); eexists; split; try reflexivity; auto. }
    destruct K as (s2 & K & T2 & C2 & V2). rewrite K in H. clear K.
    destruct (IH embs (S idx) s2 r s' H) as (evs & Ht & Hi & Hc & Hok).
    exists (EvInsert x :: evs).
    split; [rewrite Ht, T2, T1, <- app_assoc; reflexivity|].
    split; [exact Hi|].
    split; [rewrite Hc, C2, C1; reflexivity|].
    intros u Hu. destruct (Hok u Hu) as (stored & Hs & He & Hv & Hf).
    exists (x :: stored). cbn [Res.bind]. rewrite Est. cbn [Res.bind].
    rewrite Hs. cbn [Res.bind].
    split; [reflexivity|]. split; [rewrite He; reflexivity|].
    split; [rewrite Hv, V2, V1, <- app_assoc; reflexivity|].
    intros i Hi'. destruct (Nat.eq_dec i idx) as [->|Hne]; [exact Ef|].
    apply Hf. cbn [length] in Hi'. lia.
Qed.

Lemma last_snoc (l : list string) (x d : string) : List.last (l ++ [x]) d = x.
Proof. apply last_last. Qed.

(** The [try] block on an open connection. *)
Lemma store_body_run (df : DataFrame) (s : St) r s' :
  body df (Some PgConn) s = (r, s') ->
  match r with
  | Ok _ =>
      exists texts stored,
        column_to_list "combined_text" df = Ok texts
        /\ stored_all literal_eval (encode texts) 0 (rows df) = Ok stored
        /\ trace s' = (trace s ++ EvDelete :: EvEncode texts
                               :: map (@EvInsert Vec) stored ++ [EvCommit; EvClose])%list
        /\ committed s' = stored
        /\ txn s' = None
        /\ fault OpDelete = None /\ fault OpEncode = None /\ fault OpCommit = None
        /\ (forall i, i < length (rows df) -> fault (OpInsert i) = None)
        /\ last_line s' = "Successfully stored " ++ Text.of_nat (length (rows df))
                          ++ " cocktails in the database"
  | Raise e =>
      exists evs,
        stopped_early literal_eval encode fault df evs
        /\ trace s' = (trace s ++ evs)%list
        /\ committed s' = committed s
  end.
Proof.
  unfold store_body, cursor_of, on_connection, execute_delete, call.
  unfold bind at 1, ret at 1. unfold bind at 1. unfold bind at 1, emit at 1.
  destruct (fault OpDelete) as [msg|] eqn:Fd.
  { intros H. inversion H; subst. exists [EvDelete]. simpl.
    repeat split; auto. constructor. }
  unfold set_txn at 1. unfold bind at 1, print at 1. unfold bind at 1, lift at 1.
  destruct (column_to_list "combined_text" df) as [texts|e] eqn:Ec.
  2:{ intros H. inversion H; subst. exists [EvDelete]. simpl.
      repeat split; auto. constructor. }
  unfold bind at 1, generate_embeddings, call. unfold bind at 1. unfold bind at 1, emit at 1.
  destruct (fault OpEncode) as [msg|] eqn:Fe.
  { intros H. inversion H; subst. exists [EvDelete; EvEncode texts]. simpl.
    rewrite <- app_assoc. repeat split; auto. apply StopAtInsert; auto. }
  unfold ret at 1. unfold ret at 1. unfold bind at 1, print at 1. unfold bind at 1.
  set (s1 := mkState _ _ _ _).
  destruct (insert_loop (encode texts) 0 (rows df) s1) as [r1 s2] eqn:EL.
  destruct (insert_rows_run _ _ _ _ EL) as (ins & Ht & Hi & Hc & Hok).
  assert (T1 : trace s1 = (trace s ++ [EvDelete; EvEncode texts])%list)
    by (simpl; rewrite <- app_assoc; reflexivity).
  assert (V1 : view s1 = []) by reflexivity.
  destruct r1 as [u|e].
  2:{ intros H. inversion H; subst. exists (EvDelete :: EvEncode texts :: ins).
      split; [apply StopAtInsert; auto|].
      split; [rewrite Ht, T1, <- app_assoc; reflexivity | exact Hc]. }
  destruct (Hok u eq_refl) as (stored & Hs & He & Hv & Hf).
  rewrite V1 in Hv. simpl in Hv.
  unfold commit, on_connection, call. unfold bind at 1. unfold bind at 1, emit at 1.
  destruct (fault OpCommit) as [msg|] eqn:Fc.
  { intros H. inversion H; subst r s'.
    exists (EvDelete :: EvEncode texts :: map (@EvInsert Vec) stored ++ [EvCommit]).
    split; [apply StopAtCommit; auto; [intros i Hi'; apply Hf; lia | congruence]|].
    simpl.
    split; [rewrite Ht, T1, He, <- !app_assoc; reflexivity | exact Hc]. }
  unfold bind at 1, cursor_close, ret at 1. unfold bind at 1, close, on_connection.
  unfold bind at 1, emit at 1, set_txn at 1, print.
  intros H. inversion H; subst r s'. clear H.
  exists texts, stored. unfold last_line. cbn [trace committed txn stdout].
  split; [reflexivity|]. split; [exact Hs|].
  split; [rewrite Ht, T1, He, <- !app_assoc; reflexivity|].
  split; [unfold view in Hv |- *; cbn [txn]; exact Hv|].
  split; [reflexivity|]. split; [reflexivity|]. split; [reflexivity|].
  split; [reflexivity|].
  split; [intros i Hi'; apply Hf; lia | apply last_snoc].
Qed.

(** The [except] block when [connection] is an open connection. *)
Lemma store_handler_run (e : exn) (s : St) :
  handler (Some (Some PgConn)) e s =
  match fault OpRollback with
  | None =>
      (Ok tt,
       mkState (committed s) None (trace s ++ [EvRollback; EvClose])%list
               (stdout s ++ [("Error storing cocktails: " ++ exn_str e)%string])%list)
  | Some msg =>
      (Raise (ExternalError msg),
       mkState (committed s) (txn s) (trace s ++ [EvRollback])%list
               (stdout s ++ [("Error storing cocktails: " ++ exn_str e)%string])%list)
  end.
Proof.
  unfold store_handler, rollback, close, on_connection, call, bind, print, emit,
    set_txn.
  destruct (fault OpRollback); cbn [trace committed txn stdout];
    rewrite <- ?app_assoc; reflexivity.
Qed.

(** [get_connection] never raises. *)
Lemma get_connection_run (s : St) :
  get_connection fault s =
  match fault OpConnect with
  | None =>
      (Ok (Some PgConn),
       mkState (committed s) (txn s) (trace s ++ [EvConnect])%list (stdout s))
  | Some msg =>
      (Ok None,
       mkState (committed s) (txn s) (trace s ++ [EvConnect])%list
               (stdout s ++ [("Error connecting to the database: " ++ msg)%string])%list)
  end.
Proof.
  unfold get_connection, try_except, connect, call, bind, emit, print, ret, raise.
  destruct (fault OpConnect); reflexivity.
Qed.

Lemma store_cocktails_run (df : DataFrame) (s : St) :
  store_outcome literal_eval encode fault df s (fst (store df s)) (snd (store df s)).
Proof.
  unfold store_cocktails, try_binding. rewrite get_connection_run.
  destruct (fault OpConnect) as [msg|] eqn:Fc.
  - apply NoConnection with (msg := msg); [exact Fc | reflexivity..].
  - set (s1 := mkState _ _ _ _).
    destruct (body df (Some PgConn) s1) as [r1 s2] eqn:EB.
    pose proof (store_body_run _ _ EB) as R.
    destruct r1 as [[]|e].
    + destruct R as (texts & stored & Hc & Hs & Ht & Hcm & _ & Fd & Fe & Fm & Fi & Hl).
      apply Stored with (texts := texts) (stored := stored); auto.
      cbn [snd]. rewrite Ht. subst s1. cbn [trace]. rewrite <- app_assoc. reflexivity.
    + destruct R as (evs & Hstop & Ht & Hcm).
      rewrite store_handler_run.
      destruct (fault OpRollback) as [msg|] eqn:Fr.
      * apply Aborted with (e := e) (evs := evs); auto.
        { unfold last_line. cbn [snd stdout]. apply last_snoc. }
        right. exists msg. repeat split; auto.
        cbn [snd trace]. rewrite Ht. subst s1. cbn [trace].
        rewrite <- !app_assoc. reflexivity.
      * apply Aborted with (e := e) (evs := evs); auto.
        { unfold last_line. cbn [snd stdout]. apply last_snoc. }
        left. repeat split; auto.
        cbn [snd trace]. rewrite Ht. subst s1. cbn [trace].
        rewrite <- !app_assoc. reflexivity.
Qed.

(** The loop completes when every row yields a tuple and no insert is
    refused. *)
Lemma insert_rows_completes (rs : list Series) :
  forall (embs : list Vec) (idx : nat) (s : St) stored,
  stored_all literal_eval embs idx rs = Ok stored ->
  (forall i, idx <= i < idx + length rs -> fault (OpInsert i) = None) ->
  exists s', insert_loop embs idx rs s = (Ok tt, s').
Proof.
  induction rs as [|row rest IH]; intros embs idx s stored Hs Hf.
  - eexists. reflexivity.
  - cbn [insert_rows stored_all] in *. unfold bind at 1, lift at 1.
    destruct (embedding_at embs idx) as [embedding|e]; [|discriminate].
    cbn [Res.bind] in Hs. unfold bind at 1, lift at 1.
    destruct (stored_of literal_eval row embedding) as [x|e]; [|discriminate].
    cbn [Res.bind] in Hs.
    destruct (stored_all literal_eval embs (S idx) rest) as [others|e] eqn:Eo;
      [|discriminate].
    unfold bind at 1, execute_insert, call, bind at 1, emit.
    rewrite (Hf idx) by (cbn [length]; lia).
    unfold set_txn at 1, bind at 1.
    set (s1 := mkState _ _ _ _).
    assert (K : exists s2,
               (if Nat.eqb ((idx + 1) mod 100) 0
                then print (Vec:=Vec)
                           ("Stored " ++ Text.of_nat (idx + 1) ++ " cocktails...")
                else ret tt) s1 = (Ok tt, s2)).
    { destruct (Nat.eqb _ 0); eexists; reflexivity. }
    destruct K as (s2 & ->).
    apply (IH embs (S idx) s2 others Eo).
    intros i Hi. apply Hf. cbn [length]. lia.
Qed.

(** A run in which nothing fails stores the new corpus: the calls are the
    connection, the clear, the one embedding call, one insert per row, the
    commit and the close, and the committed table is the list of tuples. *)
Lemma store_cocktails_succeeds (df : DataFrame) (s : St) texts stored :
  fault OpConnect = None -> fault OpDelete = None -> fault OpEncode = None ->
  fault OpCommit = None ->
  (forall i, i < length (rows df) -> fault (OpInsert i) = None) ->
  column_to_list "combined_text" df = Ok texts ->
  stored_all literal_eval (encode texts) 0 (rows df) = Ok stored ->
  fst (store df s) = Ok tt
  /\ committed (snd (store df s)) = stored
  /\ trace (snd (store df s))
     = (trace s ++ EvConnect :: EvDelete :: EvEncode texts
                :: map (@EvInsert Vec) stored ++ [EvCommit; EvClose])%list.
Proof.
  intros Fc Fd Fe Fm Fi Hc Hs.
  unfold store_cocktails, try_binding. rewrite get_connection_run, Fc.
  set (s1 := mkState _ _ _ _).
  assert (B : exists s2, body df (Some PgConn) s1 = (Ok tt, s2)).
  { unfold store_body, cursor_of, on_connection, execute_delete, call.
    unfold bind at 1, ret at 1. unfold bind at 1. unfold bind at 1, emit at 1.
    rewrite Fd. unfold set_txn at 1. unfold bind at 1, print at 1.
    unfold bind at 1, lift at 1. rewrite Hc.
    unfold bind at 1, generate_embeddings, call. unfold bind at 1.
    unfold bind at 1, emit at 1. rewrite Fe.
    unfold ret at 1. unfold ret at 1. unfold bind at 1, print at 1. unfold bind at 1.
    set (s3 := mkState _ _ _ _).
    destruct (@insert_rows_completes (rows df) (encode texts) 0 s3 stored Hs)
      as (s4 & ->).
    { intros i Hi. apply Fi. lia. }
    unfold commit, on_connection, call. unfold bind at 1. unfold bind at 1, emit at 1.
    rewrite Fm. eexists. reflexivity. }
  destruct B as (s2 & B). rewrite B.
  pose proof (store_body_run _ _ B) as R. cbn beta iota in R.
  destruct R as (texts' & stored' & Hc' & Hs' & Ht & Hcm & _).
  assert (Et : texts' = texts) by congruence.
  assert (Es : stored' = stored) by congruence.
  cbn [fst snd]. split; [reflexivity|]. split; [rewrite Hcm; exact Es|].
  rewrite Ht, Et, Es. subst s1. cbn [trace]. rewrite <- app_assoc. reflexivity.
Qed.

(** [clean_data] leaves the store alone. It returns the cleaned frame,
    unless that frame has no row: then its sampling line raises. *)
Lemma clean_data_run (df : DataFrame) (s : St) r s' :
  clean_data df s = (r, s') ->
  committed s' = committed s /\ txn s' = txn s /\ trace s' = trace s
  /\ match r with
     | Ok df' => df' = cleaned df /\ rows (cleaned df) <> []
     | Raise _ => rows (cleaned df) = []
     end.
Proof.
  unfold clean_data, cleaned. unfold bind at 1, print at 1.
  destruct (has_col (detect_col "name" "strDrink" df) df).
  - unfold bind at 1. unfold bind at 1, print at 1, ret at 1.
    unfold bind at 1, lift at 1.
    destruct (rows (with_combined_text _)) as [|first others] eqn:R.
    + intros H. inversion H; subst. cbn [committed txn trace]. auto.
    + unfold bind at 1, print at 1, ret. intros H. inversion H; subst.
      cbn [committed txn trace]. repeat split; auto. discriminate.
  - unfold bind at 1, ret at 1. unfold bind at 1, lift at 1.
    destruct (rows (with_combined_text _)) as [|first others] eqn:R.
    + intros H. inversion H; subst. cbn [committed txn trace]. auto.
    + unfold bind at 1, print at 1, ret. intros H. inversion H; subst.
      cbn [committed txn trace]. repeat split; auto. discriminate.
Qed.

Lemma drop_duplicates_first col (r : Series) rs :
  drop_duplicates col [] (r :: rs) = r :: drop_duplicates col [cell col r] rs.
Proof. reflexivity. Qed.

Lemma cleaned_nonempty (df : DataFrame) : rows df <> [] -> rows (cleaned df) <> [].
Proof.
  unfold cleaned, with_combined_text. cbn [rows].
  destruct (rows df) as [|r rs]; [congruence|]. intros _.
  destruct (has_col _ df); [rewrite drop_duplicates_first|]; discriminate.
Qed.

Lemma clean_data_total (df : DataFrame) (s : St) :
  rows df <> [] -> exists s', clean_data df s = (Ok (cleaned df), s').
Proof.
  intros H. destruct (clean_data df s) as [r s'] eqn:E.
  destruct (clean_data_run _ _ E) as (_ & _ & _ & R).
  destruct r as [df'|e].
  - destruct R as [-> _]. eauto.
  - exfalso. eapply cleaned_nonempty; eassumption.
Qed.

Lemma encode_is_the_batch texts ins rest t :
  forallb (@is_insert Vec) ins = true ->
  forallb (fun ev => negb (@is_encode Vec ev)) rest = true ->
  In (EvEncode t) (EvConnect :: EvDelete :: EvEncode texts :: ins ++ rest)%list ->
  t = texts.
Proof.
  intros Hi Hr [H|[H|[H|H]]]; try discriminate.
  - inversion H. reflexivity.
  - apply in_app_or in H. destruct H as [H|H].
    + apply (not_insert_in _ _ Hi) in H. discriminate.
    + rewrite forallb_forall in Hr. apply Hr in H. discriminate.
Qed.

Lemma phase_of_shape texts ins rest :
  forallb (@is_insert Vec) ins = true ->
  phase_run Untouched (EvConnect :: EvDelete :: EvEncode texts :: ins ++ rest)%list
  = phase_run Embedded rest.
Proof. intros Hi. simpl. apply phase_run_inserts, Hi. Qed.

(** C1, as the code has it. In every run of [store_cocktails] the calls
    respect the order clear, embed, insert: the clear is issued first and
    once, the embedder is called after it and at most once, on the list
    of all the [combined_text] values, and no insert is issued before
    that call. *)
Theorem clear_then_embed_then_insert (df : DataFrame) (s : St) :
  exists evs,
    trace (snd (store df s)) = (trace s ++ evs)%list
    /\ (exists p, phase_run Untouched evs = Some p)
    /\ (forall texts, In (EvEncode texts) evs ->
                      column_to_list "combined_text" df = Ok texts).
Proof.
  destruct (store_cocktails_run df s)
    as [msg _ _ Ht _ | e evs _ Hstop _ _ Hr | texts stored _ _ Hc _ Ht _ _ _ _ _ _].
  - exists [EvConnect]. split; [exact Ht|]. split; [exists Untouched; reflexivity|].
    intros texts [H|[]]. discriminate.
  - assert (K : forall tail : list (Event Vec),
               tail = [EvRollback; EvClose] \/ tail = [EvRollback] ->
               (exists p, phase_run Untouched (EvConnect :: evs ++ tail) = Some p)
               /\ (forall texts, In (EvEncode texts) (EvConnect :: evs ++ tail) ->
                                 column_to_list "combined_text" df = Ok texts)).
    { intros tail Htail.
      destruct Hstop as [|texts ins Hc Hi|texts stored Hc _ _ _];
        [| |pose proof (forallb_is_insert_map stored) as Hi].
      - split.
        + exists Cleared. destruct Htail as [->| ->]; reflexivity.
        + intros texts H. exfalso.
          destruct Htail as [->| ->]; simpl in H;
            repeat (destruct H as [H|H]; [discriminate|]); exact H.
      - split.
        + exists Embedded. cbn [app]. rewrite (phase_of_shape _ _ _ Hi).
          destruct Htail as [->| ->]; reflexivity.
        + intros t H. cbn [app] in H.
          assert (E : t = texts).
          { eapply encode_is_the_batch; [exact Hi | | exact H].
            destruct Htail as [->| ->]; reflexivity. }
          subst t. exact Hc.
      - split.
        + exists Embedded. cbn [app]. rewrite <- app_assoc.
          rewrite (phase_of_shape _ _ _ Hi).
          destruct Htail as [->| ->]; reflexivity.
        + intros t H. cbn [app] in H. rewrite <- app_assoc in H.
          assert (E : t = texts).
          { eapply encode_is_the_batch; [exact Hi | | exact H].
            destruct Htail as [->| ->]; reflexivity. }
          subst t. exact Hc. }
    destruct Hr as [(_ & _ & Ht) | (msg & _ & _ & Ht)].
    + exists (EvConnect :: evs ++ [EvRollback; EvClose])%list.
      split; [exact Ht | apply K; auto].
    + exists (EvConnect :: evs ++ [EvRollback])%list.
      split; [exact Ht | apply K; auto].
  - exists (EvConnect :: EvDelete :: EvEncode texts
                      :: map (@EvInsert Vec) stored ++ [EvCommit; EvClose])%list.
    split; [exact Ht|]. split.
    + exists Embedded. rewrite phase_of_shape by apply forallb_is_insert_map.
      reflexivity.
    + intros t H.
      assert (E : t = texts).
      { eapply encode_is_the_batch; [apply forallb_is_insert_map | | exact H].
        reflexivity. }
      subst t. exact Hc.
Qed.

Lemma stopped_early_commit df evs :
  stopped_early literal_eval encode fault df evs ->
  In EvCommit evs ->
  (forall i, i < length (rows df) -> fault (OpInsert i) = None)
  /\ fault OpCommit <> None.
Proof.
  intros [|texts ins _ Hi|texts stored _ _ Hf Hm] H.
  - destruct H as [H|[]]. discriminate.
  - destruct H as [H|[H|H]]; try discriminate.
    apply (not_insert_in _ _ Hi) in H. discriminate.
  - auto.
Qed.

(** C9. The clear and the inserts of one call form one transaction, and
    the transaction is carried out. Every call either leaves the
    committed table as it was, having issued a rollback if it had issued
    the clear, and having issued a commit only after every insert was
    accepted and only to see it refused; or it issued the clear, the
    embedding, one accepted insert per row and then the commit, in this
    order, and the committed table is exactly the new corpus. A failing
    embedding, insert or commit leaves the committed table as it was
    before the call. And when nothing fails and every row yields its
    tuple, the second case is the one that happens: the call returns
    normally, having issued the connection, the clear, the embedding, one
    insert per row, the commit and the close, and the committed table is
    the list of the new tuples. *)
Theorem clear_and_inserts_atomic (df : DataFrame) (s : St) :
  (exists evs,
    trace (snd (store df s)) = (trace s ++ evs)%list
    /\ ((committed (snd (store df s)) = committed s
         /\ (In EvDelete evs -> In EvRollback evs)
         /\ (In EvCommit evs ->
             (forall i, i < length (rows df) -> fault (OpInsert i) = None)
             /\ fault OpCommit <> None))
        \/ (exists texts stored,
              column_to_list "combined_text" df = Ok texts
              /\ stored_all literal_eval (encode texts) 0 (rows df) = Ok stored
              /\ evs = (EvConnect :: EvDelete :: EvEncode texts
                                  :: map (@EvInsert Vec) stored ++ [EvCommit; EvClose])%list
              /\ committed (snd (store df s)) = stored
              /\ fst (store df s) = Ok tt))
    /\ (fault OpEncode <> None \/ fault OpCommit <> None
        \/ (exists i, i < length (rows df) /\ fault (OpInsert i) <> None) ->
        committed (snd (store df s)) = committed s))
  /\ (fault OpConnect = None -> fault OpDelete = None -> fault OpEncode = None ->
      fault OpCommit = None ->
      (forall i, i < length (rows df) -> fault (OpInsert i) = None) ->
      forall texts stored,
        column_to_list "combined_text" df = Ok texts ->
        stored_all literal_eval (encode texts) 0 (rows df) = Ok stored ->
        fst (store df s) = Ok tt
        /\ committed (snd (store df s)) = stored
        /\ trace (snd (store df s))
           = (trace s ++ EvConnect :: EvDelete :: EvEncode texts
                      :: map (@EvInsert Vec) stored ++ [EvCommit; EvClose])%list).
Proof.
  split.
  2:{ intros Fc Fd Fe Fm Fi texts stored Hcol Hst.
      exact (@store_cocktails_succeeds df s texts stored Fc Fd Fe Fm Fi Hcol Hst). }
  destruct (store_cocktails_run df s)
    as [msg _ _ Ht Hc | e evs _ Hstop Hc _ Hr
        | texts stored _ Hres Hcol Hst Ht Hc _ Fe Fm Fi _].
  - exists [EvConnect]. split; [exact Ht|]. split; [|intros; exact Hc].
    left. split; [exact Hc|].
    split; intros [H|[]]; discriminate.
  - assert (K : forall tail : list (Event Vec),
               In EvRollback tail ->
               ~ In EvCommit tail ->
               (In EvDelete (EvConnect :: evs ++ tail) ->
                In EvRollback (EvConnect :: evs ++ tail))
               /\ (In EvCommit (EvConnect :: evs ++ tail) ->
                   (forall i, i < length (rows df) -> fault (OpInsert i) = None)
                   /\ fault OpCommit <> None)).
    { intros tail Hin Hno. split.
      - intros _. right. apply in_or_app. right. exact Hin.
      - intros [H|H]; [discriminate|]. apply in_app_or in H.
        destruct H as [H|H]; [|contradiction].
        eapply stopped_early_commit; eassumption. }
    destruct Hr as [(_ & _ & Ht) | (msg & _ & _ & Ht)].
    + exists (EvConnect :: evs ++ [EvRollback; EvClose])%list.
      split; [exact Ht|]. split; [|intros; exact Hc].
      left. split; [exact Hc|]. apply K; [left; reflexivity|].
      intros [H|[H|[]]]; discriminate.
    + exists (EvConnect :: evs ++ [EvRollback])%list.
      split; [exact Ht|]. split; [|intros; exact Hc].
      left. split; [exact Hc|]. apply K; [left; reflexivity|].
      intros [H|[]]; discriminate.
  - exists (EvConnect :: EvDelete :: EvEncode texts
                      :: map (@EvInsert Vec) stored ++ [EvCommit; EvClose])%list.
    split; [exact Ht|]. split.
    + right. exists texts, stored. auto.
    + intros [H|[H|(i & Hi & H)]]; [congruence | congruence |].
      exfalso. apply H. apply Fi. exact Hi.
Qed.

(** Every row of a frame whose tuples can all be built has an ingredient
    list. *)
Lemma stored_all_rows_ok (rs : list Series) :
  forall (embs : list Vec) idx stored,
  stored_all literal_eval embs idx rs = Ok stored ->
  forall row, In row rs -> exists out, get_ingredents_list literal_eval row = Ok out.
Proof.
  induction rs as [|x rest IH]; intros embs idx stored H; cbn [stored_all] in H.
  - intros row [].
  - destruct (embedding_at embs idx) as [emb|?]; [|discriminate].
    cbn [Res.bind] in H.
    destruct (stored_of literal_eval x emb) as [r|?] eqn:Er; [|discriminate].
    cbn [Res.bind] in H.
    destruct (stored_all literal_eval embs (S idx) rest) as [others|?] eqn:Eo;
      [|discriminate].
    intros row [<-|Hr]; [|exact (IH _ _ _ Eo row Hr)].
    unfold stored_of in Er.
    destruct (get_ingredents_list literal_eval x) as [out|?]; [eauto | discriminate].
Qed.

(** C2, as the code has it. On a connection that was opened and on which
    the rollback goes through, no failure reaches the caller:
    [store_cocktails] returns normally, as it does after a successful
    ingestion, and so does [process_and_store] on a readable file with at
    least one row. When the [try] block raises, the handler has printed
    'Error storing cocktails: ' followed by the message of that
    exception as the last line, the rollback and the close are the last
    two calls issued, no transaction is left open and the committed table
    is as it was before the call. The [try] block does raise as soon as
    the clear, the embedding, the commit or some row's insert is refused,
    or some row has no ingredient list. *)
Theorem failed_ingestion_returns_normally :
  fault OpConnect = None ->
  fault OpRollback = None ->
  (forall (df : DataFrame) (s : St),
      fst (store df s) = Ok tt
      /\ (forall e,
             fst (body df (Some PgConn) (snd (get_connection fault s))) = Raise e ->
             committed (snd (store df s)) = committed s
             /\ txn (snd (store df s)) = None
             /\ last_line (snd (store df s)) = "Error storing cocktails: " ++ exn_str e
             /\ exists evs,
                  stopped_early literal_eval encode fault df evs
                  /\ trace (snd (store df s))
                     = (trace s ++ EvConnect :: evs ++ [EvRollback; EvClose])%list)
      /\ (fault OpDelete <> None \/ fault OpEncode <> None \/ fault OpCommit <> None
          \/ (exists i, i < length (rows df) /\ fault (OpInsert i) <> None)
          \/ (exists row e, In row (rows df)
                            /\ get_ingredents_list literal_eval row = Raise e) ->
          exists e,
            fst (body df (Some PgConn) (snd (get_connection fault s))) = Raise e))
  /\ (forall (csv_path : string) (df : DataFrame) (s : St),
         read_csv csv_path = Ok df ->
         rows df <> [] ->
         fst (process_and_store literal_eval encode read_csv fault csv_path s) = Ok tt).
Proof.
  intros Fc Fr.
  assert (A : forall (df : DataFrame) (s : St), fst (store df s) = Ok tt).
  { intros df s.
    destruct (store_cocktails_run df s)
      as [msg Fc' _ _ _ | e evs _ _ _ _ Hr | texts stored _ Hres _ _ _ _ _ _ _ _ _].
    - congruence.
    - destruct Hr as [(_ & Hres & _) | (msg & Fr' & _)]; [exact Hres | congruence].
    - exact Hres. }
  split.
  - intros df s. split; [apply A|].
    unfold store_cocktails, try_binding. rewrite get_connection_run, Fc.
    cbn [snd]. set (s1 := mkState _ _ _ _).
    destruct (body df (Some PgConn) s1) as [r1 s2] eqn:EB.
    pose proof (store_body_run _ _ EB) as R.
    destruct r1 as [[]|e]; cbn [fst].
    + split; [intros e H; discriminate|].
      destruct R as (texts & stored & _ & Hs & _ & _ & _ & Fd & Fe & Fm & Fi & _).
      intros [H|[H|[H|[(i & Hi & H)|(row & e & Hin & Hr)]]]]; exfalso.
      * exact (H Fd).
      * exact (H Fe).
      * exact (H Fm).
      * exact (H (Fi i Hi)).
      * destruct (stored_all_rows_ok _ _ _ Hs row Hin) as (out & Ho). congruence.
    + destruct R as (evs & Hstop & Ht & Hcm).
      rewrite store_handler_run, Fr. cbn [snd committed txn trace].
      split; [|intros _; exists e; reflexivity].
      intros e' He'. assert (e' = e) by congruence. subst e'.
      split; [exact Hcm|]. split; [reflexivity|].
      split; [unfold last_line; cbn [stdout]; apply last_snoc|].
      exists evs. split; [exact Hstop|].
      rewrite Ht. subst s1. cbn [trace]. rewrite <- !app_assoc. reflexivity.
  - intros csv_path df s Hread Hrows.
    unfold process_and_store, load_data, try_except.
    unfold bind at 1. unfold bind at 1, lift. rewrite Hread.
    unfold bind at 1, print at 1, ret at 1.
    set (s1 := mkState _ _ _ _).
    unfold bind. destruct (clean_data_total df s1 Hrows) as (s2 & ->).
    apply A.
Qed.

(** C10. When [load_data] returns [None], [process_and_store] returns
    at once: it issues no call to the store or to the embedder, and the
    committed table and the session are as they were. *)
Theorem unreadable_csv_touches_nothing (csv_path : string) (s : St) :
  fst (load_data read_csv csv_path s) = Ok None ->
  fst (process_and_store literal_eval encode read_csv fault csv_path s) = Ok tt
  /\ trace (snd (process_and_store literal_eval encode read_csv fault csv_path s))
     = trace s
  /\ committed (snd (process_and_store literal_eval encode read_csv fault csv_path s))
     = committed s
  /\ txn (snd (process_and_store literal_eval encode read_csv fault csv_path s))
     = txn s.
Proof.
  unfold process_and_store, bind.
  destruct (load_data read_csv csv_path s) as [r s1] eqn:E.
  cbn [fst]. intros ->. cbn [fst snd ret].
  unfold load_data, try_except, bind, lift, print, ret in E.
  destruct (read_csv csv_path); inversion E; subst. auto.
Qed.

Lemma drop_duplicates_subset col (rs : list Series) :
  forall seen r, In r (drop_duplicates col seen rs) -> In r rs.
Proof.
  induction rs as [|x rs IH]; intros seen r; cbn [drop_duplicates]; [auto|].
  destruct (existsb _ seen).
  - intros H. right. exact (IH _ _ H).
  - intros [H|H]; [left; exact H | right; exact (IH _ _ H)].
Qed.

Lemma row_get_row_set key v (row : Series) :
  row_get key (row_set key v row) = Some v.
Proof.
  induction row as [|[k w] row IH]; cbn [row_set row_get].
  - rewrite String.eqb_refl. reflexivity.
  - destruct (String.eqb k key) eqn:E; cbn [row_get]; rewrite E; auto.
Qed.

Lemma clean_text_clean (x : string) :
  Text.single_spaced (clean_text x)
  /\ Text.trimmed (clean_text x)
  /\ clean_text (clean_text x) = clean_text x.
Proof.
  assert (S1 : Text.single_spaced (clean_text x))
    by (apply TextFacts.strip_single_spaced, (TextFacts.sub_ws_shape false x)).
  assert (T1 : Text.trimmed (clean_text x)) by apply TextFacts.strip_trimmed.
  split; [exact S1|]. split; [exact T1|].
  unfold clean_text at 1. unfold Text.collapse_ws.
  rewrite TextFacts.sub_ws_fixed; [apply TextFacts.strip_fixed, T1 | exact S1 |].
  discriminate.
Qed.

(** C7. The [combined_text] that [clean_data] stores for a row is a
    function of the frame's columns and of that row: any two calls on the
    same frame return the same frame. The stored text has every run of
    whitespace collapsed to one space and no whitespace at either end,
    and cleaning it again gives it back unchanged. *)
Theorem combined_text_stable (df df' : DataFrame) (s s' : St) :
  clean_data df s = (Ok df', s') ->
  (forall (s2 : St), fst (clean_data df s2) = Ok df')
  /\ (forall row', In row' (rows df') ->
       exists src,
         In src (rows df)
         /\ row' = row_set "combined_text" (PStr (combined_text df (fillna src)))
                           (fillna src)
         /\ row_get "combined_text" row' = Some (PStr (combined_text df (fillna src)))
         /\ Text.single_spaced (combined_text df (fillna src))
         /\ Text.trimmed (combined_text df (fillna src))
         /\ clean_text (combined_text df (fillna src)) = combined_text df (fillna src)).
Proof.
  intros H. destruct (clean_data_run _ _ H) as (_ & _ & _ & -> & Hne).
  split.
  - intros s2. destruct (clean_data df s2) as [r2 s2'] eqn:E2.
    destruct (clean_data_run _ _ E2) as (_ & _ & _ & R). cbn [fst].
    destruct r2 as [df2|e]; [destruct R as [-> _]; reflexivity | contradiction].
  - intros row' Hin. unfold cleaned, with_combined_text in Hin. cbn [rows] in Hin.
    apply in_map_iff in Hin. destruct Hin as (filled & <- & Hin).
    apply in_map_iff in Hin. destruct Hin as (src & <- & Hin).
    exists src. split.
    { destruct (has_col _ df); [eapply drop_duplicates_subset|]; exact Hin. }
    split; [reflexivity|]. split; [apply row_get_row_set|].
    apply clean_text_clean.
Qed.

End PipelineFacts.

(* ===================================================================== *)
(** ** Facts about the mixed-preferences form *)
(* ===================================================================== *)

Section AppFacts.

Variable Cocktail : Type.
Variable recommend_by_mixed_preferences : MixedQuery -> list Cocktail.

(** The recommender is called exactly when some field is populated and
    the button was clicked, and then once. *)
Lemma mixed_search_calls (form : MixedForm) :
  snd (handle_mixed_search recommend_by_mixed_preferences form) <> [] <->
  (f_ingredients form <> [] \/ f_styles form <> []
   \/ f_occasion form <> "" \/ f_alcoholic_pref form <> "")
  /\ f_button form = true.
Proof.
  destruct form as [ing sty occ alc btn]. unfold handle_mixed_search.
  cbn [f_ingredients f_styles f_occasion f_alcoholic_pref f_button existsb].
  destruct ing, sty, occ, alc, btn; cbn; split;
    try (intros H; exfalso; apply H; reflexivity);
    try (intros [[H|[H|[H|H]]] B]; solve [congruence | discriminate B]);
    intros _; (split; [|reflexivity]); (try discriminate);
    solve [left; discriminate | right; left; discriminate
           | right; right; left; discriminate | right; right; right; discriminate].
Qed.

(** C8. With no ingredient, no style, no occasion and no alcoholic
    preference selected, [handle_mixed_search] returns the empty list
    and makes no call to [recommend_by_mixed_preferences], whatever the
    state of the button and whatever the recommender would answer. *)
Theorem empty_mixed_form_runs_no_search (form : MixedForm) :
  f_ingredients form = [] ->
  f_styles form = [] ->
  f_occasion form = "" ->
  f_alcoholic_pref form = "" ->
  handle_mixed_search recommend_by_mixed_preferences form = ([], []).
Proof.
  destruct form as [ing sty occ alc btn].
  cbn [f_ingredients f_styles f_occasion f_alcoholic_pref].
  intros -> -> -> ->. reflexivity.
Qed.

End AppFacts.

(* ===================================================================== *)
(** ** Worked runs *)
(* ===================================================================== *)

(** C3. In the new-shape branch a measure that holds only a blank is
    printed: the line reads [-   Gin], with the blank between two
    separators. The legacy branch, given the same drink, prints [- Gin]. *)
Theorem blank_measure_is_printed :
  create_recipe_text Literal.literal_eval Sample.blank_measure
  = Ok (recipe_header Sample.blank_measure ++ "-   Gin" ++ Text.nl)
  /\ create_recipe_text Literal.literal_eval Sample.blank_measure_legacy
     = Ok (recipe_header Sample.blank_measure_legacy ++ "- Gin" ++ Text.nl).
Proof. split; vm_compute; reflexivity. Qed.

(** C1 as the specification words it fails: in a successful ingestion of
    the sample corpus the clear is the second call issued and the
    embedding the third. *)
Lemma clear_precedes_embedding :
  let run := store_cocktails Literal.literal_eval Sample.encode Sample.no_fault
                             Sample.cleaned_corpus Sample.old_store in
  fst run = Ok tt
  /\ first_index (@is_delete nat) (trace (snd run)) = Some 1
  /\ first_index (@is_encode nat) (trace (snd run)) = Some 2
  /\ first_index (@is_insert nat) (trace (snd run)) = Some 3.
Proof. vm_compute. repeat split; reflexivity. Qed.

(** C2 as the specification words it fails: an ingestion whose first
    insert is refused returns exactly what a successful one returns, from
    [store_cocktails] and from [process_and_store] alike; the refusal has
    left the old corpus in place. *)
Lemma refused_insert_is_not_surfaced :
  let failed := store_cocktails Literal.literal_eval Sample.encode Sample.insert_fault
                                Sample.cleaned_corpus Sample.old_store in
  let good := store_cocktails Literal.literal_eval Sample.encode Sample.no_fault
                              Sample.cleaned_corpus Sample.old_store in
  Sample.insert_fault (OpInsert 0) <> None
  /\ fst failed = Ok tt /\ fst good = Ok tt
  /\ committed (snd failed) = [Sample.old_row]
  /\ committed (snd good) <> [Sample.old_row]
  /\ fst (process_and_store Literal.literal_eval Sample.encode Sample.one_file
                            Sample.insert_fault "cocktails.csv" Sample.old_store)
     = fst (process_and_store Literal.literal_eval Sample.encode Sample.one_file
                              Sample.no_fault "cocktails.csv" Sample.old_store).
Proof. vm_compute. repeat split; try reflexivity; discriminate. Qed.

(** C6 as the specification words it fails: a scalar ingredient field that
    reads [None] is returned as the ingredient [None], and the text [nan]
    inside a list literal is returned as an ingredient. *)
Lemma sentinel_text_is_kept :
  get_ingredents_list Literal.literal_eval Sample.scalar_none = Ok "None"
  /\ get_ingredents_list Literal.literal_eval Sample.list_nan = Ok "Gin, nan".
Proof. split; vm_compute; reflexivity. Qed.

Lemma ingredient_count_and_exclusion_witness :
  ingredient_names Literal.literal_eval Sample.martini = Ok ["Gin"; "Vermouth"]
  /\ get_ingredents_list Literal.literal_eval Sample.martini = Ok "Gin, Vermouth".
Proof.
  split; [reflexivity|].
  exact (proj1 (@ingredient_count_and_exclusion Literal.literal_eval Sample.martini
                  ["Gin"; "Vermouth"] eq_refl)).
Defined.

Lemma malformed_literal_recovered_witness :
  get_ingredents_list Literal.literal_eval Sample.unclosed = Ok "['Gin', 'Vermouth'".
Proof.
  exact (proj1 (@malformed_literal_recovered Literal.literal_eval nat Sample.unclosed
                  "['Gin', 'Vermouth'" 0 eq_refl eq_refl eq_refl)).
Defined.

Lemma gin_vermouth_recipe_witness :
  create_recipe_text Literal.literal_eval Sample.martini
  = Ok (recipe_header Sample.martini ++ "- 2 oz Gin" ++ Text.nl ++ "- Vermouth" ++ Text.nl).
Proof.
  exact (@gin_vermouth_recipe Literal.literal_eval Sample.martini
           "['Gin', 'Vermouth']" "['2 oz']"
           eq_refl eq_refl eq_refl eq_refl eq_refl eq_refl).
Defined.

Lemma combined_text_stable_witness :
  clean_data Sample.corpus Sample.empty_store
  = (Ok Sample.cleaned_corpus, snd (clean_data Sample.corpus Sample.empty_store))
  /\ fst (clean_data Sample.corpus Sample.old_store) = Ok Sample.cleaned_corpus.
Proof.
  split; [reflexivity|].
  exact (proj1 (@combined_text_stable nat Sample.corpus Sample.cleaned_corpus
                  Sample.empty_store (snd (clean_data Sample.corpus Sample.empty_store))
                  eq_refl)
               Sample.old_store).
Defined.

Lemma failed_ingestion_returns_normally_witness :
  fst (store_cocktails Literal.literal_eval Sample.encode Sample.insert_fault
                       Sample.cleaned_corpus Sample.old_store) = Ok tt
  /\ last_line (snd (store_cocktails Literal.literal_eval Sample.encode
                                      Sample.insert_fault Sample.cleaned_corpus
                                      Sample.old_store))
     = "Error storing cocktails: value too long for type character varying(255)".
Proof.
  pose proof (proj1 (@failed_ingestion_returns_normally nat Literal.literal_eval
                       Sample.encode Sample.one_file Sample.insert_fault
                       eq_refl eq_refl)
                    Sample.cleaned_corpus Sample.old_store) as H.
  destruct H as (Hret & Hfail & _).
  split; [exact Hret|].
  exact (proj1 (proj2 (proj2
           (Hfail (ExternalError "value too long for type character varying(255)")
                  eq_refl)))).
Defined.

Lemma clear_and_inserts_atomic_witness :
  fst (store_cocktails Literal.literal_eval Sample.encode Sample.no_fault
                       Sample.cleaned_corpus Sample.old_store) = Ok tt
  /\ length (committed (snd (store_cocktails Literal.literal_eval Sample.encode
                                             Sample.no_fault Sample.cleaned_corpus
                                             Sample.old_store))) = 1.
Proof.
  destruct (proj2 (@clear_and_inserts_atomic nat Literal.literal_eval Sample.encode
                     Sample.no_fault Sample.cleaned_corpus Sample.old_store)
                  eq_refl eq_refl eq_refl eq_refl (fun _ _ => eq_refl)
                  (map (cell "combined_text") (rows Sample.cleaned_corpus))
                  (committed (snd (store_cocktails Literal.literal_eval Sample.encode
                                                   Sample.no_fault Sample.cleaned_corpus
                                                   Sample.empty_store)))
                  eq_refl eq_refl)
    as (Hret & Hcm & _).
  split; [exact Hret|]. rewrite Hcm. reflexivity.
Defined.

Lemma unreadable_csv_touches_nothing_witness :
  trace (snd (process_and_store Literal.literal_eval Sample.encode Sample.no_file
                                Sample.no_fault "missing.csv" Sample.old_store))
  = trace Sample.old_store.
Proof.
  exact (proj1 (proj2 (@unreadable_csv_touches_nothing nat Literal.literal_eval
                         Sample.encode Sample.no_file Sample.no_fault
                         "missing.csv" Sample.old_store eq_refl))).
Defined.

Lemma empty_mixed_form_runs_no_search_witness :
  handle_mixed_search (fun _ : MixedQuery => [Sample.old_row])
                      (mkForm [] [] "" "" true)
  = ([], []).
Proof.
  exact (@empty_mixed_form_runs_no_search _ (fun _ : MixedQuery => [Sample.old_row])
           (mkForm [] [] "" "" true) eq_refl eq_refl eq_refl eq_refl).
Defined.

(* ===================================================================== *)
(** ** Further facts about the normalizer and the recipe text *)
(* ===================================================================== *)

Section NormalizerMore.

Variable literal_eval : string -> option (list pyval).

Local Arguments Text.startswith : simpl never.
Local Arguments Text.strip : simpl never.
Local Arguments Text.nonempty : simpl never.
Local Arguments String.append : simpl never.

(** When [get_ingredents_list] raises, and with what. *)
Lemma ingredient_names_raise (row : Series) (e : exn) :
  ingredient_names literal_eval row = Raise e <->
  (exists v, row_get "ingredients" row = Some v /\ py_bool v = true
             /\ (forall s, v <> PStr s))
  /\ e = AttributeError "object has no attribute 'strip'".
Proof.
  unfold ingredient_names. destruct (new_shape row) eqn:N.
  - destruct (new_shape_inv _ N) as (v & Hv & Bv).
    unfold row_item, eval_literal. rewrite Hv.
    destruct v as [s| |t r]; cbn [as_str Res.bind Res.try_except].
    + split.
      * destruct (Text.startswith "[" s); [destruct (literal_eval s)|];
          cbn [Res.bind Res.try_except]; discriminate.
      * intros [(v & Hv' & _ & Hn) _]. exfalso. apply (Hn s). congruence.
    + split.
      * intros H. inversion H. split; [|reflexivity].
        exists PNaN. repeat split; auto. discriminate.
      * intros [_ ->]. reflexivity.
    + split.
      * intros H. inversion H. split; [|reflexivity].
        exists (PObj t r). repeat split; auto. discriminate.
      * intros [_ ->]. reflexivity.
  - split; [discriminate|].
    intros [(v & Hv & Bv & _) _]. unfold new_shape, row_has in N.
    rewrite Hv in N. simpl in N. congruence.
Qed.

(** The ingredient lines of a recipe are always produced. *)
Lemma ingredient_lines_total (row : Series) :
  exists lines, ingredient_lines literal_eval row = Ok lines.
Proof.
  unfold ingredient_lines. destruct (new_shape row) eqn:N; [|eauto].
  destruct (new_shape_inv _ N) as (v & Hv & _).
  unfold row_item. rewrite Hv. cbn [Res.bind].
  destruct (Res.bind (parse_field literal_eval v) _) as [lines|e];
    cbn [Res.try_except]; eauto.
Qed.

Lemma create_recipe_text_total (row : Series) :
  exists lines, create_recipe_text literal_eval row = Ok (recipe_header row ++ lines).
Proof.
  unfold create_recipe_text. destruct (ingredient_lines_total row) as (lines & ->).
  exists lines. reflexivity.
Qed.

(** X1. [get_ingredents_list] raises exactly when the row has an
    [ingredients] cell that is true but is not a text (a number, say): the
    [startswith] of the [try] block fails and so does the [strip] of the
    handler, which lets an [AttributeError] out. On every other row it
    returns. *)
Theorem get_ingredents_list_raises_on_non_text (row : Series) :
  (exists e, get_ingredents_list literal_eval row = Raise e) <->
  (exists v, row_get "ingredients" row = Some v /\ py_bool v = true
             /\ (forall s, v <> PStr s)).
Proof.
  unfold get_ingredents_list. split.
  - intros (e & H).
    destruct (ingredient_names literal_eval row) as [names|e'] eqn:E;
      [discriminate|].
    apply ingredient_names_raise in E. tauto.
  - intros H. eexists.
    rewrite (proj2 (ingredient_names_raise row _) (conj H eq_refl)). reflexivity.
Qed.

(** X2. [create_recipe_text] never raises: whatever the cells hold it
    returns the header followed by ingredient lines. When the
    [ingredients] cell is true but is not a text, the only line is the
    fallback line holding that cell. *)
Theorem recipe_is_always_written (row : Series) :
  exists lines,
    create_recipe_text literal_eval row = Ok (recipe_header row ++ lines)
    /\ (forall v, row_get "ingredients" row = Some v -> py_bool v = true ->
                  (forall s, v <> PStr s) -> lines = line_without v).
Proof.
  destruct (create_recipe_text_total row) as (lines & H).
  exists lines. split; [exact H|].
  intros v Hv Bv Nv. unfold create_recipe_text, ingredient_lines in H.
  assert (N : new_shape row = true).
  { unfold new_shape, row_has. rewrite Hv. simpl. exact Bv. }
  rewrite N in H. unfold row_item in H. rewrite Hv in H.
  destruct v as [s| |t r]; [exfalso; exact (Nv s eq_refl)| |];
    cbn [parse_field as_str Res.bind Res.try_except] in H;
    inversion H as [H1]; apply TextFacts.append_cancel in H1; congruence.
Qed.

(** X3. In a new-shape row with a text in [ingredients], a measures cell
    that is true but cannot be read (it is not a text, or it opens a list
    literal that [ast.literal_eval] refuses) sends [create_recipe_text]
    to its handler: the recipe holds one ingredient line, the whole raw
    [ingredients] field, even when that field is a well-formed list. *)
Theorem unreadable_measures_hide_the_ingredient_list
        (row : Series) (ingredients : string) (m : pyval) :
  row_get "ingredients" row = Some (PStr ingredients) ->
  Text.nonempty ingredients = true ->
  row_get "ingredientMeasures" row = Some m ->
  py_bool m = true ->
  ((forall s, m <> PStr s)
   \/ exists s, m = PStr s /\ Text.startswith "[" s = true /\ literal_eval s = None) ->
  create_recipe_text literal_eval row
  = Ok (recipe_header row ++ "- " ++ ingredients ++ Text.nl).
Proof.
  intros Hi Ni Hm Bm Um.
  assert (N : new_shape row = true) by (eapply new_shape_of_text; eauto).
  unfold create_recipe_text, ingredient_lines, row_item, row_has.
  rewrite N, Hi, Hm. cbn [Res.bind opt_bool andb]. rewrite Bm.
  destruct (parse_field literal_eval (PStr ingredients)) as [l|e];
    cbn [Res.bind Res.try_except]; [|reflexivity].
  assert (P : exists e, parse_field literal_eval m = Raise e).
  { destruct Um as [Nm|(s & -> & Ps & Ls)].
    - destruct m as [s| |t r]; [exfalso; exact (Nm s eq_refl)| |];
        eexists; reflexivity.
    - unfold parse_field, eval_literal. cbn [as_str Res.bind].
      rewrite Ps, Ls. eexists. reflexivity. }
  destruct P as (e & ->). reflexivity.
Qed.

End NormalizerMore.

(* ===================================================================== *)
(** ** Further facts about the ingestion pipeline *)
(* ===================================================================== *)

Section PipelineMore.

Variable Vec : Type.
Variable literal_eval : string -> option (list pyval).
Variable encode : list pyval -> list Vec.
Variable read_csv : string -> result DataFrame.
Variable fault : Op -> option string.

Local Arguments Text.of_nat : simpl never.
Local Arguments String.append : simpl never.
Local Arguments exn_str : simpl never.

Local Abbreviation store := (store_cocktails literal_eval encode fault).
Local Abbreviation St := (State Vec).

Lemma pyval_eqb_eq (a b : pyval) : pyval_eqb a b = true <-> a = b.
Proof.
  destruct a as [s| |t r], b as [s'| |t' r']; simpl;
    try (split; [discriminate | intros H; discriminate H]).
  - rewrite String.eqb_eq. split; congruence.
  - tauto.
  - rewrite andb_true_iff, Bool.eqb_true_iff, String.eqb_eq. split.
    + intros [-> ->]. reflexivity.
    + intros H. inversion H. auto.
Qed.

Lemma seen_In (k : pyval) (seen : list pyval) :
  existsb (pyval_eqb k) seen = true <-> In k seen.
Proof.
  rewrite existsb_exists. split.
  - intros (x & Hx & E). apply pyval_eqb_eq in E. subst. exact Hx.
  - intros H. exists k. split; [exact H | apply pyval_eqb_eq; reflexivity].
Qed.

(** What [drop_duplicates] leaves: rows of the input whose value in [col]
    was not seen before, one per value, each the first of its value. *)
Lemma drop_duplicates_spec (col : string) (rs : list Series) :
  forall seen,
    NoDup (map (cell col) (drop_duplicates col seen rs))
    /\ (forall r, In r (drop_duplicates col seen rs) -> ~ In (cell col r) seen)
    /\ (forall r, In r rs ->
                  In (cell col r) seen
                  \/ In (cell col r) (map (cell col) (drop_duplicates col seen rs)))
    /\ (forall r, In r (drop_duplicates col seen rs) ->
                  exists pre post,
                    rs = (pre ++ r :: post)%list
                    /\ forall p, In p pre -> cell col p <> cell col r).
Proof.
  induction rs as [|x rest IH]; intros seen; cbn [drop_duplicates].
  - split; [constructor|]. split; [intros r []|]. split; intros r [].
  - destruct (existsb (pyval_eqb (cell col x)) seen) eqn:E.
    + apply seen_In in E. destruct (IH seen) as (N & F & C & P).
      split; [exact N|]. split; [exact F|]. split.
      * intros r [<-|H]; [left; exact E | exact (C r H)].
      * intros r H. destruct (P r H) as (pre & post & -> & Hpre).
        exists (x :: pre), post. split; [reflexivity|].
        intros p [<-|Hp]; [|exact (Hpre p Hp)].
        intros Eq. apply (F r H). rewrite <- Eq. exact E.
    + assert (E' : ~ In (cell col x) seen).
      { intros H. apply seen_In in H. congruence. }
      destruct (IH (cell col x :: seen)) as (N & F & C & P).
      split; [|split; [|split]].
      * cbn [map]. constructor; [|exact N].
        intros H. apply in_map_iff in H. destruct H as (r & Er & Hr).
        apply (F r Hr). left. symmetry. exact Er.
      * intros r [<-|H]; [exact E'|]. intros Hs. apply (F r H). right. exact Hs.
      * intros r [<-|H]; [right; left; reflexivity|].
        destruct (C r H) as [[Eq|Hs]|Hm]; [right; left; exact Eq | left; exact Hs
                                           | right; right; exact Hm].
      * intros r [<-|H].
        -- exists [], rest. split; [reflexivity | intros p []].
        -- destruct (P r H) as (pre & post & -> & Hpre).
           exists (x :: pre), post. split; [reflexivity|].
           intros p [<-|Hp]; [|exact (Hpre p Hp)].
           intros Eq. apply (F r H). left. exact Eq.
Qed.

Lemma rows_cleaned (df : DataFrame) :
  rows (cleaned df) = map (decorate df) (kept_rows df).
Proof.
  unfold cleaned, with_combined_text, kept_rows. cbn [rows].
  rewrite map_map. reflexivity.
Qed.

Lemma row_get_row_set_other (k key : string) v (row : Series) :
  k <> key -> row_get k (row_set key v row) = row_get k row.
Proof.
  intros Hk. induction row as [|[k' w] row IH]; cbn [row_set row_get].
  - destruct (String.eqb key k) eqn:E; [|reflexivity].
    apply String.eqb_eq in E. congruence.
  - destruct (String.eqb k' key) eqn:E; cbn [row_get].
    + apply String.eqb_eq in E. subst k'.
      destruct (String.eqb key k) eqn:E2; [|reflexivity].
      apply String.eqb_eq in E2. congruence.
    + rewrite IH. reflexivity.
Qed.

Lemma kept_rows_of_empty (df : DataFrame) : rows df = [] -> kept_rows df = [].
Proof.
  unfold kept_rows. intros ->. destruct (has_col _ df); reflexivity.
Qed.

Lemma fillna_no_nan (row : Series) k v : In (k, v) (fillna row) -> v <> PNaN.
Proof.
  unfold fillna. intros H. apply in_map_iff in H.
  destruct H as ([k' w] & E & _). cbn [fst snd] in E.
  destruct w; inversion E; discriminate.
Qed.

Lemma row_set_In key w (row : Series) k v :
  In (k, v) (row_set key w row) -> v = w \/ In (k, v) row.
Proof.
  induction row as [|[k' x] row IH]; cbn [row_set].
  - intros [H|[]]. inversion H. auto.
  - destruct (String.eqb k' key).
    + intros [H|H]; [inversion H; auto | right; right; exact H].
    + intros [H|H]; [right; left; exact H|].
      destruct (IH H) as [E|I]; [left; exact E | right; right; exact I].
Qed.

Lemma has_col_cleaned (df : DataFrame) c :
  has_col c (cleaned df) = has_col c df || String.eqb c "combined_text".
Proof.
  unfold cleaned, with_combined_text, has_col. cbn [columns].
  destruct (existsb (String.eqb "combined_text") (columns df)) eqn:E.
  - destruct (String.eqb c "combined_text") eqn:Ec; [|rewrite orb_false_r; reflexivity].
    apply String.eqb_eq in Ec. subst c. rewrite E. reflexivity.
  - rewrite existsb_app. cbn [existsb]. rewrite orb_false_r. reflexivity.
Qed.

(** X4. [clean_data] keeps one row per value of the name column: the rows
    it returns are, in the order of the file, the first row of each name,
    with their empty cells filled and their [combined_text] set. Names are
    compared as read, before the empty cells are filled. A frame without a
    name column keeps all its rows. *)
Theorem clean_data_keeps_first_of_each_name (df df' : DataFrame) (s s' : St) :
  clean_data df s = (Ok df', s') ->
  rows df' = map (decorate df) (kept_rows df)
  /\ (has_col (detect_col "name" "strDrink" df) df = false -> kept_rows df = rows df)
  /\ (has_col (detect_col "name" "strDrink" df) df = true ->
      NoDup (map (name_of df) (kept_rows df))
      /\ (forall r, In r (rows df) ->
                    In (name_of df r) (map (name_of df) (kept_rows df)))
      /\ (forall r, In r (kept_rows df) ->
                    exists pre post,
                      rows df = (pre ++ r :: post)%list
                      /\ forall p, In p pre -> name_of df p <> name_of df r)).
Proof.
  intros H. destruct (clean_data_run _ _ H) as (_ & _ & _ & -> & _).
  split; [apply rows_cleaned|]. unfold kept_rows, name_of.
  split; intros ->; [reflexivity|].
  destruct (drop_duplicates_spec (detect_col "name" "strDrink" df) (rows df) [])
    as (N & _ & C & P).
  split; [exact N|]. split; [|exact P].
  intros r Hr. destruct (C r Hr) as [[]|Hm]. exact Hm.
Qed.

(** X5. The frame [clean_data] returns can be stored as it is: it has the
    column [combined_text] beside every column it had, that column holds
    one trimmed text per row, so [store_cocktails] finds its list of
    texts, and no cell of the frame is NaN any more. *)
Theorem cleaned_frame_is_ready_for_storage (df df' : DataFrame) (s s' : St) :
  clean_data df s = (Ok df', s') ->
  has_col "combined_text" df' = true
  /\ (forall c, has_col c df = true -> has_col c df' = true)
  /\ (exists texts,
        column_to_list "combined_text" df' = Ok texts
        /\ length texts = length (rows df')
        /\ Forall (fun t => exists x, t = PStr x /\ Text.trimmed x) texts)
  /\ (forall row k v, In row (rows df') -> In (k, v) row -> v <> PNaN).
Proof.
  intros H. destruct (clean_data_run _ _ H) as (_ & _ & _ & -> & _).
  assert (Hc : has_col "combined_text" (cleaned df) = true)
    by (rewrite has_col_cleaned, String.eqb_refl; apply orb_true_r).
  split; [exact Hc|].
  split; [intros c Hdf; rewrite has_col_cleaned, Hdf; reflexivity|].
  split.
  - unfold column_to_list. rewrite Hc. eexists. split; [reflexivity|].
    split; [apply length_map|].
    rewrite rows_cleaned, map_map. apply Forall_forall. intros t Ht.
    apply in_map_iff in Ht. destruct Ht as (r & <- & _).
    unfold cell, row_get_default, decorate. rewrite row_get_row_set.
    eexists. split; [reflexivity|]. apply TextFacts.strip_trimmed.
  - intros row k v Hrow Hin. rewrite rows_cleaned in Hrow.
    apply in_map_iff in Hrow. destruct Hrow as (r & <- & _).
    unfold decorate in Hin. apply row_set_In in Hin.
    destruct Hin as [->|Hin]; [discriminate | eapply fillna_no_nan; exact Hin].
Qed.

(** X6. A frame without rows (a CSV file that holds only its header line)
    stops the pipeline in [clean_data]: the line that prints a sample of
    the first text raises [IndexError], [process_and_store] lets it
    through, and the store has not been called. *)
Theorem empty_frame_stops_the_pipeline (df : DataFrame) (s : St) :
  rows df = [] ->
  (exists msg, fst (clean_data df s) = Raise (IndexError msg))
  /\ (forall csv_path,
        read_csv csv_path = Ok df ->
        (exists msg,
            fst (process_and_store literal_eval encode read_csv fault csv_path s)
            = Raise (IndexError msg))
        /\ trace (snd (process_and_store literal_eval encode read_csv fault csv_path s))
           = trace s
        /\ committed (snd (process_and_store literal_eval encode read_csv fault
                                             csv_path s))
           = committed s).
Proof.
  intros Hrows.
  assert (K : forall s0 : St,
             exists msg s1, clean_data df s0 = (Raise (IndexError msg), s1)
                            /\ trace s1 = trace s0 /\ committed s1 = committed s0).
  { intros s0. destruct df as [cols rs]. cbn [rows] in Hrows. subst rs.
    unfold clean_data, bind, print, ret, lift. cbn [rows columns].
    destruct (has_col _ _);
      cbn [drop_duplicates map rows with_combined_text];
      eexists; eexists; (split; [reflexivity|]); split; reflexivity. }
  split.
  - destruct (K s) as (msg & s1 & -> & _). exists msg. reflexivity.
  - intros csv_path Hread.
    unfold process_and_store, load_data, try_except, bind, lift. rewrite Hread.
    unfold print, ret. cbn beta iota.
    match goal with
    | |- context [clean_data df ?x] =>
        destruct (K x) as (msg & s1 & E & Ht & Hc); rewrite E
    end.
    cbn [fst snd]. split; [exists msg; reflexivity|]. split; [exact Ht | exact Hc].
Qed.

(** X7. [get_connection] never raises. It returns [None] exactly when
    [psycopg2.connect] fails, after printing the error, and it changes
    neither the committed table nor the session. *)
Theorem get_connection_never_raises (s : St) :
  exists connection s',
    get_connection fault s = (Ok connection, s')
    /\ (connection = None <-> fault OpConnect <> None)
    /\ (forall msg, fault OpConnect = Some msg ->
                    last_line s' = "Error connecting to the database: " ++ msg)
    /\ committed s' = committed s /\ txn s' = txn s.
Proof.
  rewrite get_connection_run. destruct (fault OpConnect) as [msg|].
  - eexists. eexists. split; [reflexivity|]. cbn [committed txn].
    split; [split; [discriminate | reflexivity]|].
    split; [|auto]. intros msg' E. inversion E; subst.
    unfold last_line. cbn [stdout]. apply last_last.
  - eexists. eexists. split; [reflexivity|]. cbn [committed txn].
    split; [split; [discriminate | congruence]|].
    split; [discriminate | auto].
Qed.

(** X8. When the connection cannot be opened, [store_cocktails] does not
    return: [get_connection] has bound [connection] to [None], so the
    handler's [connection.rollback()] raises [AttributeError] and that is
    what the caller gets. Only the connection attempt was issued and the
    committed table is as it was. *)
Theorem unreachable_store_raises_attribute_error (df : DataFrame) (s : St) (msg : string) :
  fault OpConnect = Some msg ->
  fst (store df s)
  = Raise (AttributeError "'NoneType' object has no attribute 'rollback'")
  /\ trace (snd (store df s)) = (trace s ++ [EvConnect])%list
  /\ committed (snd (store df s)) = committed s
  /\ stdout (snd (store df s))
     = (stdout s
          ++ [("Error connecting to the database: " ++ msg)%string;
              "Error storing cocktails: 'NoneType' object has no attribute 'cursor'"])%list.
Proof.
  intros Fc. unfold store_cocktails, try_binding. rewrite get_connection_run, Fc.
  cbn. rewrite <- app_assoc. auto.
Qed.

Lemma stored_of_inv (row : Series) (e : Vec) (r : StoredCocktail Vec) :
  stored_of literal_eval row e = Ok r ->
  sc_name r = row_get_default (pick_col "name" "strDrink" row) row
  /\ get_ingredents_list literal_eval row = Ok (sc_ingredients r)
  /\ create_recipe_text literal_eval row = Ok (sc_recipe r)
  /\ sc_embedding r = e.
Proof.
  unfold stored_of.
  destruct (get_ingredents_list literal_eval row) as [ing|x]; [|discriminate].
  destruct (create_recipe_text literal_eval row) as [rec|x]; [|discriminate].
  cbn [Res.bind]. intros H. inversion H. cbn. auto.
Qed.

Lemma stored_of_total (row : Series) (e : Vec) :
  (exists out, get_ingredents_list literal_eval row = Ok out) ->
  exists r, stored_of literal_eval row e = Ok r.
Proof.
  intros (out & H). unfold stored_of. rewrite H.
  destruct (create_recipe_text_total literal_eval row) as (lines & ->).
  eexists. reflexivity.
Qed.

Lemma stored_all_spec (rs : list Series) :
  forall (embs : list Vec) idx stored,
  stored_all literal_eval embs idx rs = Ok stored ->
  length stored = length rs
  /\ forall i row, nth_error rs i = Some row ->
                   exists r e, nth_error stored i = Some r
                               /\ nth_error embs (idx + i) = Some e
                               /\ stored_of literal_eval row e = Ok r.
Proof.
  induction rs as [|x rest IH]; intros embs idx stored H; cbn [stored_all] in H.
  - inversion H. split; [reflexivity|]. intros [|i] row Hn; discriminate.
  - unfold embedding_at in H.
    destruct (nth_error embs idx) as [e|] eqn:Ee; [|discriminate].
    cbn [Res.bind] in H.
    destruct (stored_of literal_eval x e) as [r|?] eqn:Er; [|discriminate].
    cbn [Res.bind] in H.
    destruct (stored_all literal_eval embs (S idx) rest) as [others|?] eqn:Eo;
      [|discriminate].
    cbn [Res.bind] in H. inversion H; subst stored.
    destruct (IH _ _ _ Eo) as (Hl & Hn). split; [cbn [length]; lia|].
    intros [|i] row Hrow; cbn [nth_error] in *.
    + inversion Hrow; subst. exists r, e. rewrite Nat.add_0_r. auto.
    + destruct (Hn i row Hrow) as (r' & e' & H1 & H2 & H3).
      exists r', e'. replace (idx + S i) with (S idx + i) by lia. auto.
Qed.

Lemma stored_all_total (rs : list Series) :
  forall (embs : list Vec) idx,
  idx + length rs <= length embs ->
  (forall row, In row rs -> exists out, get_ingredents_list literal_eval row = Ok out) ->
  exists stored, stored_all literal_eval embs idx rs = Ok stored.
Proof.
  induction rs as [|x rest IH]; intros embs idx Hl Hok; cbn [stored_all].
  - eexists. reflexivity.
  - cbn [length] in Hl. unfold embedding_at.
    destruct (nth_error embs idx) as [e|] eqn:Ee.
    2:{ apply nth_error_None in Ee. lia. }
    cbn [Res.bind].
    destruct (stored_of_total x e (Hok x (or_introl eq_refl))) as (r & ->).
    cbn [Res.bind].
    destruct (IH embs (S idx)) as (others & ->);
      [lia | intros row Hr; apply Hok; right; exact Hr |].
    eexists. reflexivity.
Qed.

Lemma stored_all_needs (rs : list Series) :
  forall (embs : list Vec) idx stored,
  stored_all literal_eval embs idx rs = Ok stored ->
  (rs <> [] -> idx + length rs <= length embs)
  /\ forall row, In row rs -> exists out, get_ingredents_list literal_eval row = Ok out.
Proof.
  induction rs as [|x rest IH]; intros embs idx stored H; cbn [stored_all] in H.
  - split; [congruence | intros row []].
  - unfold embedding_at in H.
    destruct (nth_error embs idx) as [e|] eqn:Ee; [|discriminate].
    cbn [Res.bind] in H.
    destruct (stored_of literal_eval x e) as [r|?] eqn:Er; [|discriminate].
    cbn [Res.bind] in H.
    destruct (stored_all literal_eval embs (S idx) rest) as [others|?] eqn:Eo;
      [|discriminate].
    destruct (IH _ _ _ Eo) as (Hl & Hok). split.
    + intros _. cbn [length].
      assert (idx < length embs) by (apply nth_error_Some; congruence).
      destruct rest as [|y rest']; [cbn [length]; lia|].
      assert (S idx + length (y :: rest') <= length embs) by (apply Hl; discriminate).
      lia.
    + intros row [<-|Hr]; [|exact (Hok row Hr)].
      destruct (stored_of_inv _ _ Er) as (_ & Hg & _). eauto.
Qed.

(** X9. When no call fails, every row yields its tuple and the embedder
    returns at least one vector per row, [store_cocktails] replaces the
    corpus: the committed table then holds exactly one tuple per row of the
    frame, in the order of the frame, and the tuple of row [i] carries the
    row's name, its ingredient list, its recipe and the [i]-th vector of
    the batch. Nothing of the previous corpus is left. *)
Theorem ingestion_stores_every_row (df : DataFrame) (s : St) (texts : list pyval) :
  fault OpConnect = None -> fault OpDelete = None -> fault OpEncode = None ->
  fault OpCommit = None ->
  (forall i, i < length (rows df) -> fault (OpInsert i) = None) ->
  column_to_list "combined_text" df = Ok texts ->
  length (rows df) <= length (encode texts) ->
  (forall row, In row (rows df) ->
               exists out, get_ingredents_list literal_eval row = Ok out) ->
  fst (store df s) = Ok tt
  /\ length (committed (snd (store df s))) = length (rows df)
  /\ forall i row,
       nth_error (rows df) i = Some row ->
       exists r,
         nth_error (committed (snd (store df s))) i = Some r
         /\ sc_name r = row_get_default (pick_col "name" "strDrink" row) row
         /\ get_ingredents_list literal_eval row = Ok (sc_ingredients r)
         /\ create_recipe_text literal_eval row = Ok (sc_recipe r)
         /\ nth_error (encode texts) i = Some (sc_embedding r).
Proof.
  intros Fc Fd Fe Fm Fi Hc Hl Hok.
  destruct (stored_all_total (rows df) (encode texts) 0 Hl Hok) as (stored & Hs).
  destruct (@store_cocktails_succeeds Vec literal_eval encode fault df s texts stored
              Fc Fd Fe Fm Fi Hc Hs) as (Hr & Hcm & _).
  destruct (stored_all_spec _ _ _ Hs) as (Hlen & Hnth).
  split; [exact Hr|]. rewrite Hcm. split; [exact Hlen|].
  intros i row Hrow. destruct (Hnth i row Hrow) as (r & e & H1 & H2 & H3).
  destruct (stored_of_inv _ _ H3) as (Hn & Hg & Hrec & He).
  exists r. rewrite He. auto.
Qed.

(** Without the full list of tuples there is no commit. *)
Lemma no_tuples_no_commit (df : DataFrame) (s : St) :
  (forall texts stored,
      column_to_list "combined_text" df = Ok texts ->
      stored_all literal_eval (encode texts) 0 (rows df) <> Ok stored) ->
  committed (snd (store df s)) = committed s
  /\ exists evs, trace (snd (store df s)) = (trace s ++ evs)%list
                 /\ ~ In EvCommit evs.
Proof.
  intros Hno.
  destruct (@store_cocktails_run Vec literal_eval encode fault df s)
    as [msg _ _ Ht Hc | e evs _ Hstop Hc _ Hr
        | texts stored _ _ Hcol Hst _ _ _ _ _ _ _].
  - split; [exact Hc|]. exists [EvConnect]. split; [exact Ht|].
    intros [H|[]]. discriminate.
  - split; [exact Hc|].
    assert (K : ~ In EvCommit evs).
    { destruct Hstop as [|texts ins _ Hi|texts stored Hcol Hst _ _].
      - intros [H|[]]. discriminate.
      - intros [H|[H|H]]; try discriminate.
        rewrite forallb_forall in Hi. apply Hi in H. discriminate.
      - exfalso. exact (Hno _ _ Hcol Hst). }
    destruct Hr as [(_ & _ & Ht) | (m & _ & _ & Ht)].
    + exists (EvConnect :: evs ++ [EvRollback; EvClose])%list. split; [exact Ht|].
      intros [H|H]; [discriminate|]. apply in_app_or in H.
      destruct H as [H|[H|[H|[]]]]; [exact (K H) | discriminate | discriminate].
    + exists (EvConnect :: evs ++ [EvRollback])%list. split; [exact Ht|].
      intros [H|H]; [discriminate|]. apply in_app_or in H.
      destruct H as [H|[H|[]]]; [exact (K H) | discriminate].
  - exfalso. exact (Hno _ _ Hcol Hst).
Qed.

(** X10. One row on which [get_ingredents_list] raises is enough to abort
    the whole ingestion, wherever the row stands in the frame: the
    committed table is left as it was and no commit is even attempted. *)
Theorem failing_row_aborts_ingestion (df : DataFrame) (s : St) (row : Series) (e : exn) :
  In row (rows df) ->
  get_ingredents_list literal_eval row = Raise e ->
  committed (snd (store df s)) = committed s
  /\ exists evs, trace (snd (store df s)) = (trace s ++ evs)%list
                 /\ ~ In EvCommit evs.
Proof.
  intros Hin Hraise. apply no_tuples_no_commit.
  intros texts stored _ Hst.
  destruct (stored_all_needs _ _ _ Hst) as (_ & Hok).
  destruct (Hok row Hin) as (out & Hout). congruence.
Qed.

(** X11. If the embedder returns fewer vectors than the frame has rows,
    the loop runs out of vectors ([all_embeddings[idx]] raises) and the
    ingestion is aborted: the committed table is left as it was and no
    commit is attempted. *)
Theorem short_embedding_batch_aborts (df : DataFrame) (s : St) (texts : list pyval) :
  column_to_list "combined_text" df = Ok texts ->
  length (encode texts) < length (rows df) ->
  committed (snd (store df s)) = committed s
  /\ exists evs, trace (snd (store df s)) = (trace s ++ evs)%list
                 /\ ~ In EvCommit evs.
Proof.
  intros Hc Hshort. apply no_tuples_no_commit.
  intros texts' stored Hc' Hst.
  assert (texts' = texts) by congruence. subst texts'.
  destruct (stored_all_needs _ _ _ Hst) as (Hl & _).
  assert (rows df <> []) by (destruct (rows df); [cbn [length] in Hshort; lia | discriminate]).
  specialize (Hl H). lia.
Qed.

Lemma row_get_fillna (k : string) (row : Series) :
  row_get k (fillna row)
  = match row_get k row with
    | Some PNaN => Some (PStr "")
    | other => other
    end.
Proof.
  induction row as [|[k' v] row IH]; cbn [fillna map row_get fst snd]; [reflexivity|].
  fold (fillna row).
  destruct v; cbn [row_get]; destruct (String.eqb k' k); auto.
Qed.

Lemma row_get_In (k : string) (row : Series) v : row_get k row = Some v -> In (k, v) row.
Proof.
  induction row as [|[k' w] row IH]; cbn [row_get]; [discriminate|].
  destruct (String.eqb k' k) eqn:E.
  - apply String.eqb_eq in E. intros H. inversion H. subst. left. reflexivity.
  - intros H. right. exact (IH H).
Qed.

Lemma combined_text_is_not_a_source_column (k : string) :
  k = "ingredients" \/ k = "name" \/ k = "strDrink" -> k <> "combined_text".
Proof. intros [->|[->| ->]]; discriminate. Qed.

Lemma row_get_decorate (df : DataFrame) (row : Series) (k : string) :
  k <> "combined_text" -> row_get k (decorate df row) = row_get k (fillna row).
Proof. intros H. unfold decorate. apply row_get_row_set_other, H. Qed.

(** A kept row whose cells were texts or empty yields its ingredient list. *)
Lemma decorated_row_normalises (df : DataFrame) (row : Series) :
  (forall k v, In (k, v) row -> text_or_nan v) ->
  exists out, get_ingredents_list literal_eval (decorate df row) = Ok out.
Proof.
  intros Hcells. unfold get_ingredents_list.
  destruct (ingredient_names literal_eval (decorate df row)) as [names|e] eqn:E;
    [eexists; reflexivity|].
  exfalso. apply ingredient_names_raise in E. destruct E as [(v & Hv & _ & Hn) _].
  rewrite row_get_decorate, row_get_fillna in Hv by discriminate.
  destruct (row_get "ingredients" row) as [w|] eqn:Ew; [|discriminate].
  destruct (Hcells _ _ (row_get_In _ _ Ew)) as [->|(x & ->)]; inversion Hv; subst;
    eapply Hn; reflexivity.
Qed.

Lemma name_in_decorated (df : DataFrame) (row : Series) :
  row_get_default (pick_col "name" "strDrink" (decorate df row)) (decorate df row)
  = row_get_default (pick_col "name" "strDrink" row) (fillna row).
Proof.
  assert (P : pick_col "name" "strDrink" (decorate df row)
              = pick_col "name" "strDrink" row).
  { unfold pick_col, row_has.
    rewrite row_get_decorate, row_get_fillna by discriminate.
    destruct (row_get "name" row) as [[]|]; reflexivity. }
  rewrite P. unfold row_get_default, pick_col.
  destruct (row_has "name" row); rewrite row_get_decorate by discriminate; reflexivity.
Qed.

Lemma stored_all_names (rs : list Series) :
  forall (embs : list Vec) idx stored,
  stored_all literal_eval embs idx rs = Ok stored ->
  map (@sc_name Vec) stored
  = map (fun row => row_get_default (pick_col "name" "strDrink" row) row) rs.
Proof.
  induction rs as [|x rest IH]; intros embs idx stored H; cbn [stored_all] in H.
  - inversion H. reflexivity.
  - destruct (embedding_at embs idx) as [e|?]; [|discriminate]. cbn [Res.bind] in H.
    destruct (stored_of literal_eval x e) as [r|?] eqn:Er; [|discriminate].
    cbn [Res.bind] in H.
    destruct (stored_all literal_eval embs (S idx) rest) as [others|?] eqn:Eo;
      [|discriminate].
    cbn [Res.bind] in H. inversion H; subst stored. cbn [map].
    rewrite (IH _ _ _ Eo). destruct (stored_of_inv _ _ Er) as (-> & _). reflexivity.
Qed.

(** X12. The whole pipeline on a readable file with at least one row,
    whose cells are texts or empty, when no call fails and the embedder
    returns one vector per text: [process_and_store] returns normally and
    the committed table holds exactly one tuple per row that [clean_data]
    keeps (one per distinct name when the file has a name column), in the
    order of the file, each under the name of its row (an empty name cell
    being stored as the empty text). *)
Theorem process_and_store_ingests_each_name_once
        (csv_path : string) (df : DataFrame) (s : St) :
  read_csv csv_path = Ok df ->
  rows df <> [] ->
  (forall row k v, In row (rows df) -> In (k, v) row -> text_or_nan v) ->
  fault OpConnect = None -> fault OpDelete = None -> fault OpEncode = None ->
  fault OpCommit = None ->
  (forall i, i < length (kept_rows df) -> fault (OpInsert i) = None) ->
  (forall texts, length (encode texts) = length texts) ->
  fst (process_and_store literal_eval encode read_csv fault csv_path s) = Ok tt
  /\ length (committed (snd (process_and_store literal_eval encode read_csv fault
                                               csv_path s)))
     = length (kept_rows df)
  /\ map (@sc_name Vec)
         (committed (snd (process_and_store literal_eval encode read_csv fault
                                            csv_path s)))
     = map (fun row => row_get_default (pick_col "name" "strDrink" row) (fillna row))
           (kept_rows df).
Proof.
  intros Hread Hrows Hcells Fc Fd Fe Fm Fi Henc.
  unfold process_and_store, load_data, try_except, bind, lift. rewrite Hread.
  unfold print, ret. cbn beta iota.
  match goal with
  | |- context [clean_data df ?x] =>
      destruct (clean_data_total df x Hrows) as (s2 & E); rewrite E
  end.
  assert (Hcol : column_to_list "combined_text" (cleaned df)
                 = Ok (map (cell "combined_text") (rows (cleaned df)))).
  { unfold column_to_list. rewrite has_col_cleaned, String.eqb_refl, orb_true_r.
    reflexivity. }
  set (texts := map (cell "combined_text") (rows (cleaned df))) in Hcol.
  assert (Hlen : length (rows (cleaned df)) = length (kept_rows df))
    by (rewrite rows_cleaned; apply length_map).
  assert (Hok : forall row, In row (rows (cleaned df)) ->
                            exists out, get_ingredents_list literal_eval row = Ok out).
  { intros row Hin. rewrite rows_cleaned in Hin. apply in_map_iff in Hin.
    destruct Hin as (r & <- & Hr). apply decorated_row_normalises.
    intros k v Hkv. apply (Hcells r k v); [|exact Hkv].
    unfold kept_rows in Hr. destruct (has_col _ df); [|exact Hr].
    eapply drop_duplicates_subset. exact Hr. }
  destruct (stored_all_total (rows (cleaned df)) (encode texts) 0) as (stored & Hs);
    [rewrite Henc; unfold texts; rewrite length_map; cbn; lia | exact Hok |].
  destruct (@store_cocktails_succeeds Vec literal_eval encode fault (cleaned df) s2
              texts stored Fc Fd Fe Fm) as (Hr & Hcm & _);
    [intros i Hi; apply Fi; lia | exact Hcol | exact Hs |].
  destruct (stored_all_spec _ _ _ Hs) as (Hl & _).
  split; [exact Hr|]. rewrite Hcm. split; [lia|].
  rewrite (stored_all_names _ _ _ Hs), rows_cleaned, map_map.
  apply map_ext. intros r. apply name_in_decorated.
Qed.

End PipelineMore.

Lemma piece_row_set_other (col k : string) v (row : Series) :
  col <> k -> piece col (row_set k v row) = piece col row.
Proof.
  intros H. unfold piece, cell, row_get_default.
  rewrite row_get_row_set_other by exact H. reflexivity.
Qed.

(** X24. Only the name, the category, the type, the glass, the
    ingredients and the instructions enter the text that is embedded:
    changing or adding any other cell of a row, the measures for one,
    leaves its [combined_text] as it was. *)
Theorem other_columns_never_reach_the_embedding
        (df : DataFrame) (row : Series) (k : string) (v : pyval) :
  ~ In k ["name"; "strDrink"; "category"; "strCategory"; "alcoholic"; "strAlcoholic";
          "glassType"; "strGlass"; "ingredients"; "instructions"; "strInstructions"] ->
  Text.startswith "strIngredient" k = false ->
  combined_text df (row_set k v row) = combined_text df row.
Proof.
  intros Hk Hs. unfold combined_text. f_equal. unfold compose_text, detect_col.
  assert (P : forall col,
             In col ["name"; "strDrink"; "category"; "strCategory"; "alcoholic";
                     "strAlcoholic"; "glassType"; "strGlass"; "ingredients";
                     "instructions"; "strInstructions"] ->
             piece col (row_set k v row) = piece col row).
  { intros col Hc. apply piece_row_set_other. intros ->. exact (Hk Hc). }
  assert (Q : map (fun col => piece col (row_set k v row))
                  (filter (Text.startswith "strIngredient") (columns df))
              = map (fun col => piece col row)
                    (filter (Text.startswith "strIngredient") (columns df))).
  { apply map_ext_in. intros col Hc. apply filter_In in Hc.
    apply piece_row_set_other. intros ->. destruct Hc as [_ Hc]. congruence. }
  rewrite Q.
  repeat match goal with
         | |- context [if has_col ?c df then _ else _] => destruct (has_col c df)
         end;
    rewrite ?P by (cbn; tauto); reflexivity.
Qed.

(* ===================================================================== *)
(** ** Facts about the page *)
(* ===================================================================== *)

Module MarkupFacts.
Import Text Markup.

Lemma lstrip_length s : String.length (lstrip s) <= String.length s.
Proof.
  induction s as [|c s IH]; simpl; [lia|].
  destruct (is_space c); simpl; lia.
Qed.

Lemma rstrip_length s : String.length (rstrip s) <= String.length s.
Proof.
  induction s as [|c s IH]; simpl; [lia|].
  destruct (rstrip s); [destruct (is_space c)|]; simpl in *; lia.
Qed.

Lemma strip_length s : String.length (strip s) <= String.length s.
Proof.
  unfold strip. pose proof (lstrip_length (rstrip s)). pose proof (rstrip_length s). lia.
Qed.

Lemma remove_tags_length s : forall skip,
  String.length (remove_tags skip s) <= String.length s.
Proof.
  induction s as [|c s IH]; intros skip; cbn [remove_tags String.length]; [lia|].
  destruct skip as [|k].
  - destruct (tag_at (String c s)) as [n|]; cbn [String.length].
    + specialize (IH (n - 1)). lia.
    + specialize (IH 0). lia.
  - specialize (IH k). lia.
Qed.

(** A text without an opening bracket holds no tag. *)
Lemma remove_tags_plain s : has_char "<"%char s = false -> remove_tags 0 s = s.
Proof.
  induction s as [|c s IH]; cbn [has_char remove_tags]; [reflexivity|].
  intros H. apply orb_false_iff in H. destruct H as [Hc Hs].
  unfold tag_at. rewrite Hc. rewrite (IH Hs). reflexivity.
Qed.

Lemma lstrip_has_char c s : has_char c s = false -> has_char c (lstrip s) = false.
Proof.
  induction s as [|d s IH]; cbn [has_char lstrip]; [auto|].
  intros H. destruct (is_space d); [|exact H].
  apply orb_false_iff in H. apply IH, H.
Qed.

Lemma rstrip_has_char c s : has_char c s = false -> has_char c (rstrip s) = false.
Proof.
  induction s as [|d s IH]; cbn [has_char rstrip]; [auto|].
  intros H. apply orb_false_iff in H. destruct H as [Hd Hs]. specialize (IH Hs).
  destruct (rstrip s); [destruct (is_space d)|]; cbn [has_char] in *;
    rewrite ?Hd, ?IH; auto.
Qed.

Lemma strip_has_char c s : has_char c s = false -> has_char c (strip s) = false.
Proof. intros H. apply lstrip_has_char, rstrip_has_char, H. Qed.

Lemma split_on_nonempty sep s : split_on sep s <> [].
Proof.
  destruct s as [|c s]; cbn [split_on]; [discriminate|].
  destruct (Ascii.eqb c sep); [discriminate|].
  destruct (split_on sep s); discriminate.
Qed.

(** No piece of a split holds the separator. *)
Lemma split_on_pieces sep s : Forall (fun p => has_char sep p = false) (split_on sep s).
Proof.
  induction s as [|c s IH]; cbn [split_on].
  - repeat constructor.
  - destruct (Ascii.eqb c sep) eqn:E; [constructor; [reflexivity | exact IH]|].
    destruct (split_on sep s) as [|p ps]; [repeat constructor; cbn; rewrite E; reflexivity|].
    inversion IH; subst. constructor; [|assumption].
    cbn [has_char]. rewrite E. assumption.
Qed.

Lemma split_on_plain sep s : has_char sep s = false -> split_on sep s = [s].
Proof.
  induction s as [|c s IH]; cbn [has_char split_on]; [reflexivity|].
  intros H. apply orb_false_iff in H. destruct H as [Hc Hs].
  rewrite Hc, (IH Hs). reflexivity.
Qed.

Lemma split_on_append sep p rest :
  has_char sep p = false ->
  split_on sep (p ++ String sep rest) = p :: split_on sep rest.
Proof.
  induction p as [|c p IH]; cbn [has_char split_on String.append].
  - intros _. rewrite Ascii.eqb_refl. reflexivity.
  - intros H. apply orb_false_iff in H. destruct H as [Hc Hp].
    rewrite Hc, (IH Hp). reflexivity.
Qed.

(** The pieces kept by the comprehension are never blank, carry no
    whitespace at their ends and hold no comma. *)
Lemma stripped_pieces_clean s :
  Forall (fun p => nonempty p = true /\ trimmed p /\ has_char ","%char p = false)
         (stripped_pieces s).
Proof.
  unfold stripped_pieces. apply Forall_forall. intros p H.
  apply filter_In in H. destruct H as [H N]. apply in_map_iff in H.
  destruct H as (q & <- & Hq). split; [exact N|]. split; [apply TextFacts.strip_trimmed|].
  apply strip_has_char.
  pose proof (split_on_pieces ","%char s) as F. rewrite Forall_forall in F. auto.
Qed.

Lemma strip_after_blank n :
  nonempty n = true -> strip n = n -> strip (String " "%char n) = n.
Proof.
  intros N E. unfold strip in *. cbn [rstrip].
  destruct (rstrip n) as [|c r] eqn:R.
  - cbn in E. subst n. discriminate.
  - cbn [lstrip]. change (is_space " "%char) with true. cbn iota. exact E.
Qed.

Lemma first_char_append a b :
  first_char (a ++ b) = match first_char a with Some c => Some c | None => first_char b end.
Proof. destruct a; reflexivity. Qed.

Lemma last_char_append a b :
  last_char (a ++ b) = match last_char b with Some c => Some c | None => last_char a end.
Proof.
  induction a as [|c a IH]; cbn [String.append last_char].
  - destruct (last_char b); reflexivity.
  - rewrite IH. destruct (last_char b); [reflexivity|]. reflexivity.
Qed.

Lemma nonempty_first_char s : nonempty s = true -> exists c, first_char s = Some c.
Proof. destruct s as [|c s]; [discriminate | intros _; exists c; reflexivity]. Qed.

Lemma nonempty_last_char s : nonempty s = true -> exists c, last_char s = Some c.
Proof.
  destruct s as [|c s]; [discriminate|]. intros _. cbn [last_char].
  destruct (last_char s); eauto.
Qed.

Lemma has_char_append c a b : has_char c (a ++ b) = has_char c a || has_char c b.
Proof.
  induction a as [|d a IH]; cbn [String.append has_char]; [reflexivity|].
  rewrite IH. apply orb_assoc.
Qed.

End MarkupFacts.

Section DisplayFacts.

Variable literal_eval : string -> option (list pyval).
Variable sim_percent : pyval -> string.

Local Arguments Text.strip : simpl never.
Local Arguments Markup.remove_tags : simpl never.

(** X13. [clean_value] gives the empty text for [None]; what it returns
    never has whitespace at its ends and is never longer than the text it
    was given; and a text that holds no opening bracket loses nothing but
    the whitespace at its ends. *)
Theorem clean_value_spares_plain_text (value : option pyval) :
  Text.trimmed (clean_value value)
  /\ (is_none value = true -> clean_value value = "")
  /\ (forall v, value = Some v ->
                String.length (clean_value value) <= String.length (py_str v))
  /\ (forall s, value = Some (PStr s) -> Markup.has_char "<"%char s = false ->
                clean_value value = Text.strip s).
Proof.
  unfold clean_value. destruct (is_none value) eqn:N.
  - split; [split; discriminate|]. split; [reflexivity|].
    split; [intros v _; cbn; lia|].
    intros s -> _. discriminate N.
  - destruct value as [v|]; [|discriminate N].
    split; [apply TextFacts.strip_trimmed|]. split; [discriminate|]. split.
    + intros v' E. inversion E; subst v'.
      pose proof (MarkupFacts.strip_length (Markup.remove_tags 0 (py_str v))).
      pose proof (MarkupFacts.remove_tags_length (py_str v) 0). lia.
    + intros s E H. inversion E; subst v. cbn [py_str].
      rewrite (MarkupFacts.remove_tags_plain _ H). reflexivity.
Qed.

Lemma In_firstn {A} (x : A) n l : In x (firstn n l) -> In x l.
Proof.
  revert l. induction n as [|n IH]; intros [|y l]; cbn [firstn]; try contradiction.
  intros [H|H]; [left; exact H | right; exact (IH _ H)].
Qed.

(** X14. The ingredient tags of a card are at most eight; none of them is
    blank, none has whitespace at its ends, none holds a comma. *)
Theorem shown_tags_are_clean (cocktail : Series) (tags : list string) :
  card_tags (display_cocktail sim_percent cocktail) = Some tags ->
  length tags <= 8
  /\ Forall (fun tag => Text.nonempty tag = true /\ Text.trimmed tag
                        /\ Markup.has_char ","%char tag = false) tags.
Proof.
  unfold display_cocktail. cbn [card_tags].
  destruct (Text.nonempty (clean_value (row_get "ingredients" cocktail)));
    [|discriminate].
  intros H.
  assert (E : tags = firstn 8 (Markup.stripped_pieces
                                 (clean_value (row_get "ingredients" cocktail))))
    by congruence.
  clear H. subst tags. split; [apply firstn_le_length|].
  apply Forall_forall. intros tag Hin. apply In_firstn in Hin.
  pose proof (MarkupFacts.stripped_pieces_clean
                (clean_value (row_get "ingredients" cocktail))) as F.
  rewrite Forall_forall in F. exact (F tag Hin).
Qed.

(** Every ingredient [get_ingredents_list] joins is a non-blank, stripped
    text. *)
Lemma ingredient_names_clean (row : Series) (names : list string) :
  ingredient_names literal_eval row = Ok names ->
  Forall (fun n => Text.nonempty n = true /\ Text.strip n = n) names.
Proof.
  intros H.
  destruct (ingredient_names_cases _ _ H)
    as [(_ & ->) | [(s & l & _ & _ & _ & _ & ->) | (s & _ & _ & _ & ->)]].
  - exact (proj1 (@legacy_names_clean literal_eval row)).
  - exact (proj1 (@mapped_filter_clean literal_eval l)).
  - apply one_or_none_clean.
Qed.

Lemma trimmed_of_stripped n : Text.strip n = n -> Text.trimmed n.
Proof. intros <-. apply TextFacts.strip_trimmed. Qed.

(** Splitting a comma-and-blank join of clean names gives the names back. *)
Lemma pieces_after_blank (names : list string) :
  names <> [] ->
  Forall (fun n => Text.nonempty n = true /\ Text.strip n = n
                   /\ Markup.has_char ","%char n = false) names ->
  filter Text.nonempty
         (map Text.strip (Markup.split_on ","%char
                                          (String " "%char (Text.join ", " names))))
  = names.
Proof.
  induction names as [|n rest IH]; [congruence|]. intros _ F.
  inversion F as [|? ? (N & S & C) F']; subst.
  destruct rest as [|m rest'].
  - cbn [Text.join String.concat].
    rewrite MarkupFacts.split_on_plain by (cbn; exact C).
    cbn [map filter]. rewrite (@MarkupFacts.strip_after_blank n N S), N. reflexivity.
  - change (Text.join ", " (n :: m :: rest'))
      with (n ++ String ","%char (String " "%char (Text.join ", " (m :: rest'))))%string.
    change (String " "%char (n ++ ?x))%string with ((String " "%char n) ++ x)%string.
    rewrite MarkupFacts.split_on_append by (cbn; exact C).
    cbn [map filter]. rewrite (@MarkupFacts.strip_after_blank n N S), N.
    rewrite IH; [reflexivity | discriminate | exact F'].
Qed.

Lemma pieces_of_join (names : list string) :
  names <> [] ->
  Forall (fun n => Text.nonempty n = true /\ Text.strip n = n
                   /\ Markup.has_char ","%char n = false) names ->
  Markup.stripped_pieces (Text.join ", " names) = names.
Proof.
  destruct names as [|n rest]; [congruence|]. intros _ F.
  inversion F as [|? ? (N & S & C) F']; subst. unfold Markup.stripped_pieces.
  destruct rest as [|m rest'].
  - cbn [Text.join String.concat].
    rewrite MarkupFacts.split_on_plain by exact C.
    cbn [map filter]. rewrite S, N. reflexivity.
  - change (Text.join ", " (n :: m :: rest'))
      with (n ++ String ","%char (String " "%char (Text.join ", " (m :: rest'))))%string.
    rewrite MarkupFacts.split_on_append by exact C.
    cbn [map filter]. rewrite S, N.
    rewrite pieces_after_blank; [reflexivity | discriminate | exact F'].
Qed.

(** A join of clean names is itself clean. *)
Lemma join_clean (names : list string) :
  names <> [] ->
  Forall (fun n => Text.nonempty n = true /\ Text.strip n = n
                   /\ Markup.has_char "<"%char n = false) names ->
  Text.nonempty (Text.join ", " names) = true
  /\ (exists c, Text.last_char (Text.join ", " names) = Some c
                /\ Text.is_space c = false)
  /\ (forall c, Text.first_char (Text.join ", " names) = Some c ->
                Text.is_space c = false)
  /\ Markup.has_char "<"%char (Text.join ", " names) = false.
Proof.
  induction names as [|n rest IH]; [congruence|]. intros _ F.
  inversion F as [|? ? (N & S & C) F']; subst.
  pose proof (@trimmed_of_stripped n S) as [T1 T2].
  destruct (@MarkupFacts.nonempty_last_char n N) as (cl & Hcl).
  destruct rest as [|m rest'].
  - cbn [Text.join String.concat]. split; [exact N|].
    split; [exists cl; split; [exact Hcl | exact (T2 _ Hcl)]|]. split; [exact T1 | exact C].
  - destruct IH as (N' & (c' & Hc' & Sc') & _ & C'); [discriminate | exact F'|].
    change (Text.join ", " (n :: m :: rest'))
      with (n ++ (", " ++ Text.join ", " (m :: rest')))%string.
    split; [destruct n; [discriminate N | reflexivity]|]. split; [|split].
    + exists c'. rewrite !MarkupFacts.last_char_append, Hc'. auto.
    + intros c. rewrite MarkupFacts.first_char_append.
      destruct (@MarkupFacts.nonempty_first_char n N) as (cf & Hcf). rewrite Hcf.
      intros E. apply T1. congruence.
    + rewrite !MarkupFacts.has_char_append, C, C'. reflexivity.
Qed.

(** X15. From ingestion to display: when the ingredients that
    [get_ingredents_list] joined hold neither a comma nor an opening
    bracket, a card drawn from the stored text shows exactly these
    ingredients as tags, in order, cut after the eighth; a cocktail
    without ingredients has no block of tags. *)
Theorem stored_ingredients_come_back_as_tags
        (row cocktail : Series) (names : list string) (out : string) :
  ingredient_names literal_eval row = Ok names ->
  get_ingredents_list literal_eval row = Ok out ->
  Forall (fun n => Markup.has_char ","%char n = false
                   /\ Markup.has_char "<"%char n = false) names ->
  row_get "ingredients" cocktail = Some (PStr out) ->
  card_tags (display_cocktail sim_percent cocktail)
  = match names with
    | [] => None
    | _ => Some (firstn 8 names)
    end.
Proof.
  intros Hn Hg Hf Hc. unfold get_ingredents_list in Hg. rewrite Hn in Hg.
  cbn [Res.bind] in Hg. inversion Hg; subst out. clear Hg.
  pose proof (@ingredient_names_clean row names Hn) as Hclean.
  unfold display_cocktail. cbn [card_tags]. rewrite Hc.
  destruct names as [|n rest]; [reflexivity|].
  assert (F1 : Forall (fun n => Text.nonempty n = true /\ Text.strip n = n
                                /\ Markup.has_char "<"%char n = false) (n :: rest)).
  { rewrite Forall_forall in *. intros x Hx.
    destruct (Hclean x Hx), (Hf x Hx). auto. }
  assert (F2 : Forall (fun n => Text.nonempty n = true /\ Text.strip n = n
                                /\ Markup.has_char ","%char n = false) (n :: rest)).
  { rewrite Forall_forall in *. intros x Hx.
    destruct (Hclean x Hx), (Hf x Hx). auto. }
  destruct (@join_clean (n :: rest)) as (N & (c & Hl & Sl) & Hfirst & Hlt);
    [discriminate | exact F1 |].
  assert (E : clean_value (Some (PStr (Text.join ", " (n :: rest))))
              = Text.join ", " (n :: rest)).
  { unfold clean_value. cbn [is_none pyval_eqb py_str].
    rewrite (@MarkupFacts.remove_tags_plain _ Hlt).
    apply TextFacts.strip_fixed. split; [exact Hfirst|].
    intros c' Hc'. rewrite Hl in Hc'. inversion Hc'; subst. exact Sl. }
  rewrite E, N, (@pieces_of_join (n :: rest)); [reflexivity | discriminate | exact F2].
Qed.

End DisplayFacts.

Section PageFacts.

Variable Result : Type.
Variable recommender : RecCall -> list Result.
Variable format_cocktail_result : Result -> Series.
Variable sim_percent : pyval -> string.

Local Abbreviation run_main := (main recommender format_cocktail_result sim_percent).

Lemma SearchType_eqb_eq (a b : SearchType) : SearchType_eqb a b = true <-> a = b.
Proof. destruct a, b; cbn; split; congruence. Qed.

(** X16. [handle_ingredients_search] queries the recommender only after a
    click, and then once, with the selected ingredients followed by the
    pieces of the free-text box; these pieces are never blank, carry no
    whitespace at their ends and hold no comma, and the list sent is never
    empty. *)
Theorem ingredient_search_query_is_clean
        (selected : list string) (custom : string) (button : bool) (call : RecCall) :
  In call (snd (handle_ingredients_search recommender selected custom button)) ->
  button = true
  /\ snd (handle_ingredients_search recommender selected custom button) = [call]
  /\ fst (handle_ingredients_search recommender selected custom button)
     = recommender call
  /\ exists pieces,
       call = CallByIngredients (selected ++ pieces) 10
       /\ (selected ++ pieces)%list <> []
       /\ pieces = (if Text.nonempty custom then Markup.stripped_pieces custom else [])
       /\ Forall (fun p => Text.nonempty p = true /\ Text.trimmed p
                           /\ Markup.has_char ","%char p = false) pieces.
Proof.
  unfold handle_ingredients_search.
  set (pieces := if Text.nonempty custom then Markup.stripped_pieces custom else []).
  assert (E : (if Text.nonempty custom
               then (selected ++ Markup.stripped_pieces custom)%list
               else selected) = (selected ++ pieces)%list).
  { unfold pieces. destruct (Text.nonempty custom); [reflexivity|].
    rewrite app_nil_r. reflexivity. }
  rewrite E. destruct (list_bool (selected ++ pieces)) eqn:L; [|intros []].
  destruct button; [|intros []]. cbn [fst snd].
  intros [<-|[]]. split; [reflexivity|]. split; [reflexivity|]. split; [reflexivity|].
  exists pieces. split; [reflexivity|]. split.
  - intros Z. rewrite Z in L. discriminate.
  - split; [reflexivity|]. unfold pieces.
    destruct (Text.nonempty custom); [apply MarkupFacts.stripped_pieces_clean | constructor].
Qed.

(** X17. One script run makes at most one call to the recommender, the
    results of the run are the answer to that call (and empty without a
    call), and the recommender is never asked an empty question: a name,
    an occasion or a category sent to it is not the empty text, a list of
    ingredients or of styles is not the empty list, a mixed query has at
    least one of its four fields, and the limit is 10, or 6 for the random
    draw. *)
Theorem recommender_never_gets_an_empty_query (input : FormInput) :
  length (snd (dispatch recommender input)) <= 1
  /\ fst (dispatch recommender input)
     = match snd (dispatch recommender input) with
       | [] => []
       | call :: _ => recommender call
       end
  /\ forall call,
       In call (snd (dispatch recommender input)) ->
       match call with
       | CallByName name => name <> ""
       | CallByIngredients l limit => l <> [] /\ limit = 10
       | CallByStyle l limit => l <> [] /\ limit = 10
       | CallByOccasion occasion limit => occasion <> "" /\ limit = 10
       | CallByCategory category limit => category <> "" /\ limit = 10
       | CallRandom limit => limit = 6
       | CallMixed q =>
           q_limit q = 10
           /\ (q_ingredients q <> None \/ q_style q <> None
               \/ q_occasion q <> None \/ q_alcoholic_preference q <> None)
       end.
Proof.
  destruct input as [name|selected custom button|styles button|occasion button
                     |form|category|button]; cbn [dispatch].
  - unfold handle_name_search. destruct name; cbn; repeat split; try lia;
      intros call []; subst; try discriminate; contradiction.
  - unfold handle_ingredients_search.
    destruct (if Text.nonempty custom
              then (selected ++ Markup.stripped_pieces custom)%list
              else selected) as [|x l]; cbn [list_bool fst snd length];
      [repeat split; try lia; intros call []|].
    destruct button; cbn [fst snd length]; repeat split; try lia;
      intros call []; subst; try contradiction; split; [discriminate | reflexivity].
  - unfold handle_style_search. destruct styles as [|x l]; cbn [list_bool fst snd length];
      [repeat split; try lia; intros call []|].
    destruct button; cbn [fst snd length]; repeat split; try lia;
      intros call []; subst; try contradiction; split; [discriminate | reflexivity].
  - unfold handle_occasion_search. destruct occasion; cbn [Text.nonempty fst snd length];
      [repeat split; try lia; intros call []|].
    destruct button; cbn [fst snd length]; repeat split; try lia;
      intros call []; subst; try contradiction; split; [discriminate | reflexivity].
  - destruct form as [ing sty occ alc btn]. unfold handle_mixed_search.
    cbn [f_ingredients f_styles f_occasion f_alcoholic_pref f_button].
    destruct (existsb (fun b : bool => b)
                      [list_bool ing; list_bool sty; Text.nonempty occ; Text.nonempty alc])
      eqn:A; cbn [fst snd map length]; [|repeat split; try lia; intros call []].
    destruct btn; cbn [fst snd map length]; [|repeat split; try lia; intros call []].
    repeat split; try lia. intros call [<-|[]]. cbn [q_limit q_ingredients q_style
      q_occasion q_alcoholic_preference]. split; [reflexivity|].
    cbn [existsb] in A. rewrite orb_false_r in A.
    destruct ing; [|left; discriminate]. destruct sty; [|right; left; discriminate].
    unfold str_or_none. cbn [list_bool orb] in A.
    destruct (Text.nonempty occ); [right; right; left; discriminate|].
    cbn [orb] in A. rewrite A. right; right; right. discriminate.
  - unfold handle_category_search. destruct category; cbn; repeat split; try lia;
      intros call []; subst; try discriminate; try contradiction;
      split; [discriminate | reflexivity].
  - unfold handle_random_search. destruct button; cbn; repeat split; try lia;
      intros call []; subst; try contradiction; reflexivity.
Qed.

Lemma row_get_set_same key v (row : Series) : row_get key (row_set key v row) = Some v.
Proof.
  induction row as [|[k w] row IH]; cbn [row_set row_get].
  - rewrite String.eqb_refl. reflexivity.
  - destruct (String.eqb k key) eqn:E; cbn [row_get]; rewrite E; auto.
Qed.

Lemma badge_of_hidden_similarity (cocktail : Series) :
  card_badge (display_cocktail sim_percent (row_set "similarity" PNone cocktail)) = None.
Proof.
  unfold display_cocktail. cbn [card_badge]. rewrite row_get_set_same. reflexivity.
Qed.

(** X18. Under the search types that compute no similarity (by category,
    random, by name) no card shows a score badge, whatever the recommender
    put in the [similarity] field of its rows and whether the cards come
    from this run or from the session. *)
Theorem no_score_outside_similarity_searches
        (session : Session Result) (input : FormInput) (card : Card) :
  show_similarity (search_type_of input) = false ->
  In card (shown (snd (fst (run_main session input)))) ->
  card_badge card = None.
Proof.
  intros Hs. unfold main. cbn [fst snd]. rewrite Hs.
  match goal with
  | |- In card (shown (match ?rs with [] => _ | _ => _ end)) -> _ =>
      destruct rs as [|r rs']
  end; cbn [shown]; [intros []|].
  intros Hin. apply in_map_iff in Hin. destruct Hin as (res & <- & _).
  apply badge_of_hidden_similarity.
Qed.

(** X19. A run whose form returns nothing does not touch what an earlier
    run of the same search type left in the session: the earlier results
    are drawn again, and if there are some the notice "No cocktails found"
    is not shown, even though this search found nothing. *)
Theorem empty_answer_keeps_earlier_results
        (session : Session Result) (input : FormInput) :
  last_search_type session = Some (search_type_of input) ->
  fst (dispatch recommender input) = [] ->
  fst (fst (run_main session input)) = session
  /\ length (shown (snd (fst (run_main session input))))
     = length (search_results session)
  /\ (search_results session <> [] ->
      no_match_notice (snd (fst (run_main session input))) = false).
Proof.
  intros Hl Hd. unfold main. cbn [fst snd]. rewrite Hl, Hd.
  rewrite (proj2 (SearchType_eqb_eq _ _) eq_refl).
  split; [reflexivity|].
  destruct (search_results session) as [|r rs]; cbn [shown no_match_notice length].
  - split; [reflexivity | congruence].
  - rewrite length_map. split; reflexivity.
Qed.

(** X20. Results are never carried from one search type to another: in
    the first run under a new entry of the select box the session is
    emptied before the form is read, so when the form returns nothing no
    card is drawn; the notice "No cocktails found" is then shown, although
    nothing may have been searched yet, unless the entry is the search by
    name. *)
Theorem switching_search_type_drops_results
        (session : Session Result) (input : FormInput) :
  last_search_type session <> Some (search_type_of input) ->
  fst (dispatch recommender input) = [] ->
  fst (fst (run_main session input)) = mkSession [] (Some (search_type_of input))
  /\ shown (snd (fst (run_main session input))) = []
  /\ no_match_notice (snd (fst (run_main session input)))
     = negb (SearchType_eqb (search_type_of input) SearchByName).
Proof.
  intros Hl Hd. unfold main. cbn [fst snd]. rewrite Hd.
  assert (E : match last_search_type session with
              | Some t => SearchType_eqb t (search_type_of input)
              | None => false
              end = false).
  { destruct (last_search_type session) as [t|]; [|reflexivity].
    destruct (SearchType_eqb t (search_type_of input)) eqn:B; [|reflexivity].
    apply SearchType_eqb_eq in B. congruence. }
  rewrite E. cbn [search_results last_search_type shown no_match_notice].
  split; [reflexivity|]. split; [reflexivity|].
  destruct (search_type_of input); reflexivity.
Qed.

End PageFacts.

(* ===================================================================== *)
(** ** Facts about setting up the database *)
(* ===================================================================== *)

Section SetupFacts.
Import Setup.

Variable fault : Setup.Op -> option string.
Variable exists_row : bool.
Variable db_name : string.

Local Arguments String.append : simpl never.
Local Arguments exn_str : simpl never.

Local Ltac split_faults :=
  repeat match goal with
         | |- context [match fault ?op with _ => _ end] =>
             let F := fresh "F" in destruct (fault op) eqn:F; cbn
         end.

(** X21. [setup_pgvector] never raises. It issues its calls in the order
    connection, cursor, extension, table, index, commit, and stops at the
    first that fails: the table is never created before the extension,
    the commit is issued only after the three statements went through,
    and after a failure the connection is not closed and nothing is
    rolled back; the caller only sees the printed line. *)
Theorem setup_pgvector_swallows_failures (log : Log) :
  fst (setup_pgvector fault log) = Ok tt
  /\ (exists k,
        issued (snd (setup_pgvector fault log))
        = (issued log
             ++ firstn k [Connect; OpenCursor; CreateExtension; CreateTable;
                          CreateIndex; Commit; CloseCursor; Close])%list)
  /\ (forall ops,
        issued (snd (setup_pgvector fault log)) = (issued log ++ ops)%list ->
        (In Commit ops ->
         fault CreateExtension = None /\ fault CreateTable = None
         /\ fault CreateIndex = None)
        /\ (In Close ops ->
            forall op, In op [Connect; OpenCursor; CreateExtension; CreateTable;
                              CreateIndex; Commit; CloseCursor] -> fault op = None))
  /\ ((forall op, fault op = None) ->
      last_printed (snd (setup_pgvector fault log))
      = "Database tables and pgvector extension set up sucessfully.")
  /\ (forall op msg,
        In op [Connect; OpenCursor; CreateExtension; CreateTable; CreateIndex;
               Commit; CloseCursor; Close] ->
        fault op = Some msg ->
        exists msg', last_printed (snd (setup_pgvector fault log))
                     = "Error setting up pgvector: " ++ msg').
Proof.
  unfold setup_pgvector, try_except, bind, calls, call, ret, print, last_printed.
  cbn. split_faults.
  all: split; [reflexivity|].
  all: split;
    [match goal with
     | |- exists k, ?x = (_ ++ firstn k ?full)%list =>
         first [ exists 1; rewrite <- ?app_assoc; reflexivity
               | exists 2; rewrite <- ?app_assoc; reflexivity
               | exists 3; rewrite <- ?app_assoc; reflexivity
               | exists 4; rewrite <- ?app_assoc; reflexivity
               | exists 5; rewrite <- ?app_assoc; reflexivity
               | exists 6; rewrite <- ?app_assoc; reflexivity
               | exists 7; rewrite <- ?app_assoc; reflexivity
               | exists 8; rewrite <- ?app_assoc; reflexivity ]
     end|].
  all: rewrite <- ?app_assoc; cbn [app].
  all: split;
    [intros ops E; apply app_inv_head in E; subst ops; split;
     [intros H; cbn in H;
      first [ exfalso; clear - H; intuition discriminate
            | repeat split; assumption ]
     |intros H op Hop; cbn in H;
      first [ exfalso; clear - H; intuition discriminate
            | intuition (subst; assumption) ]]|].
  all: split;
    [intros Hall;
     first [ rewrite last_last; reflexivity
           | exfalso;
             match goal with
             | F : fault ?op = Some _ |- _ => rewrite Hall in F; discriminate F
             end ]|].
  all: intros op msg Hop Hf;
    first [ rewrite last_last; eexists; reflexivity
          | exfalso; intuition (subst; congruence) ].
Qed.

Lemma create_database_returns (log : Log) :
  fst (create_database fault exists_row db_name log) = Ok tt.
Proof.
  unfold create_database, try_except, bind, calls, call, ret, print.
  cbn. split_faults; destruct exists_row; cbn; split_faults; reflexivity.
Qed.

Lemma setup_pgvector_starts (log : Log) :
  exists rest,
    issued (snd (setup_pgvector fault log)) = (issued log ++ Connect :: rest)%list.
Proof.
  unfold setup_pgvector, try_except, bind, calls, call, ret, print.
  cbn. split_faults; rewrite <- ?app_assoc; cbn [app]; eexists; reflexivity.
Qed.

(** X22. [create_database] never raises, and it issues CREATE DATABASE
    only when the connection, the cursor and the lookup in [pg_database]
    all went through and the lookup found no row; when the lookup finds
    the database, nothing is created. The connection is closed only when
    nothing failed before. *)
Theorem create_database_creates_only_what_is_missing (log : Log) (ops : list Setup.Op) :
  issued (snd (create_database fault exists_row db_name log)) = (issued log ++ ops)%list ->
  fst (create_database fault exists_row db_name log) = Ok tt
  /\ (In CreateDatabase ops ->
      exists_row = false
      /\ forall op, In op [Connect; SetAutocommit; OpenCursor; SelectDatabase; FetchOne] ->
                    fault op = None)
  /\ (exists_row = true -> ~ In CreateDatabase ops)
  /\ (In Close ops ->
      (forall op, In op [Connect; SetAutocommit; OpenCursor; SelectDatabase; FetchOne;
                         CloseCursor] -> fault op = None)
      /\ (exists_row = false -> fault CreateDatabase = None)).
Proof.
  intros E. split; [apply create_database_returns|]. revert E.
  unfold create_database, try_except, bind, calls, call, ret, print.
  cbn. split_faults; destruct exists_row; cbn; split_faults;
    rewrite <- ?app_assoc; cbn [app];
    intros E; apply app_inv_head in E; subst ops.
  all: split;
    [intros H; cbn in H;
     first [ exfalso; clear - H; intuition discriminate
           | split; [reflexivity | intros op Hop; cbn in Hop;
                                   intuition (subst; assumption)] ]|].
  all: split;
    [intros Hex H; cbn in H;
     first [ discriminate Hex | clear - H; intuition discriminate ]|].
  all: intros H; cbn in H;
    first [ exfalso; clear - H; intuition discriminate
          | split; [intros op Hop; cbn in Hop; intuition (subst; assumption)
                   | intros Hex; first [discriminate Hex | reflexivity | assumption]] ].
Qed.

(** X23. The [__main__] block runs both steps whatever happens: it never
    raises, and [setup_pgvector] makes its connection attempt even when
    [create_database] has failed. *)
Theorem setup_runs_both_steps (log : Log) :
  fst (setup_main fault exists_row db_name log) = Ok tt
  /\ exists rest,
       issued (snd (setup_main fault exists_row db_name log))
       = (issued (snd (create_database fault exists_row db_name log))
            ++ Connect :: rest)%list.
Proof.
  unfold setup_main, bind.
  pose proof (create_database_returns log) as R.
  destruct (create_database fault exists_row db_name log) as [r log1].
  cbn [fst snd] in *. subst r. split.
  - apply (proj1 (A := fst (setup_pgvector fault log1) = Ok tt) (B := True)).
    split; [|exact I].
    unfold setup_pgvector, try_except, bind, calls, call, ret, print.
    cbn. split_faults; reflexivity.
  - apply setup_pgvector_starts.
Qed.

End SetupFacts.

(* ===================================================================== *)
(** ** Further worked runs *)
(* ===================================================================== *)

Lemma unreadable_measures_hide_the_ingredient_list_witness :
  create_recipe_text Literal.literal_eval MoreSamples.broken_measures
  = Ok (recipe_header MoreSamples.broken_measures
          ++ "- ['Gin', 'Vermouth']" ++ Text.nl).
Proof.
  refine (@unreadable_measures_hide_the_ingredient_list Literal.literal_eval
            MoreSamples.broken_measures "['Gin', 'Vermouth']" (PStr "['2 oz'")
            eq_refl eq_refl eq_refl eq_refl _).
  right. exists "['2 oz'". repeat split; reflexivity.
Defined.

Lemma clean_data_keeps_first_of_each_name_witness :
  map (name_of MoreSamples.with_duplicate) (kept_rows MoreSamples.with_duplicate)
  = [PStr "Martini"; PStr "Negroni"]
  /\ rows (cleaned MoreSamples.with_duplicate)
     = map (decorate MoreSamples.with_duplicate) (kept_rows MoreSamples.with_duplicate).
Proof.
  split; [reflexivity|].
  exact (proj1 (@clean_data_keeps_first_of_each_name nat MoreSamples.with_duplicate
                  (cleaned MoreSamples.with_duplicate) Sample.empty_store
                  (snd (clean_data MoreSamples.with_duplicate Sample.empty_store))
                  eq_refl)).
Defined.

Lemma cleaned_frame_is_ready_for_storage_witness :
  has_col "combined_text" (cleaned MoreSamples.with_duplicate) = true.
Proof.
  exact (proj1 (@cleaned_frame_is_ready_for_storage nat MoreSamples.with_duplicate
                  (cleaned MoreSamples.with_duplicate) Sample.empty_store
                  (snd (clean_data MoreSamples.with_duplicate Sample.empty_store))
                  eq_refl)).
Defined.

Lemma empty_frame_stops_the_pipeline_witness :
  exists msg,
    fst (clean_data MoreSamples.header_only Sample.old_store) = Raise (IndexError msg).
Proof.
  exact (proj1 (@empty_frame_stops_the_pipeline nat Literal.literal_eval Sample.encode
                  MoreSamples.header_file Sample.no_fault MoreSamples.header_only
                  Sample.old_store eq_refl)).
Defined.

Lemma unreachable_store_raises_attribute_error_witness :
  fst (store_cocktails Literal.literal_eval Sample.encode MoreSamples.connect_fault
                       Sample.cleaned_corpus Sample.old_store)
  = Raise (AttributeError "'NoneType' object has no attribute 'rollback'").
Proof.
  exact (proj1 (@unreachable_store_raises_attribute_error nat Literal.literal_eval
                  Sample.encode MoreSamples.connect_fault Sample.cleaned_corpus
                  Sample.old_store "connection refused" eq_refl)).
Defined.

Lemma ingestion_stores_every_row_witness :
  length (committed (snd (store_cocktails Literal.literal_eval Sample.encode
                                          Sample.no_fault Sample.cleaned_corpus
                                          Sample.old_store)))
  = 1.
Proof.
  refine (proj1 (proj2 (@ingestion_stores_every_row nat Literal.literal_eval
                          Sample.encode Sample.no_fault Sample.cleaned_corpus
                          Sample.old_store
                          (map (cell "combined_text") (rows Sample.cleaned_corpus))
                          eq_refl eq_refl eq_refl eq_refl (fun _ _ => eq_refl)
                          eq_refl _ _))).
  - vm_compute. apply le_n.
  - intros row [<-|[]]. eexists. vm_compute. reflexivity.
Defined.

Lemma failing_row_aborts_ingestion_witness :
  committed (snd (store_cocktails Literal.literal_eval Sample.encode Sample.no_fault
                                  MoreSamples.numeric_frame Sample.old_store))
  = [Sample.old_row].
Proof.
  refine (proj1 (@failing_row_aborts_ingestion nat Literal.literal_eval Sample.encode
                   Sample.no_fault MoreSamples.numeric_frame Sample.old_store
                   MoreSamples.numeric_ingredients
                   (AttributeError "object has no attribute 'strip'") _ eq_refl)).
  left. reflexivity.
Defined.

Lemma short_embedding_batch_aborts_witness :
  committed (snd (store_cocktails Literal.literal_eval MoreSamples.mute_encode
                                  Sample.no_fault Sample.cleaned_corpus
                                  Sample.old_store))
  = [Sample.old_row].
Proof.
  refine (proj1 (@short_embedding_batch_aborts nat Literal.literal_eval
                   MoreSamples.mute_encode Sample.no_fault Sample.cleaned_corpus
                   Sample.old_store
                   (map (cell "combined_text") (rows Sample.cleaned_corpus))
                   eq_refl _)).
  vm_compute. apply le_n.
Defined.

Lemma process_and_store_ingests_each_name_once_witness :
  map (@sc_name nat)
      (committed (snd (process_and_store Literal.literal_eval Sample.encode
                                         MoreSamples.duplicate_file Sample.no_fault
                                         "cocktails.csv" Sample.old_store)))
  = [PStr "Martini"; PStr "Negroni"].
Proof.
  refine (proj2 (proj2 (@process_and_store_ingests_each_name_once nat
                          Literal.literal_eval Sample.encode
                          MoreSamples.duplicate_file Sample.no_fault
                          "cocktails.csv" MoreSamples.with_duplicate Sample.old_store
                          eq_refl _ _ eq_refl eq_refl eq_refl eq_refl
                          (fun _ _ => eq_refl) _))).
  - discriminate.
  - intros row k v Hrow Hin.
    cbn in Hrow; repeat (destruct Hrow as [Hrow|Hrow]); try contradiction; subst row;
      cbn in Hin; repeat (destruct Hin as [Hin|Hin]); try contradiction;
      inversion Hin; subst; first [left; reflexivity | right; eexists; reflexivity].
  - intros texts. apply length_map.
Defined.

Lemma shown_tags_are_clean_witness :
  length ["Gin"; "Vermouth"] <= 8.
Proof.
  exact (proj1 (@shown_tags_are_clean MoreSamples.sim_percent MoreSamples.martini_dict
                  ["Gin"; "Vermouth"] eq_refl)).
Defined.

Lemma stored_ingredients_come_back_as_tags_witness :
  card_tags (display_cocktail MoreSamples.sim_percent MoreSamples.martini_dict)
  = Some ["Gin"; "Vermouth"].
Proof.
  refine (@stored_ingredients_come_back_as_tags Literal.literal_eval
            MoreSamples.sim_percent Sample.martini MoreSamples.martini_dict
            ["Gin"; "Vermouth"] "Gin, Vermouth" eq_refl eq_refl _ eq_refl).
  repeat constructor.
Defined.

Lemma ingredient_search_query_is_clean_witness :
  snd (handle_ingredients_search MoreSamples.recommender ["gin"] " lime , ,mint" true)
  = [CallByIngredients ["gin"; "lime"; "mint"] 10].
Proof.
  refine (proj1 (proj2 (@ingredient_search_query_is_clean _ MoreSamples.recommender
                          ["gin"] " lime , ,mint" true
                          (CallByIngredients ["gin"; "lime"; "mint"] 10) _))).
  left. reflexivity.
Defined.

Lemma no_score_outside_similarity_searches_witness :
  card_badge (display_cocktail MoreSamples.sim_percent
                               (row_set "similarity" PNone MoreSamples.martini_dict))
  = None.
Proof.
  refine (@no_score_outside_similarity_searches _ MoreSamples.recommender
            MoreSamples.format_cocktail_result MoreSamples.sim_percent
            (mkSession [] None) (InCategory "Cocktail") _ eq_refl _).
  left. reflexivity.
Defined.

Lemma empty_answer_keeps_earlier_results_witness :
  fst (fst (main MoreSamples.recommender MoreSamples.format_cocktail_result
                 MoreSamples.sim_percent MoreSamples.after_category_search
                 (InCategory "")))
  = MoreSamples.after_category_search.
Proof.
  exact (proj1 (@empty_answer_keeps_earlier_results _ MoreSamples.recommender
                  MoreSamples.format_cocktail_result MoreSamples.sim_percent
                  MoreSamples.after_category_search (InCategory "")
                  eq_refl eq_refl)).
Defined.

Lemma switching_search_type_drops_results_witness :
  shown (snd (fst (main MoreSamples.recommender MoreSamples.format_cocktail_result
                        MoreSamples.sim_percent MoreSamples.after_category_search
                        (InRandom false))))
  = [].
Proof.
  refine (proj1 (proj2 (@switching_search_type_drops_results _ MoreSamples.recommender
                          MoreSamples.format_cocktail_result MoreSamples.sim_percent
                          MoreSamples.after_category_search (InRandom false)
                          _ eq_refl))).
  discriminate.
Defined.

Lemma create_database_creates_only_what_is_missing_witness :
  fst (Setup.create_database MoreSamples.setup_ok false "cocktails_db"
                             MoreSamples.start)
  = Ok tt.
Proof.
  exact (proj1 (@create_database_creates_only_what_is_missing MoreSamples.setup_ok
                  false "cocktails_db" MoreSamples.start
                  [Setup.Connect; Setup.SetAutocommit; Setup.OpenCursor;
                   Setup.SelectDatabase; Setup.FetchOne; Setup.CreateDatabase;
                   Setup.CloseCursor; Setup.Close]
                  eq_refl)).
Defined.

Lemma other_columns_never_reach_the_embedding_witness :
  combined_text Sample.corpus
                (row_set "ingredientMeasures" (PStr "['3 oz']") Sample.martini)
  = combined_text Sample.corpus Sample.martini.
Proof.
  refine (@other_columns_never_reach_the_embedding Sample.corpus Sample.martini
            "ingredientMeasures" (PStr "['3 oz']") _ eq_refl).
  cbn. intuition discriminate.
Defined.
